(** * Study Bible Compendium: reference resolution and the query facades

    A shallow embedding of [sbc/loader.py], [sbc/search.py],
    [sbc/context.py] and [sbc/parallel.py], and the properties of the
    reference parser, the book resolver, the verse store accessor and the
    four query facades; with them, the command handlers of [compendium.py]
    that print what the facades return, and the reading of a CSV file in
    [sbc/excel_import.py] up to the rows that the import prepares for the
    database.

    Conventions of the embedding:
    - a Python [str] is a [string]; the development covers ASCII text, so a
      character above 127 has no case and is neither a space nor a digit;
    - a Python [int] is a [Z];
    - a [dict] that is only looked up is a [gmap]; the canon, which is
      iterated over, is an association list in insertion order;
    - console output and exceptions are threaded through the monad [M]. *)

From Stdlib Require Import ZArith Ascii Lia.
From stdpp Require Import base option list gmap strings sorting.

Local Open Scope Z_scope.

(** ** Python string and integer primitives *)

Module py.

Definition code (c : ascii) : N := N_of_ascii c.

(** [str.isspace] on one ASCII character: TAB, LF, VT, FF, CR, the four
    separators FS, GS, RS, US, and the space. *)
Definition isspace (c : ascii) : bool :=
  ((9 <=? code c) && (code c <=? 13) || (28 <=? code c) && (code c <=? 32))%N.

Definition isdigit (c : ascii) : bool :=
  ((48 <=? code c) && (code c <=? 57))%N.

Definition isupper (c : ascii) : bool :=
  ((65 <=? code c) && (code c <=? 90))%N.

Definition islower (c : ascii) : bool :=
  ((97 <=? code c) && (code c <=? 122))%N.

Definition lower_char (c : ascii) : ascii :=
  if isupper c then ascii_of_N (code c + 32) else c.

Definition upper_char (c : ascii) : ascii :=
  if islower c then ascii_of_N (code c - 32) else c.

(** [s.lower()] and [s.upper()] *)
Fixpoint lower (s : string) : string :=
  match s with
  | EmptyString => EmptyString
  | String c s' => String (lower_char c) (lower s')
  end.

Fixpoint upper (s : string) : string :=
  match s with
  | EmptyString => EmptyString
  | String c s' => String (upper_char c) (upper s')
  end.

(** [s.lstrip()], [s.rstrip()] and [s.strip()] *)
Fixpoint lstrip (s : string) : string :=
  match s with
  | EmptyString => EmptyString
  | String c s' => if isspace c then lstrip s' else s
  end.

Fixpoint rstrip (s : string) : string :=
  match s with
  | EmptyString => EmptyString
  | String c s' =>
      match rstrip s' with
      | EmptyString => if isspace c then EmptyString else String c EmptyString
      | r => String c r
      end
  end.

Definition strip (s : string) : string := rstrip (lstrip s).

(** [c in s] for a one-character needle *)
Fixpoint contains (c : ascii) (s : string) : bool :=
  match s with
  | EmptyString => false
  | String d s' => Ascii.eqb d c || contains c s'
  end.

(** [s.rindex(c)]: the highest index of [c]; [None] stands for the
    [ValueError] of a missing needle. *)
Fixpoint rindex (c : ascii) (s : string) : option nat :=
  match s with
  | EmptyString => None
  | String d s' =>
      match rindex c s' with
      | Some i => Some (S i)
      | None => if Ascii.eqb d c then Some O else None
      end
  end.

(** The slices [s[:i]] and [s[i:]] for [0 <= i]. *)
Fixpoint slice_to (i : nat) (s : string) : string :=
  match i, s with
  | S i', String c s' => String c (slice_to i' s')
  | _, _ => EmptyString
  end.

Fixpoint slice_from (i : nat) (s : string) : string :=
  match i, s with
  | S i', String _ s' => slice_from i' s'
  | _, _ => s
  end.

(** [s.split(c, 1)]: one piece when [c] does not occur, otherwise the text
    before the first [c] and the text after it. *)
Fixpoint split1 (c : ascii) (s : string) : list string :=
  match s with
  | EmptyString => [EmptyString]
  | String d s' =>
      if Ascii.eqb d c then [EmptyString; s']
      else match split1 c s' with
           | [a] => [String d a]
           | a :: rest => String d a :: rest
           | [] => []
           end
  end.

Definition digit_value (c : ascii) : Z := Z.of_N (code c) - 48.

(** The digits of an [int] literal after its first digit: digits, with
    single underscores allowed between two digits. *)
Fixpoint int_digits (acc : Z) (s : string) : option Z :=
  match s with
  | EmptyString => Some acc
  | String c s' =>
      if isdigit c then int_digits (10 * acc + digit_value c) s'
      else if Ascii.eqb c "_" then
        match s' with
        | String d s'' =>
            if isdigit d then int_digits (10 * acc + digit_value d) s''
            else None
        | EmptyString => None
        end
      else None
  end.

Definition int_unsigned (s : string) : option Z :=
  match s with
  | String c s' => if isdigit c then int_digits (digit_value c) s' else None
  | EmptyString => None
  end.

(** [int(s)] in base ten: surrounding whitespace, an optional sign, then
    the digits.  [None] stands for [ValueError].  The interpreter's limit
    on the length of a numeral (4300 digits by default since Python 3.11)
    is not modelled. *)
Definition int (s : string) : option Z :=
  match strip s with
  | String "+" r => int_unsigned r
  | String "-" r => Z.opp <$> int_unsigned r
  | t => int_unsigned t
  end.

Definition digit_char (d : Z) : ascii := ascii_of_N (Z.to_N (48 + d)).

Fixpoint str_digits (fuel : nat) (n : Z) (acc : string) : string :=
  let acc' := String (digit_char (n mod 10)) acc in
  match fuel with
  | O => acc'
  | S fuel' => if n <? 10 then acc' else str_digits fuel' (n / 10) acc'
  end.

(** [str(n)], as an f-string formats an [int]: a decimal numeral has no
    more digits than the number has bits. *)
Definition str (n : Z) : string :=
  if n <? 0 then String "-" (str_digits (Z.to_nat (Z.log2 (- n))) (- n) EmptyString)
  else str_digits (Z.to_nat (Z.log2 n)) n EmptyString.

End py.

(** ** Console output and exceptions *)

(** The exceptions that the modelled code can meet. *)
Inductive exn : Type :=
| ValueError       (* [int()] of a non-numeral, a failed tuple unpacking *)
| KeyError         (* [d[k]] on a missing key *)
| sqlite3_Error    (* [sqlite3.Error] and its subclasses *)
| OverflowError.   (* an [int] parameter outside SQLite's INTEGER range *)

Inductive outcome (A : Type) : Type :=
| Returned (a : A)
| Raised (e : exn).
Arguments Returned {A} a.
Arguments Raised {A} e.

(** The messages of [info] and [warn], each with the values its f-string
    interpolates; the wording itself is not modelled. *)
Inductive message : Type :=
| EmptySearchQuery
| SearchBanner (query : string) (limit : Z) (translation : option string)
| SearchDatabaseError
| SearchRowCount (n : nat)
| EmptyReference
| CannotSplitReference (ref : string)
| MissingColon (ref : string)
| NonIntegerChapter (ref : string)
| InvalidVerseRange (ref : string)
| InvalidVerseNumber (ref : string)
| InvalidChapterVerse (ref : string)
| PassageBanner (ref translation : string)
| ContextBanner (ref translation : string) (before after : Z)
| ParallelBanner (ref : string) (codes : list string)
| NoTranslationCodes
| CanonNotFound
| CanonEmpty
| UnresolvedBook (book_str : string)
| PassageDatabaseError
| ContextDatabaseError
| ParallelDatabaseError
| PassageRowCount (n : nat)
| ContextRowCount (n : nat)
| NoVersesFound
| NoParallelRows.

Inductive console_line : Type :=
| InfoLine (m : message)      (* [info(...)]: a line tagged [info] *)
| WarnLine (m : message)      (* [warn(...)]: a line tagged [warn] *)
| PrintLine (s : string).     (* [print(...)] *)

(** A computation prints lines and then returns or raises. *)
Definition M (A : Type) : Type := (list console_line * outcome A)%type.

Definition ret {A} (a : A) : M A := ([], Returned a).

Definition raise {A} (e : exn) : M A := ([], Raised e).

Definition bind {A B} (m : M A) (k : A -> M B) : M B :=
  match m with
  | (out, Returned a) => let '(out', r) := k a in (out ++ out', r)
  | (out, Raised e) => (out, Raised e)
  end.

Definition console {A} (m : M A) : list console_line := fst m.
Definition result {A} (m : M A) : outcome A := snd m.

Declare Scope py_scope.
Delimit Scope py_scope with py.
Notation "x <- m ;; k" := (bind m (fun x => k))
  (at level 100, m at next level, right associativity) : py_scope.
Notation "m ;; k" := (bind m (fun _ => k))
  (at level 100, right associativity) : py_scope.
Local Open Scope py_scope.

Definition info (m : message) : M unit := ([InfoLine m], Returned tt).
Definition warn (m : message) : M unit := ([WarnLine m], Returned tt).
Definition print (s : string) : M unit := ([PrintLine s], Returned tt).

(** [for x in xs: body x] *)
Fixpoint for_each {A} (xs : list A) (body : A -> M unit) : M unit :=
  match xs with
  | [] => ret tt
  | x :: xs' => body x ;; for_each xs' body
  end.

(** ** [sbc/util.py] *)

(** [info], [warn] and [ok] with the wording of the message, for the callers
    whose messages can be written out. *)
Module util.

Definition info (msg : string) : M unit := print ("[info] " +:+ msg).

Definition warn (msg : string) : M unit := print ("[warn] " +:+ msg).

Definition ok (msg : string) : M unit := print ("[ok] " +:+ msg).

End util.

(** ** Insertion-ordered dictionaries *)

(** A Python [dict] whose iteration order matters: the items in insertion
    order, each key once. *)
Module pydict.

Definition t (K V : Type) : Type := list (K * V).

Section ops.
Context {K V : Type} `{EqDecision K}.

Fixpoint get (d : t K V) (k : K) : option V :=
  match d with
  | [] => None
  | (k', v) :: d' => if decide (k' = k) then Some v else get d' k
  end.

(** [d[k] = v]: an existing key keeps its place, a new one goes last. *)
Fixpoint set (d : t K V) (k : K) (v : V) : t K V :=
  match d with
  | [] => [(k, v)]
  | (k', v') :: d' =>
      if decide (k' = k) then (k', v) :: d' else (k', v') :: set d' k v
  end.

Definition items (d : t K V) : list (K * V) := d.
Definition values (d : t K V) : list V := snd <$> d.

(** [not d] *)
Definition is_empty (d : t K V) : bool :=
  match d with [] => true | _ => false end.

(** [d[k]] *)
Definition getitem (d : t K V) (k : K) : M V :=
  match get d k with
  | Some v => ret v
  | None => raise KeyError
  end.
End ops.

End pydict.

(** ** [sbc/loader.py] *)

Module loader.

(** One record of [data/canon.json]. *)
Record canon_entry : Type := {
  entry_book_num : Z;
  entry_code : string;
  entry_name : string;
  entry_testament : option string
}.

(** The value [load_canon] keeps per book. *)
Record book_meta : Type := {
  code : string;
  name : string;
  testament : string
}.

(** [data/canon.json] as [load_canon] finds it: missing, or a list of
    records. *)
Definition canon_file : Type := option (list canon_entry).

Definition load_canon (f : canon_file) : M (pydict.t Z book_meta) :=
  match f with
  | None => warn CanonNotFound ;; ret []
  | Some data =>
      ret (fold_left
             (fun result entry =>
                pydict.set result (entry_book_num entry)
                  {| code := entry_code entry;
                     name := entry_name entry;
                     testament := default "unknown" (entry_testament entry) |})
             data [])
  end.

(** The keys one book contributes.  The source iterates over the set
    [{code, code.lower(), name, name.lower()}]; every key receives the same
    number, so the order within the set does not show in the result. *)
Definition book_keys (meta : book_meta) : list string :=
  [code meta; py.lower (code meta); name meta; py.lower (name meta)].

Definition _build_book_lookup (canon : pydict.t Z book_meta) : gmap string Z :=
  fold_left
    (fun lookup '(num, meta) =>
       fold_left (fun lookup key => <[key := num]> lookup) (book_keys meta) lookup)
    (pydict.items canon) ∅.

Definition _resolve_book (book_str : string) (book_lookup : gmap string Z)
  : option (Z * option string) :=
  let key_exact := book_str in
  let key_lower := py.lower book_str in
  match book_lookup !! key_exact with
  | Some num => Some (num, None)
  | None =>
      match book_lookup !! key_lower with
      | Some num => Some (num, None)
      | None => None
      end
  end.

End loader.

(** ** The verse store *)

(** [try: body except <handled>: handler] *)
Definition try_except {A} (body : M A) (handled : exn -> bool) (handler : M A) : M A :=
  match body with
  | (out, Raised e) =>
      if handled e then let '(out', r) := handler in (out ++ out', r)
      else (out, Raised e)
  | (out, Returned a) => (out, Returned a)
  end.

Definition is_sqlite3_Error (e : exn) : bool :=
  match e with sqlite3_Error => true | _ => false end.

Module sqlite.

(** The columns of [verses_normalized] that the queries read. *)
Record row : Type := {
  translation_code : string;
  book_num : Z;
  book_code : string;
  chapter : Z;
  verse : Z;
  text : string
}.

(** What [get_conn(readonly=True)] finds: no usable database (the file is
    missing or damaged, or has no [verses_normalized] table), or the
    table. *)
Inductive database : Type :=
| unavailable
| verses_normalized (rows : list row).

(** SQLite stores an INTEGER in 64 bits, two's complement. *)
Definition fits_integer (n : Z) : bool :=
  (- 2 ^ 63 <=? n) && (n <? 2 ^ 63).

(** [with get_conn(readonly=True) as conn: conn.execute(sql, params).fetchall()].
    Opening the database or preparing the statement fails with a
    [sqlite3.Error]; after that the parameters are bound, and an [int]
    that does not fit an INTEGER raises [OverflowError]; otherwise the
    SELECT runs on the table. *)
Definition execute {R} (db : database) (int_params : list Z)
    (select : list row -> list R) : M (list R) :=
  match db with
  | unavailable => raise sqlite3_Error
  | verses_normalized rows =>
      if forallb fits_integer int_params then ret (select rows)
      else raise OverflowError
  end.

(** [x BETWEEN lo AND hi] *)
Definition between (x lo hi : Z) : bool := (lo <=? x) && (x <=? hi).

(** [ORDER BY verse] *)
Definition by_verse (a b : row) : Prop := verse a <= verse b.

(** [ORDER BY verse, translation_code], text compared byte by byte. *)
Definition by_verse_translation (a b : row) : Prop :=
  verse a < verse b \/
  (verse a = verse b /\ String.le (translation_code a) (translation_code b)).

(** [ORDER BY translation_code, book_num, chapter, verse] *)
Definition by_reference (a b : row) : Prop :=
  String.ltb (translation_code a) (translation_code b) = true \/
  (translation_code a = translation_code b /\
   (book_num a < book_num b \/
    (book_num a = book_num b /\
     (chapter a < chapter b \/
      (chapter a = chapter b /\ verse a <= verse b))))).

#[global] Instance by_verse_dec : RelDecision by_verse.
Proof. intros a b; unfold by_verse; apply _. Defined.
#[global] Instance by_verse_translation_dec : RelDecision by_verse_translation.
Proof. intros a b; unfold by_verse_translation; apply _. Defined.
#[global] Instance by_reference_dec : RelDecision by_reference.
Proof. intros a b; unfold by_reference; apply _. Defined.

(** [text LIKE pattern]: [%] stands for any run of characters, [_] for any
    one character, and ASCII letters match without regard to case. *)
Fixpoint like (pattern txt : string) : bool :=
  match pattern with
  | EmptyString => match txt with EmptyString => true | _ => false end
  | String c pattern' =>
      if Ascii.eqb c "%" then
        (fix any_suffix (t : string) : bool :=
           like pattern' t ||
           match t with
           | EmptyString => false
           | String _ t' => any_suffix t'
           end) txt
      else
        match txt with
        | EmptyString => false
        | String d txt' =>
            (Ascii.eqb c "_" || Ascii.eqb (py.upper_char c) (py.upper_char d))
            && like pattern' txt'
        end
  end.

(** [LIMIT n]: a negative [n] means no limit. *)
Definition limit {A} (n : Z) (l : list A) : list A :=
  if n <? 0 then l else take (Z.to_nat n) l.

End sqlite.

(** [(translation_code, book_num, book_code, chapter, verse, text)] *)
Definition VerseRow : Type := (string * Z * string * Z * Z * string)%type.

Definition verse_row (r : sqlite.row) : VerseRow :=
  (sqlite.translation_code r, sqlite.book_num r, sqlite.book_code r,
   sqlite.chapter r, sqlite.verse r, sqlite.text r).

Definition row_verse (r : VerseRow) : Z := let '(_, _, _, _, v, _) := r in v.
Definition row_text (r : VerseRow) : string := let '(_, _, _, _, _, t) := r in t.

(** What the facades read from their surroundings: [data/canon.json] and
    [compendium.sqlite]. *)
Record world : Type := {
  canon_json : loader.canon_file;
  db : sqlite.database
}.

(** The loop [for key in keys: if key in lookup: num = lookup[key]; break]
    that every facade runs on [(book_str, book_str.lower())]. *)
Fixpoint first_key (keys : list string) (book_lookup : gmap string Z) : option Z :=
  match keys with
  | [] => None
  | key :: keys' =>
      match book_lookup !! key with
      | Some num => Some num
      | None => first_key keys' book_lookup
      end
  end.

(** ** [sbc/search.py] *)

Module search.

Definition _build_book_lookup := loader._build_book_lookup.

(** [SELECT ... WHERE translation_code = ? AND text LIKE ?
     ORDER BY translation_code, book_num, chapter, verse LIMIT ?] *)
Definition select_like_in_translation (translation_code pattern : string)
    (limit : Z) (table : list sqlite.row) : list sqlite.row :=
  sqlite.limit limit
    (merge_sort sqlite.by_reference
       (filter
          (fun r =>
             sqlite.translation_code r = translation_code /\
             sqlite.like pattern (sqlite.text r) = true)
          table)).

(** [SELECT ... WHERE text LIKE ?
     ORDER BY translation_code, book_num, chapter, verse LIMIT ?] *)
Definition select_like (pattern : string) (limit : Z)
    (table : list sqlite.row) : list sqlite.row :=
  sqlite.limit limit
    (merge_sort sqlite.by_reference
       (filter (fun r => sqlite.like pattern (sqlite.text r) = true) table)).

(** [SELECT ... WHERE translation_code = ? AND book_num = ? AND chapter = ?
     AND verse BETWEEN ? AND ? ORDER BY verse] *)
Definition select_passage (translation_code : string)
    (num chapter v_start v_end : Z) (table : list sqlite.row) : list sqlite.row :=
  merge_sort sqlite.by_verse
    (filter
       (fun r =>
          sqlite.translation_code r = translation_code /\
          sqlite.book_num r = num /\
          sqlite.chapter r = chapter /\
          sqlite.between (sqlite.verse r) v_start v_end = true)
       table).

Definition search_verses (w : world) (query : string) (limit : Z)
    (translation_code : option string) : M (list VerseRow) :=
  let query := py.strip query in
  if decide (query = EmptyString) then
    warn EmptySearchQuery ;; ret []
  else
    info (SearchBanner query limit translation_code) ;;
    fetched <-
      try_except
        (rows <-
           match translation_code with
           | Some (String c t) =>
               let translation_code := py.upper (String c t) in
               sqlite.execute (db w) [limit]
                 (select_like_in_translation translation_code
                    ("%" +:+ query +:+ "%") limit)
           | _ =>
               sqlite.execute (db w) [limit]
                 (select_like ("%" +:+ query +:+ "%") limit)
           end ;;
         ret (Some rows))
        is_sqlite3_Error
        (warn SearchDatabaseError ;; ret None) ;;
    match fetched with
    | None => ret []
    | Some rows =>
        info (SearchRowCount (length rows)) ;;
        ret (verse_row <$> rows)
    end.

Definition _parse_reference (ref : string) : M (option (string * Z * Z * Z)) :=
  let s := py.strip ref in
  if decide (s = EmptyString) then
    warn EmptyReference ;; ret None
  else
    match py.rindex " " s with
    | None => warn (CannotSplitReference ref) ;; ret None
    | Some space_idx =>
        let book_str := py.strip (py.slice_to space_idx s) in
        let cv_str := py.strip (py.slice_from (space_idx + 1) s) in
        if negb (py.contains ":" cv_str) then
          warn (MissingColon ref) ;; ret None
        else
          match py.split1 ":" cv_str with
          | [chap_str; verse_part] =>
              match py.int chap_str with
              | None => warn (NonIntegerChapter ref) ;; ret None
              | Some chapter =>
                  let verse_part := py.strip verse_part in
                  if py.contains "-" verse_part then
                    match py.split1 "-" verse_part with
                    | [start_str; end_str] =>
                        match py.int (py.strip start_str), py.int (py.strip end_str) with
                        | Some v_start, Some v_end =>
                            ret (Some (book_str, chapter, v_start, v_end))
                        | _, _ => warn (InvalidVerseRange ref) ;; ret None
                        end
                    | _ => raise ValueError
                    end
                  else
                    match py.int verse_part with
                    | Some v => ret (Some (book_str, chapter, v, v))
                    | None => warn (InvalidVerseNumber ref) ;; ret None
                    end
              end
          | _ => raise ValueError
          end
    end.

Definition get_passage (w : world) (ref translation_code : string)
  : M (list VerseRow) :=
  let translation_code := py.upper translation_code in
  info (PassageBanner ref translation_code) ;;
  parsed <- _parse_reference ref ;;
  match parsed with
  | None => ret []
  | Some (book_str, chapter, v_start, v_end) =>
      canon <- loader.load_canon (canon_json w) ;;
      if pydict.is_empty canon then
        warn CanonEmpty ;; ret []
      else
        let book_lookup := _build_book_lookup canon in
        match first_key [book_str; py.lower book_str] book_lookup with
        | None => warn (UnresolvedBook book_str) ;; ret []
        | Some num =>
            book_meta <- pydict.getitem canon num ;;
            let book_code := loader.code book_meta in
            fetched <-
              try_except
                (rows <-
                   sqlite.execute (db w) [num; chapter; v_start; v_end]
                     (select_passage translation_code num chapter v_start v_end) ;;
                 ret (Some rows))
                is_sqlite3_Error
                (warn PassageDatabaseError ;; ret None) ;;
            match fetched with
            | None => ret []
            | Some rows =>
                info (PassageRowCount (length rows)) ;;
                ret (verse_row <$> rows)
            end
        end
  end.

(** The three lines that [print_search_results] writes for a row under the
    book name [book_name]. *)
Definition print_row (book_name : string) (row : VerseRow) : M unit :=
  let '(code, book_num, book_code, chapter, verse, text) := row in
  print ("[" +:+ code +:+ "] " +:+ book_name +:+ " " +:+ py.str chapter +:+ ":"
         +:+ py.str verse) ;;
  print ("    " +:+ text) ;;
  print EmptyString.

Definition print_search_results (w : world) (rows : list VerseRow) : M unit :=
  match rows with
  | [] => util.info "No results."
  | _ =>
      canon <- loader.load_canon (canon_json w) ;;
      if pydict.is_empty canon then
        util.warn "Canon mapping missing; printing without book names." ;;
        for_each rows
          (fun row =>
             let '(code, book_num, book_code, chapter, verse, text) := row in
             print_row book_code row)
      else
        for_each rows
          (fun row =>
             let '(code, book_num, book_code, chapter, verse, text) := row in
             let book_name :=
               match pydict.get canon book_num with
               | Some meta => loader.name meta
               | None => book_code
               end in
             print_row book_name row)
  end.

End search.

(** ** [sbc/context.py] *)

Module context.

Definition _build_book_lookup := loader._build_book_lookup.

Definition _parse_reference (ref : string) : M (option (string * Z * Z)) :=
  let s := py.strip ref in
  if decide (s = EmptyString) then
    warn EmptyReference ;; ret None
  else
    match py.rindex " " s with
    | None => warn (CannotSplitReference ref) ;; ret None
    | Some space_idx =>
        let book_str := py.strip (py.slice_to space_idx s) in
        let cv_str := py.strip (py.slice_from (space_idx + 1) s) in
        if negb (py.contains ":" cv_str) then
          warn (MissingColon ref) ;; ret None
        else
          match py.split1 ":" cv_str with
          | [chap_str; verse_str] =>
              match py.int (py.strip chap_str), py.int (py.strip verse_str) with
              | Some chapter, Some verse => ret (Some (book_str, chapter, verse))
              | _, _ => warn (InvalidChapterVerse ref) ;; ret None
              end
          | _ => raise ValueError
          end
    end.

(** [SELECT ... WHERE translation_code = ? AND book_num = ? AND chapter = ?
     AND verse BETWEEN ? AND ? ORDER BY verse] *)
Definition select_window (translation_code : string)
    (num chapter v_start v_end : Z) (table : list sqlite.row) : list sqlite.row :=
  merge_sort sqlite.by_verse
    (filter
       (fun r =>
          sqlite.translation_code r = translation_code /\
          sqlite.book_num r = num /\
          sqlite.chapter r = chapter /\
          sqlite.between (sqlite.verse r) v_start v_end = true)
       table).

Definition get_verse_window (w : world) (ref translation_code : string)
    (before after : Z) : M (list VerseRow) :=
  let translation_code := py.upper translation_code in
  info (ContextBanner ref translation_code before after) ;;
  parsed <- _parse_reference ref ;;
  match parsed with
  | None => ret []
  | Some (book_str, chapter, center_verse) =>
      canon <- loader.load_canon (canon_json w) ;;
      if pydict.is_empty canon then
        warn CanonEmpty ;; ret []
      else
        let book_lookup := _build_book_lookup canon in
        match first_key [book_str; py.lower book_str] book_lookup with
        | None => warn (UnresolvedBook book_str) ;; ret []
        | Some num =>
            book_meta <- pydict.getitem canon num ;;
            let book_code := loader.code book_meta in
            let v_start := Z.max 1 (center_verse - before) in
            let v_end := center_verse + after in
            fetched <-
              try_except
                (rows <-
                   sqlite.execute (db w) [num; chapter; v_start; v_end]
                     (select_window translation_code num chapter v_start v_end) ;;
                 ret (Some rows))
                is_sqlite3_Error
                (warn ContextDatabaseError ;; ret None) ;;
            match fetched with
            | None => ret []
            | Some rows =>
                info (ContextRowCount (length rows)) ;;
                ret (verse_row <$> rows)
            end
        end
  end.

End context.

(** ** [sbc/parallel.py] *)

Module parallel.

(** [(book_code, chapter, verse, texts_by_translation)] *)
Definition ParallelRow : Type := (string * Z * Z * gmap string string)%type.

Definition _build_book_lookup := loader._build_book_lookup.

Definition _parse_reference_range (ref : string) : M (option (string * Z * Z * Z)) :=
  let s := py.strip ref in
  if decide (s = EmptyString) then
    warn EmptyReference ;; ret None
  else
    match py.rindex " " s with
    | None => warn (CannotSplitReference ref) ;; ret None
    | Some space_idx =>
        let book_str := py.strip (py.slice_to space_idx s) in
        let cv_str := py.strip (py.slice_from (space_idx + 1) s) in
        if negb (py.contains ":" cv_str) then
          warn (MissingColon ref) ;; ret None
        else
          match py.split1 ":" cv_str with
          | [chap_str; verse_part] =>
              match py.int (py.strip chap_str) with
              | None => warn (NonIntegerChapter ref) ;; ret None
              | Some chapter =>
                  let verse_part := py.strip verse_part in
                  if py.contains "-" verse_part then
                    match py.split1 "-" verse_part with
                    | [start_str; end_str] =>
                        match py.int (py.strip start_str), py.int (py.strip end_str) with
                        | Some v_start, Some v_end =>
                            ret (Some (book_str, chapter, v_start, v_end))
                        | _, _ => warn (InvalidVerseRange ref) ;; ret None
                        end
                    | _ => raise ValueError
                    end
                  else
                    match py.int verse_part with
                    | Some v => ret (Some (book_str, chapter, v, v))
                    | None => warn (InvalidVerseNumber ref) ;; ret None
                    end
              end
          | _ => raise ValueError
          end
    end.

(** The row of the parallel SELECT:
    [(translation_code, book_code, chapter, verse, text)]. *)
Definition fetched_row : Type := (string * string * Z * Z * string)%type.

Definition select_columns (r : sqlite.row) : fetched_row :=
  (sqlite.translation_code r, sqlite.book_code r, sqlite.chapter r,
   sqlite.verse r, sqlite.text r).

(** [SELECT translation_code, book_code, chapter, verse, text ...
     WHERE translation_code IN (?, ...) AND book_num = ? AND chapter = ?
     AND verse BETWEEN ? AND ? ORDER BY verse, translation_code] *)
Definition select_parallel (translation_codes : list string)
    (num chapter v_start v_end : Z) (table : list sqlite.row) : list fetched_row :=
  select_columns <$>
  merge_sort sqlite.by_verse_translation
    (filter
       (fun r =>
          sqlite.translation_code r ∈ translation_codes /\
          sqlite.book_num r = num /\
          sqlite.chapter r = chapter /\
          sqlite.between (sqlite.verse r) v_start v_end = true)
       table).

(** The loop that regroups the fetched rows: [verse -> {code: text}]. *)
Definition build_verse_map (chapter : Z) (rows : list fetched_row)
  : gmap Z (gmap string string) :=
  fold_left
    (fun verse_map '(t_code, b_code, chap, verse, text) =>
       if decide (chap <> chapter) then verse_map
       else
         let mapping := default ∅ (verse_map !! verse) in
         <[verse := <[t_code := text]> mapping]> verse_map)
    rows ∅.

Definition get_parallel_verses (w : world) (ref : string)
    (translation_codes : list string) : M (list ParallelRow) :=
  let translation_codes := py.upper <$> translation_codes in
  info (ParallelBanner ref translation_codes) ;;
  if decide (translation_codes = []) then
    warn NoTranslationCodes ;; ret []
  else
    parsed <- _parse_reference_range ref ;;
    match parsed with
    | None => ret []
    | Some (book_str, chapter, v_start, v_end) =>
        canon <- loader.load_canon (canon_json w) ;;
        if pydict.is_empty canon then
          warn CanonEmpty ;; ret []
        else
          let book_lookup := _build_book_lookup canon in
          match first_key [book_str; py.lower book_str] book_lookup with
          | None => warn (UnresolvedBook book_str) ;; ret []
          | Some num =>
              book_meta <- pydict.getitem canon num ;;
              let book_code := loader.code book_meta in
              fetched <-
                try_except
                  (rows <-
                     sqlite.execute (db w) [num; chapter; v_start; v_end]
                       (select_parallel translation_codes num chapter v_start v_end) ;;
                   ret (Some rows))
                  is_sqlite3_Error
                  (warn ParallelDatabaseError ;; ret None) ;;
              match fetched with
              | None => ret []
              | Some [] => warn NoVersesFound ;; ret []
              | Some rows =>
                  let verse_map := build_verse_map chapter rows in
                  ret ((fun verse =>
                          let texts := default ∅ (verse_map !! verse) in
                          (book_code, chapter, verse, texts))
                         <$> seqZ v_start (v_end + 1 - v_start))
              end
          end
    end.

Definition missing_text : string := "(missing in this translation)".

Definition print_parallel (w : world) (ref : string)
    (translation_codes : list string) (rows : list ParallelRow) : M unit :=
  match rows with
  | [] => warn NoParallelRows ;; ret tt
  | (first_book_code, _, _, _) :: _ =>
      let translation_codes := py.upper <$> translation_codes in
      canon <- loader.load_canon (canon_json w) ;;
      let book_code := first_book_code in
      let book_name :=
        if pydict.is_empty canon then book_code
        else
          match find (fun meta => bool_decide (loader.code meta = book_code))
                     (pydict.values canon) with
          | Some meta => loader.name meta
          | None => book_code
          end in
      for_each rows
        (fun '(book_code, chapter, verse, texts) =>
           print (book_name +:+ " " +:+ py.str chapter +:+ ":" +:+ py.str verse) ;;
           for_each translation_codes
             (fun code =>
                let text := default missing_text (texts !! code) in
                print ("  [" +:+ code +:+ "] " +:+ text)) ;;
           print EmptyString)
  end.

End parallel.

(** ** [sbc/model.py] *)

Module model.

Record VerseRef : Type := {
  book_num : Z;
  chapter : Z;
  verse : Z
}.

(** [f"{book_code.upper()}.{self.chapter}.{self.verse}"] *)
Definition to_normalized (self : VerseRef) (book_code : string) : string :=
  py.upper book_code +:+ "." +:+ py.str (chapter self) +:+ "." +:+ py.str (verse self).

End model.

(** ** [sbc/excel_import.py] *)

Module excel_import.

Record ExcelVerseRow : Type := {
  book : string;
  chapter : Z;
  verse : Z;
  text : string;
  raw_row_index : Z
}.

(** [HEADER_CANDIDATES], in the order in which the dictionary lists its
    keys. *)
Definition HEADER_CANDIDATES : pydict.t string (list string) :=
  [("book", ["book"; "bookname"; "book_name"; "bk"]);
   ("chapter", ["chapter"; "chap"; "ch"]);
   ("verse", ["verse"; "verse_num"; "vs"; "v"]);
   ("text", ["text"; "verse_text"; "content"; "body"])].

(** [s.replace(c, '')] for a one-character [c] *)
Fixpoint remove_char (c : ascii) (s : string) : string :=
  match s with
  | EmptyString => EmptyString
  | String d s' =>
      if Ascii.eqb d c then remove_char c s' else String d (remove_char c s')
  end.

(** A header cell is [None] or a string, as the CSV reader gives it; the
    other values of a worksheet cell are not covered. *)
Definition _normalize_header (value : option string) : string :=
  match value with
  | None => EmptyString
  | Some s =>
      remove_char "_" (remove_char "-" (remove_char " " (py.lower (py.strip s))))
  end.

(** The messages of this module, each with the values that its f-string
    interpolates, the path of the file apart. *)
Inductive notice : Type :=
| ColumnNotDetected (logical_name : string) (headers : list (option string))
| OpeningCsvFile
| CsvFileEmpty
| DetectedHeaderRow (headers : list string)
| DetectionFailed
| StoppingAfterMaxRows (max_rows : Z)
| NotEnoughColumns (row_idx : Z)
| ColumnAccessError (row_idx : Z)
| MissingBookChapterVerse (row_idx : Z)
| EmptyVerseText (row_idx : Z)
| NonIntegerChapterVerse (row_idx : Z) (chapter_raw verse_raw : string)
| EmptyBookValue (row_idx : Z).

(** A computation of this module writes messages and then returns or
    raises. *)
Definition E (A : Type) : Type := (list notice * outcome A)%type.

(** The loop over the items of a candidates table, [mapping] holding the
    columns found so far: the first header that is one of the candidates
    gives the column, and a logical name without one ends the search. *)
Fixpoint detect_columns (table : pydict.t string (list string))
    (headers : list (option string)) (norm_headers : list string)
    (mapping : gmap string nat) : list notice * option (gmap string nat) :=
  match table with
  | [] => ([], Some mapping)
  | (logical_name, candidates) :: table' =>
      match list_find (fun norm => norm ∈ candidates) norm_headers with
      | None => ([ColumnNotDetected logical_name headers], None)
      | Some (i, _) =>
          detect_columns table' headers norm_headers (<[logical_name := i]> mapping)
      end
  end.

Definition _detect_column_mapping (headers : list (option string))
  : list notice * option (gmap string nat) :=
  let norm_headers := _normalize_header <$> headers in
  detect_columns HEADER_CANDIDATES headers norm_headers ∅.

(** [not s] *)
Definition is_empty (s : string) : bool :=
  match s with EmptyString => true | _ => false end.

(** The loop of [_iter_verses_from_csv] over the rows that the reader
    gives after the header, [row_idx] and [count] being the loop's
    variables; the rows yielded are collected in a list. *)
Fixpoint csv_rows (mapping : gmap string nat) (max_rows : option Z)
    (rows : list (list string)) (row_idx count : Z) : E (list ExcelVerseRow) :=
  match rows with
  | [] => ([], Returned [])
  | row :: rows' =>
      let skip (n : notice) : E (list ExcelVerseRow) :=
        let '(out, r) := csv_rows mapping max_rows rows' (row_idx + 1) count in
        (n :: out, r) in
      let body : E (list ExcelVerseRow) :=
        match (map_to_list mapping).*2 with
        | [] => ([], Raised ValueError)
        | indices =>
            if bool_decide (length row < max_list indices + 1)%nat then
              skip (NotEnoughColumns row_idx)
            else
              match mapping !! "book", mapping !! "chapter",
                    mapping !! "verse", mapping !! "text" with
              | Some book_i, Some chapter_i, Some verse_i, Some text_i =>
                  match row !! book_i, row !! chapter_i,
                        row !! verse_i, row !! text_i with
                  | Some book_raw, Some chapter_raw, Some verse_raw, Some text_raw =>
                      if is_empty book_raw || is_empty chapter_raw || is_empty verse_raw
                      then skip (MissingBookChapterVerse row_idx)
                      else
                        let text_str :=
                          if is_empty text_raw then EmptyString else py.strip text_raw in
                        if is_empty text_str then skip (EmptyVerseText row_idx)
                        else
                          match py.int chapter_raw, py.int verse_raw with
                          | Some chapter_int, Some verse_int =>
                              let book_str := py.strip book_raw in
                              if is_empty book_str then skip (EmptyBookValue row_idx)
                              else
                                let '(out, r) :=
                                  csv_rows mapping max_rows rows' (row_idx + 1)
                                    (count + 1) in
                                (out,
                                 match r with
                                 | Returned yielded =>
                                     Returned
                                       ({| book := book_str;
                                           chapter := chapter_int;
                                           verse := verse_int;
                                           text := text_str;
                                           raw_row_index := row_idx |} :: yielded)
                                 | Raised e => Raised e
                                 end)
                          | _, _ =>
                              skip (NonIntegerChapterVerse row_idx chapter_raw verse_raw)
                          end
                  | _, _, _, _ => skip (ColumnAccessError row_idx)
                  end
              | _, _, _, _ => ([], Raised KeyError)
              end
        end in
      match max_rows with
      | Some m =>
          if bool_decide (m <= count) then ([StoppingAfterMaxRows m], Returned [])
          else body
      | None => body
      end
  end.

(** [_iter_verses_from_csv], on the rows that [csv.reader] gives for the
    file, the header row first. *)
Definition _iter_verses_from_csv (reader : list (list string)) (max_rows : option Z)
  : E (list ExcelVerseRow) :=
  match reader with
  | [] => ([OpeningCsvFile; CsvFileEmpty], Returned [])
  | headers :: rows =>
      let '(out, mapping) := _detect_column_mapping (Some <$> headers) in
      match mapping with
      | None =>
          (OpeningCsvFile :: DetectedHeaderRow headers :: out ++ [DetectionFailed],
           Returned [])
      | Some mapping =>
          let '(out', r) := csv_rows mapping max_rows rows 2 0 in
          (OpeningCsvFile :: DetectedHeaderRow headers :: out ++ out', r)
      end
  end.

End excel_import.

(** ** [sbc/loader.py]: the rows that [import_bible_from_excel] prepares *)

Module import_bible.

(** [(translation_code, book_num, book_code, chapter, verse,
     normalized_ref, text, word_count)] *)
Definition db_row : Type :=
  (string * Z * string * Z * Z * string * string * Z)%type.

Inductive notice : Type :=
| CannotResolveBook (raw_row_index : Z) (book : string).

(** [len(text.split())]: the number of maximal runs of characters that are
    no whitespace; [in_word] tells whether the character before was one. *)
Fixpoint count_words (in_word : bool) (s : string) : Z :=
  match s with
  | EmptyString => 0
  | String c s' =>
      if py.isspace c then count_words false s'
      else (if in_word then 0 else 1) + count_words true s'
  end.

(** The loop of [import_bible_from_excel] that turns the rows of the file
    into rows for the database: the result is [(db_rows, skipped)]. *)
Fixpoint prepare_db_rows (translation_code : string)
    (canon : pydict.t Z loader.book_meta) (book_lookup : gmap string Z)
    (rows : list excel_import.ExcelVerseRow)
  : list notice * outcome (list db_row * Z) :=
  match rows with
  | [] => ([], Returned ([], 0))
  | r :: rows' =>
      match loader._resolve_book (excel_import.book r) book_lookup with
      | None =>
          let '(out, rest) := prepare_db_rows translation_code canon book_lookup rows' in
          (CannotResolveBook (excel_import.raw_row_index r) (excel_import.book r) :: out,
           match rest with
           | Returned (db_rows, skipped) => Returned (db_rows, skipped + 1)
           | Raised e => Raised e
           end)
      | Some (book_num, _) =>
          match pydict.get canon book_num with
          | None => ([], Raised KeyError)
          | Some book_meta =>
              let book_code := loader.code book_meta in
              let vref :=
                {| model.book_num := book_num;
                   model.chapter := excel_import.chapter r;
                   model.verse := excel_import.verse r |} in
              let norm_ref := model.to_normalized vref book_code in
              let text := py.strip (excel_import.text r) in
              let word_count :=
                if excel_import.is_empty text then 0 else count_words false text in
              let '(out, rest) :=
                prepare_db_rows translation_code canon book_lookup rows' in
              (out,
               match rest with
               | Returned (db_rows, skipped) =>
                   Returned
                     ((translation_code, book_num, book_code, excel_import.chapter r,
                       excel_import.verse r, norm_ref, text, word_count) :: db_rows,
                      skipped)
               | Raised e => Raised e
               end)
          end
      end
  end.

End import_bible.

(** ** [compendium.py] *)

(** The command handlers, with the fields of [args] as parameters. *)
Module compendium.


Definition cmd_passage (w : world) (ref code : string) : M unit :=
  rows <- search.get_passage w ref code ;;
  search.print_search_results w rows.

Definition cmd_context (w : world) (ref code : string) (before after : Z) : M unit :=
  rows <- context.get_verse_window w ref code before after ;;
  search.print_search_results w rows.

Definition cmd_compare (w : world) (ref : string) (codes : list string) : M unit :=
  let codes := py.upper <$> codes in
  rows <- parallel.get_parallel_verses w ref codes ;;
  parallel.print_parallel w ref codes rows.

End compendium.

(** ** A small world for the examples *)

Module example.

Definition entry (num : Z) (code name testament : string) : loader.canon_entry :=
  {| loader.entry_book_num := num;
     loader.entry_code := code;
     loader.entry_name := name;
     loader.entry_testament := Some testament |}.

Definition canon : loader.canon_file :=
  Some [entry 1 "GEN" "Genesis" "OT";
        entry 16 "NEH" "Nehemiah" "OT";
        entry 43 "JHN" "John" "NT"].

Definition row (translation : string) (num : Z) (code : string)
    (chapter verse : Z) (text : string) : sqlite.row :=
  {| sqlite.translation_code := translation;
     sqlite.book_num := num;
     sqlite.book_code := code;
     sqlite.chapter := chapter;
     sqlite.verse := verse;
     sqlite.text := text |}.

Definition table : list sqlite.row :=
  [row "KJV" 1 "GEN" 1 4 "And God saw the light";
   row "KJV" 1 "GEN" 1 1 "In the beginning";
   row "KJV" 1 "GEN" 1 3 "And God said";
   row "KJV" 1 "GEN" 1 2 "And the earth was without form";
   row "KJV" 43 "JHN" 3 16 "For God so loved the world";
   row "BSB" 43 "JHN" 3 17 "For God did not send";
   row "KJV" 43 "JHN" 3 17 "For God sent not"].

Definition world : world :=
  {| canon_json := canon; db := sqlite.verses_normalized table |}.

(** Two books that share the key [gen]. *)
Definition colliding_canon : pydict.t Z loader.book_meta :=
  [(1, {| loader.code := "GEN"; loader.name := "Genesis"; loader.testament := "OT" |});
   (2, {| loader.code := "EXO"; loader.name := "gen"; loader.testament := "OT" |})].

End example.

(** * Derived notions

    The notions in which the properties are stated: character classes of
    strings, the parsing and resolution algorithms in the words of the
    specification, and the values that the facades compute on their way. *)

(** Every character of [s] satisfies [p]. *)
Fixpoint all_chars (p : ascii -> bool) (s : string) : bool :=
  match s with
  | EmptyString => true
  | String c s' => p c && all_chars p s'
  end.

(** [s] has no whitespace. *)
Definition no_space (s : string) : bool := all_chars (fun c => negb (py.isspace c)) s.

(** [s] consists of decimal digits. *)
Definition digits (s : string) : bool := all_chars py.isdigit s.

(** The tails [c:v] and [c:v-v] of a reference. *)
Definition verse_tail (c v : Z) : string := py.str c +:+ String ":" (py.str v).
Definition range_tail (c v : Z) : string :=
  py.str c +:+ String ":" (py.str v +:+ String "-" (py.str v)).

(** What the range parsers make of [b c:v], and of [b c:v-v]. *)
Definition single_verse_result (b : string) (c v : Z) : outcome (option (string * Z * Z * Z)) :=
  if decide (v < 0 \/ py.strip b = EmptyString) then Returned None
  else Returned (Some (py.strip b, c, v, v)).

(** The book token and the [chapter:verse] tail on either side of the
    rightmost space of the stripped reference. *)
Definition book_and_tail (ref : string) : option (string * string) :=
  let s := py.strip ref in
  match py.rindex " " s with
  | Some i => Some (py.strip (py.slice_to i s), py.strip (py.slice_from (i + 1) s))
  | None => None
  end.



(** The parsing algorithm in the specification's words: split at the
    rightmost space, require a colon in the tail, split at the first colon,
    split the verse part at a hyphen if it has one, and read three
    integers. *)
Definition parse_by_spec (ref : string) : option (string * Z * Z * Z) :=
  match book_and_tail ref with
  | None => None
  | Some (book, tail) =>
      match py.split1 ":" tail with
      | [chap; verses] =>
          match py.int chap with
          | None => None
          | Some chapter =>
              match py.split1 "-" (py.strip verses) with
              | [first; last] =>
                  match py.int first, py.int last with
                  | Some v_start, Some v_end => Some (book, chapter, v_start, v_end)
                  | _, _ => None
                  end
              | _ =>
                  match py.int verses with
                  | Some v => Some (book, chapter, v, v)
                  | None => None
                  end
              end
          end
      | _ => None
      end
  end.

(** The same for a reference to one verse, the center of a window. *)
Definition parse_center_by_spec (ref : string) : option (string * Z * Z) :=
  match book_and_tail ref with
  | None => None
  | Some (book, tail) =>
      match py.split1 ":" tail with
      | [chap; verse] =>
          match py.int chap, py.int verse with
          | Some chapter, Some v => Some (book, chapter, v)
          | _, _ => None
          end
      | _ => None
      end
  end.

(** No key of the lookup belongs to two books: the canon data's side of the
    resolver's contract. *)
Definition no_collisions (canon : pydict.t Z loader.book_meta) : bool :=
  forallb
    (fun p1 =>
       forallb
         (fun p2 =>
            bool_decide (p1.1 = p2.1) ||
            forallb (fun k => negb (bool_decide (k ∈ loader.book_keys p2.2)))
              (loader.book_keys p1.2))
         canon)
    canon.

(** Book resolution in the specification's words: an exact match against
    the codes and names, then the lowercased token against the lowercased
    codes and names. *)
Definition resolve_by_spec (canon : pydict.t Z loader.book_meta) (token : string)
  : option Z :=
  match find (fun p => bool_decide (token = loader.code p.2 \/ token = loader.name p.2))
             canon with
  | Some p => Some p.1
  | None =>
      match find (fun p => bool_decide
                             (py.lower token = py.lower (loader.code p.2) \/
                              py.lower token = py.lower (loader.name p.2)))
                 canon with
      | Some p => Some p.1
      | None => None
      end
  end.

(** One turn of the loop of [_build_book_lookup]. *)
Definition add_book (lookup : gmap string Z) (item : Z * loader.book_meta)
  : gmap string Z :=
  let '(num, meta) := item in
  fold_left (fun lookup key => <[key := num]> lookup) (loader.book_keys meta) lookup.

(** The lowercase keys of a book. *)
Definition lower_keys (meta : loader.book_meta) : list string :=
  [py.lower (loader.code meta); py.lower (loader.name meta)].

(** The canon that [load_canon] returns. *)
Definition canon_of (w : world) : pydict.t Z loader.book_meta :=
  match result (loader.load_canon (canon_json w)) with
  | Returned canon => canon
  | Raised _ => []
  end.

(** The book number a facade finds for a book token. *)
Definition resolve (w : world) (book_str : string) : option Z :=
  first_key [book_str; py.lower book_str] (loader._build_book_lookup (canon_of w)).

(** The rows of the verse table, none when there is no database. *)
Definition table_of (w : world) : list sqlite.row :=
  match db w with
  | sqlite.unavailable => []
  | sqlite.verses_normalized rows => rows
  end.

(** What a parameterised SELECT gives the facade that wraps it in
    [try ... except sqlite3.Error]. *)
Definition guarded {R} (w : world) (int_params : list Z)
    (select : list sqlite.row -> list R) : outcome (option (list R)) :=
  match db w with
  | sqlite.unavailable => Returned None
  | sqlite.verses_normalized table =>
      if forallb sqlite.fits_integer int_params then Returned (Some (select table))
      else Raised OverflowError
  end.

(** The code that the canon gives for a book number. *)
Definition book_code_of (w : world) (num : Z) : string :=
  match pydict.get (canon_of w) num with
  | Some meta => loader.code meta
  | None => EmptyString
  end.

(** The records that [get_parallel_verses] builds from the fetched rows. *)
Definition parallel_rows (book_code : string) (chapter v_start v_end : Z)
    (rows : list parallel.fetched_row) : list parallel.ParallelRow :=
  (fun verse =>
     (book_code, chapter, verse,
      default ∅ (parallel.build_verse_map chapter rows !! verse)))
  <$> seqZ v_start (v_end + 1 - v_start).

(** The rows that a facade returns: none when it raises. *)
Definition rows_of {A} (m : M (list A)) : list A :=
  match result m with
  | Returned rows => rows
  | Raised _ => []
  end.

(** The verse number of a parallel record, the chapter of a verse row. *)
Definition parallel_verse (r : parallel.ParallelRow) : Z :=
  let '(_, _, verse, _) := r in verse.


(** The order of the rows that the parallel SELECT returns. *)
Definition by_verse_then_translation (a b : parallel.fetched_row) : Prop :=
  let '(a_code, _, _, a_verse, _) := a in
  let '(b_code, _, _, b_verse, _) := b in
  a_verse < b_verse \/ (a_verse = b_verse /\ String.le a_code b_code).

(** One turn of the regrouping loop. *)
Definition add_row (chapter : Z) (verse_map : gmap Z (gmap string string))
    (row : parallel.fetched_row) : gmap Z (gmap string string) :=
  let '(t_code, b_code, chap, verse, text) := row in
  if decide (chap <> chapter) then verse_map
  else <[verse := <[t_code := text]> (default ∅ (verse_map !! verse))]> verse_map.

(** The lines that [print_parallel] writes for one record. *)
Definition parallel_block (book_name : string) (codes : list string)
    (record : parallel.ParallelRow) : list console_line :=
  let '(_, chapter, verse, texts) := record in
  PrintLine (book_name +:+ " " +:+ py.str chapter +:+ ":" +:+ py.str verse)
  :: ((fun code =>
         PrintLine ("  [" +:+ code +:+ "] " +:+ default parallel.missing_text (texts !! code)))
        <$> codes)
  ++ [PrintLine EmptyString].







(** The lines that [print_search_results] writes for one row, given the
    canon. *)
Definition search_block (canon : pydict.t Z loader.book_meta) (row : VerseRow)
  : list console_line :=
  let '(code, book_num, book_code, chapter, verse, text) := row in
  [PrintLine ("[" +:+ code +:+ "] " +:+ default book_code (loader.name <$> pydict.get canon book_num)
          +:+ " " +:+ py.str chapter +:+ ":" +:+ py.str verse);
   PrintLine ("    " +:+ text);
   PrintLine EmptyString].

(** The lines for a verse of a known translation, book and chapter. *)
Definition verse_block (translation_code book_name : string) (chapter : Z)
    (row : VerseRow) : list console_line :=
  [PrintLine ("[" +:+ translation_code +:+ "] " +:+ book_name +:+ " " +:+ py.str chapter
          +:+ ":" +:+ py.str (row_verse row));
   PrintLine ("    " +:+ row_text row);
   PrintLine EmptyString].

(** [i] is the first column whose normalized header is one of the
    candidates. *)
Definition first_match (candidates norm_headers : list string) (i : nat) : Prop :=
  (exists h, norm_headers !! i = Some h /\ h ∈ candidates) /\
  forall j h, (j < i)%nat -> norm_headers !! j = Some h -> h ∉ candidates.

(** The candidates that a normalized header can be equal to. *)
Definition live_candidates (table : pydict.t string (list string))
  : pydict.t string (list string) :=
  (fun '(logical_name, candidates) =>
     (logical_name, filter (fun c => py.contains "_" c = false) candidates))
  <$> table.

(** A mapping that has the four logical columns. *)
Definition complete (mapping : gmap string nat) : Prop :=
  is_Some (mapping !! "book") /\ is_Some (mapping !! "chapter") /\
  is_Some (mapping !! "verse") /\ is_Some (mapping !! "text").

(** The cell of a row under a logical column. *)
Definition cell (mapping : gmap string nat) (row : list string) (logical_name : string)
  : option string :=
  mapping !! logical_name ≫= fun i => row !! i.

(** The row [y] is what the data row [row] of index [row_idx] gives: its
    book and text are the stripped cells and are not empty, and its chapter
    and verse are the integers that the cells spell. *)
Definition yielded_from (mapping : gmap string nat) (row_idx : Z) (row : list string)
    (y : excel_import.ExcelVerseRow) : Prop :=
  exists book_raw chapter_raw verse_raw text_raw,
    cell mapping row "book" = Some book_raw /\
    cell mapping row "chapter" = Some chapter_raw /\
    cell mapping row "verse" = Some verse_raw /\
    cell mapping row "text" = Some text_raw /\
    excel_import.book y = py.strip book_raw /\ excel_import.book y <> EmptyString /\
    py.int chapter_raw = Some (excel_import.chapter y) /\
    py.int verse_raw = Some (excel_import.verse y) /\
    excel_import.text y = py.strip text_raw /\ excel_import.text y <> EmptyString /\
    excel_import.raw_row_index y = row_idx.

(** The warnings for a data row that is left out. *)
Definition skip_notice (row_idx : Z) (n : excel_import.notice) : Prop :=
  n = excel_import.NotEnoughColumns row_idx \/
  n = excel_import.MissingBookChapterVerse row_idx \/
  n = excel_import.EmptyVerseText row_idx \/
  n = excel_import.EmptyBookValue row_idx \/
  exists chapter_raw verse_raw,
    n = excel_import.NonIntegerChapterVerse row_idx chapter_raw verse_raw.

(** The database row for the row [r] of the file, under the book [num] with
    the canon entry [meta]. *)
Definition prepared (translation_code : string) (num : Z) (meta : loader.book_meta)
    (r : excel_import.ExcelVerseRow) : import_bible.db_row :=
  (translation_code, num, loader.code meta,
   excel_import.chapter r, excel_import.verse r,
   py.upper (loader.code meta) +:+ "." +:+ py.str (excel_import.chapter r) +:+ "."
     +:+ py.str (excel_import.verse r),
   py.strip (excel_import.text r),
   import_bible.count_words false (py.strip (excel_import.text r))).

Definition db_book_num (d : import_bible.db_row) : Z :=
  let '(_, num, _, _, _, _, _, _) := d in num.
Definition db_chapter (d : import_bible.db_row) : Z :=
  let '(_, _, _, chapter, _, _, _, _) := d in chapter.
Definition db_verse (d : import_bible.db_row) : Z :=
  let '(_, _, _, _, verse, _, _, _) := d in verse.
Definition db_normalized_ref (d : import_bible.db_row) : string :=
  let '(_, _, _, _, _, normalized_ref, _, _) := d in normalized_ref.
Definition db_text (d : import_bible.db_row) : string :=
  let '(_, _, _, _, _, _, text, _) := d in text.
Definition db_word_count (d : import_bible.db_row) : Z :=
  let '(_, _, _, _, _, _, _, word_count) := d in word_count.





(** * Properties *)

(** ** The monad *)

Lemma result_bind {A B} (m : M A) (k : A -> M B) :
  result (bind m k) =
  match result m with
  | Returned a => result (k a)
  | Raised e => Raised e
  end.
Proof.
  destruct m as [out [a|e]]; simpl; [|reflexivity].
  destruct (k a); reflexivity.
Qed.

Lemma result_try_except {A} (body : M A) handled (handler : M A) :
  result (try_except body handled handler) =
  match result body with
  | Returned a => Returned a
  | Raised e => if handled e then result handler else Raised e
  end.
Proof.
  destruct body as [out [a|e]]; simpl; [reflexivity|].
  destruct (handled e); [destruct handler|]; reflexivity.
Qed.

Lemma console_bind {A B} (m : M A) (k : A -> M B) :
  console (bind m k) =
  match result m with
  | Returned a => console m ++ console (k a)
  | Raised e => console m
  end.
Proof.
  destruct m as [out [a|e]]; simpl; [|reflexivity].
  destruct (k a); reflexivity.
Qed.

(** ** Characters *)

Ltac each_char c :=
  destruct c as [[] [] [] [] [] [] [] []]; try reflexivity; try discriminate.

Lemma lower_char_idemp c : py.lower_char (py.lower_char c) = py.lower_char c.
Proof. each_char c. Qed.

Lemma upper_char_idemp c : py.upper_char (py.upper_char c) = py.upper_char c.
Proof. each_char c. Qed.

Lemma isdigit_not_space c : py.isdigit c = true -> py.isspace c = false.
Proof. each_char c. Qed.

Lemma isdigit_not_colon c : py.isdigit c = true -> Ascii.eqb c ":" = false.
Proof. each_char c. Qed.


Lemma isdigit_not_plus c : py.isdigit c = true -> Ascii.eqb c "+" = false.
Proof. each_char c. Qed.

Lemma digit_char_spec d :
  0 <= d <= 9 ->
  py.isdigit (py.digit_char d) = true /\ py.digit_value (py.digit_char d) = d.
Proof.
  intros H.
  assert (d = 0 \/ d = 1 \/ d = 2 \/ d = 3 \/ d = 4 \/ d = 5 \/ d = 6 \/
          d = 7 \/ d = 8 \/ d = 9) as Hd by lia.
  repeat (destruct Hd as [-> | Hd]; [split; reflexivity|]).
  subst d; split; reflexivity.
Qed.

(** ** Strings *)

Lemma lower_idemp s : py.lower (py.lower s) = py.lower s.
Proof. induction s as [|c s IH]; simpl; [done|]. by rewrite lower_char_idemp, IH. Qed.

Lemma upper_idemp s : py.upper (py.upper s) = py.upper s.
Proof. induction s as [|c s IH]; simpl; [done|]. by rewrite upper_char_idemp, IH. Qed.

Lemma append_nil_l (t : string) : EmptyString +:+ t = t.
Proof. reflexivity. Qed.

Lemma append_cons c (s t : string) : String c s +:+ t = String c (s +:+ t).
Proof. reflexivity. Qed.

Ltac unfold_append := rewrite ?append_cons, ?append_nil_l.

Lemma all_chars_app p s t :
  all_chars p (s +:+ t) = all_chars p s && all_chars p t.
Proof. induction s as [|c s IH]; unfold_append; simpl; [done|]. rewrite IH. by destruct (p c). Qed.

Lemma all_chars_impl (p q : ascii -> bool) s :
  (forall c, p c = true -> q c = true) -> all_chars p s = true -> all_chars q s = true.
Proof.
  intros Hpq. induction s as [|c s IH]; simpl; [done|].
  intros [Hc Hs]%andb_true_iff. rewrite (Hpq _ Hc). simpl. auto.
Qed.

Lemma app_assoc_str (a b c : string) : (a +:+ b) +:+ c = a +:+ (b +:+ c).
Proof. induction a as [|x a IH]; unfold_append; [done|]. by rewrite IH. Qed.

Lemma contains_app c s t : py.contains c (s +:+ t) = py.contains c s || py.contains c t.
Proof. induction s as [|d s IH]; unfold_append; simpl; [done|]. rewrite IH. by destruct (Ascii.eqb d c). Qed.

Lemma contains_all_chars c p s :
  p c = false -> all_chars p s = true -> py.contains c s = false.
Proof.
  intros Hc. induction s as [|d s IH]; simpl; [done|].
  intros [Hd Hs]%andb_true_iff. rewrite (IH Hs), orb_false_r.
  destruct (Ascii.eqb_spec d c) as [->|]; [congruence|done].
Qed.

Lemma lstrip_no_space s : no_space s = true -> py.lstrip s = s.
Proof.
  destruct s as [|c s]; simpl; [done|].
  intros [Hc _]%andb_true_iff. by destruct (py.isspace c).
Qed.

Lemma rstrip_no_space s : no_space s = true -> py.rstrip s = s.
Proof.
  induction s as [|c s IH]; simpl; [done|].
  intros [Hc Hs]%andb_true_iff. rewrite (IH Hs).
  destruct s; [by destruct (py.isspace c)|done].
Qed.

Lemma strip_no_space s : no_space s = true -> py.strip s = s.
Proof. intros H. unfold py.strip. by rewrite lstrip_no_space, rstrip_no_space. Qed.

Lemma rstrip_app a t :
  no_space t = true -> t <> EmptyString -> py.rstrip (a +:+ t) = a +:+ t.
Proof.
  intros Ht Hne. induction a as [|c a IH]; unfold_append; simpl.
  - by apply rstrip_no_space.
  - rewrite IH. destruct (a +:+ t) eqn:E; [|done].
    destruct a; [by rewrite append_nil_l in E|by rewrite append_cons in E].
Qed.

(** A string of whitespace only: [lstrip] leaves nothing of it. *)
Lemma lstrip_app_blank b t :
  py.lstrip b = EmptyString -> py.lstrip (b +:+ t) = py.lstrip t.
Proof.
  induction b as [|c b IH]; unfold_append; simpl; [done|].
  destruct (py.isspace c); [done|discriminate].
Qed.

Lemma lstrip_app_nonblank b t :
  py.lstrip b <> EmptyString -> py.lstrip (b +:+ t) = py.lstrip b +:+ t.
Proof.
  induction b as [|c b IH]; unfold_append; simpl; [done|].
  destruct (py.isspace c); [done|]. by intros _.
Qed.

Lemma rindex_none c s : py.contains c s = false -> py.rindex c s = None.
Proof.
  induction s as [|d s IH]; simpl; [done|].
  intros [Hd Hs]%orb_false_iff. by rewrite (IH Hs), Hd.
Qed.

Lemma rindex_app_last c a t :
  py.contains c t = false ->
  py.rindex c (a +:+ String c t) = Some (String.length a).
Proof.
  intros Ht. induction a as [|d a IH]; unfold_append; simpl.
  - by rewrite (rindex_none _ _ Ht), Ascii.eqb_refl.
  - by rewrite IH.
Qed.

Lemma slice_to_app a t : py.slice_to (String.length a) (a +:+ t) = a.
Proof.
  induction a as [|d a IH]; unfold_append; simpl; [by destruct t|]. by rewrite IH.
Qed.

Lemma slice_from_app a c t :
  py.slice_from (String.length a + 1) (a +:+ String c t) = t.
Proof. induction a as [|d a IH]; unfold_append; simpl; [done|]. by rewrite IH. Qed.

Lemma split1_absent c s : py.contains c s = false -> py.split1 c s = [s].
Proof.
  induction s as [|d s IH]; simpl; [done|].
  intros [Hd Hs]%orb_false_iff. by rewrite Hd, (IH Hs).
Qed.

Lemma split1_app c a t :
  py.contains c a = false -> py.split1 c (a +:+ String c t) = [a; t].
Proof.
  induction a as [|d a IH]; unfold_append; simpl.
  - by rewrite Ascii.eqb_refl.
  - intros [Hd Ha]%orb_false_iff. by rewrite Hd, (IH Ha).
Qed.

(** Where [c in s] holds, [s.split(c, 1)] has two pieces. *)
Lemma split1_present c s :
  py.contains c s = true -> exists a t, py.split1 c s = [a; t].
Proof.
  induction s as [|d s IH]; simpl; [done|].
  destruct (Ascii.eqb d c); simpl; [eauto|].
  intros (a & t & ->)%IH. eauto.
Qed.

(** ** [int] and [str] *)

Lemma digits_no_space s : digits s = true -> no_space s = true.
Proof.
  apply all_chars_impl. intros c Hc. by rewrite (isdigit_not_space _ Hc).
Qed.

Lemma digits_no_colon s : digits s = true -> py.contains ":" s = false.
Proof. apply contains_all_chars. reflexivity. Qed.

Lemma digits_no_hyphen s : digits s = true -> py.contains "-" s = false.
Proof. apply contains_all_chars. reflexivity. Qed.

Lemma digits_no_blank s : digits s = true -> py.contains " " s = false.
Proof. apply contains_all_chars. reflexivity. Qed.

Lemma mod10_range n : 0 <= n mod 10 <= 9.
Proof. pose proof (Z.mod_pos_bound n 10); lia. Qed.

Lemma digits_cons_digit n acc :
  digits acc = true -> digits (String (py.digit_char (n mod 10)) acc) = true.
Proof.
  intros Hacc. unfold digits in *. cbn [all_chars].
  by rewrite (proj1 (digit_char_spec (n mod 10) (mod10_range n))), Hacc.
Qed.

Lemma str_digits_digits fuel n acc :
  digits acc = true -> digits (py.str_digits fuel n acc) = true.
Proof.
  revert n acc. induction fuel as [|fuel IH]; intros n acc Hacc;
    cbn [py.str_digits].
  - by apply digits_cons_digit.
  - destruct (n <? 10); [by apply digits_cons_digit|].
    by apply IH, digits_cons_digit.
Qed.

Lemma int_unsigned_cons_digit n acc :
  py.int_unsigned (String (py.digit_char (n mod 10)) acc) =
  py.int_digits (n mod 10) acc.
Proof.
  cbn [py.int_unsigned].
  by destruct (digit_char_spec (n mod 10) (mod10_range n)) as [-> ->].
Qed.

Lemma int_digits_cons_digit a n acc :
  py.int_digits a (String (py.digit_char (n mod 10)) acc) =
  py.int_digits (10 * a + n mod 10) acc.
Proof.
  cbn [py.int_digits].
  by destruct (digit_char_spec (n mod 10) (mod10_range n)) as [-> ->].
Qed.

Lemma str_digits_cons fuel n acc :
  exists c s, py.str_digits fuel n acc = String c s.
Proof.
  revert n acc. induction fuel as [|fuel IH]; intros n acc; simpl; [eauto|].
  destruct (n <? 10); eauto.
Qed.

(** Reading back the digits that [str] writes in front of [acc]. *)
Lemma int_unsigned_str_digits fuel n acc :
  0 <= n < 2 ^ (Z.of_nat fuel + 1) ->
  py.int_unsigned (py.str_digits fuel n acc) = py.int_digits n acc.
Proof.
  revert n acc. induction fuel as [|fuel IH]; intros n acc Hn;
    cbn [py.str_digits].
  - change (2 ^ (Z.of_nat 0 + 1)) with 2 in Hn.
    rewrite int_unsigned_cons_digit. f_equal. rewrite Z.mod_small; lia.
  - destruct (Z.ltb_spec n 10) as [Hlt|Hge].
    + rewrite int_unsigned_cons_digit. f_equal. rewrite Z.mod_small; lia.
    + rewrite IH.
      * rewrite int_digits_cons_digit. f_equal.
        pose proof (Z.div_mod n 10 ltac:(lia)). lia.
      * split; [apply Z.div_pos; lia|].
        replace (Z.of_nat (S fuel) + 1) with (Z.succ (Z.of_nat fuel + 1)) in Hn by lia.
        rewrite Z.pow_succ_r in Hn by lia.
        apply Z.div_lt_upper_bound; lia.
Qed.

Lemma log2_fuel n : 0 <= n -> 0 <= n < 2 ^ (Z.of_nat (Z.to_nat (Z.log2 n)) + 1).
Proof.
  intros Hn. rewrite Z2Nat.id by apply Z.log2_nonneg.
  destruct (Z.eq_dec n 0) as [->|Hne]; [done|].
  pose proof (Z.log2_spec n ltac:(lia)). lia.
Qed.

(** [str] of a natural number is a non-empty run of digits, of a negative
    number a hyphen and the digits of its absolute value. *)
Lemma str_nonneg n :
  0 <= n ->
  digits (py.str n) = true /\ py.str n <> EmptyString /\ py.int_unsigned (py.str n) = Some n.
Proof.
  intros Hn. unfold py.str. destruct (Z.ltb_spec n 0) as [|_]; [lia|].
  split; [by apply str_digits_digits|]. split.
  - destruct (str_digits_cons (Z.to_nat (Z.log2 n)) n EmptyString) as (c & s & ->). done.
  - rewrite int_unsigned_str_digits by (by apply log2_fuel). done.
Qed.

Lemma str_neg n : n < 0 -> py.str n = String "-" (py.str (- n)).
Proof.
  intros Hn. unfold py.str.
  destruct (Z.ltb_spec n 0) as [_|]; [|lia].
  destruct (Z.ltb_spec (- n) 0) as [|_]; [lia|]. done.
Qed.

Lemma int_digits_string s :
  digits s = true -> s <> EmptyString -> py.int s = py.int_unsigned s.
Proof.
  intros Hs Hne. unfold py.int. rewrite strip_no_space by by apply digits_no_space.
  destruct s as [|c s]; [done|]. simpl in Hs. apply andb_true_iff in Hs as [Hc _].
  revert Hc. each_char c.
Qed.

(** [int(str(n)) == n] *)
Lemma int_str n : py.int (py.str n) = Some n.
Proof.
  destruct (Z.lt_ge_cases n 0) as [Hneg|Hpos].
  - rewrite (str_neg n Hneg).
    destruct (str_nonneg (- n) ltac:(lia)) as (Hd & _ & Hv).
    unfold py.int. rewrite strip_no_space.
    + rewrite Hv. simpl. f_equal. lia.
    + unfold no_space. cbn [all_chars].
      apply andb_true_iff; split; [done|]. by apply digits_no_space.
  - destruct (str_nonneg n Hpos) as (Hd & Hne & Hv).
    by rewrite int_digits_string.
Qed.

Lemma int_empty : py.int EmptyString = None.
Proof. reflexivity. Qed.

(** A numeral has no whitespace and no colon, and a hyphen only as the sign. *)
Lemma str_no_space n : no_space (py.str n) = true.
Proof.
  destruct (Z.lt_ge_cases n 0) as [Hneg|Hpos].
  - rewrite (str_neg n Hneg). unfold no_space. cbn [all_chars].
    apply andb_true_iff; split; [done|]. apply digits_no_space, str_nonneg. lia.
  - by apply digits_no_space, str_nonneg.
Qed.

Lemma str_no_colon n : py.contains ":" (py.str n) = false.
Proof.
  destruct (Z.lt_ge_cases n 0) as [Hneg|Hpos].
  - rewrite (str_neg n Hneg). cbn [py.contains].
    apply orb_false_iff; split; [done|]. apply digits_no_colon, str_nonneg. lia.
  - by apply digits_no_colon, str_nonneg.
Qed.

Lemma str_no_blank n : py.contains " " (py.str n) = false.
Proof.
  destruct (Z.lt_ge_cases n 0) as [Hneg|Hpos].
  - rewrite (str_neg n Hneg). cbn [py.contains].
    apply orb_false_iff; split; [done|]. apply digits_no_blank, str_nonneg. lia.
  - by apply digits_no_blank, str_nonneg.
Qed.

Lemma str_nonempty n : py.str n <> EmptyString.
Proof.
  destruct (Z.lt_ge_cases n 0) as [Hneg|Hpos].
  - by rewrite (str_neg n Hneg).
  - by apply str_nonneg.
Qed.

(** ** The reference parsers *)

Lemma lstrip_idemp s : py.lstrip (py.lstrip s) = py.lstrip s.
Proof.
  induction s as [|c s IH]; simpl; [done|].
  destruct (py.isspace c) eqn:E; [done|]. simpl. by rewrite E.
Qed.

Lemma lstrip_head s :
  py.lstrip s = EmptyString \/ exists c r, py.lstrip s = String c r /\ py.isspace c = false.
Proof.
  induction s as [|c s IH]; simpl; [by left|].
  destruct (py.isspace c) eqn:E; [done|]. right; eauto.
Qed.

Lemma rstrip_head c r : py.isspace c = false -> py.rstrip (String c r) <> EmptyString.
Proof. intros E. simpl. destruct (py.rstrip r); [by rewrite E|done]. Qed.

Lemma strip_blank_iff s : py.strip s = EmptyString <-> py.lstrip s = EmptyString.
Proof.
  unfold py.strip. split; [|by intros ->].
  destruct (lstrip_head s) as [->|(c & r & -> & Hc)]; [done|].
  intros H. by apply rstrip_head in H.
Qed.

Lemma strip_lstrip s : py.strip (py.lstrip s) = py.strip s.
Proof. unfold py.strip. by rewrite lstrip_idemp. Qed.

Lemma no_space_no_blank t : no_space t = true -> py.contains " " t = false.
Proof. apply contains_all_chars. reflexivity. Qed.

(** Stripping a reference whose last word [t] has no whitespace. *)
Lemma strip_reference b t :
  no_space t = true -> t <> EmptyString ->
  py.strip (b +:+ String " " t) =
  if decide (py.strip b = EmptyString) then t else py.lstrip b +:+ String " " t.
Proof.
  intros Ht Hne. unfold py.strip at 1. case_decide as Hb.
  - apply strip_blank_iff in Hb.
    rewrite lstrip_app_blank by done. simpl.
    by rewrite lstrip_no_space, rstrip_no_space.
  - rewrite strip_blank_iff in Hb.
    rewrite lstrip_app_nonblank by done.
    change (String " " t) with (" " +:+ t).
    rewrite <- app_assoc_str. rewrite rstrip_app by done.
    by rewrite app_assoc_str.
Qed.

Lemma lstrip_nonblank_append b t :
  py.lstrip b <> EmptyString -> py.lstrip b +:+ t <> EmptyString.
Proof.
  destruct (py.lstrip b); [done|]. by rewrite append_cons.
Qed.

Lemma no_space_app s t : no_space (s +:+ t) = no_space s && no_space t.
Proof. apply all_chars_app. Qed.

Lemma no_space_cons c s : no_space (String c s) = negb (py.isspace c) && no_space s.
Proof. reflexivity. Qed.

Lemma verse_tail_no_space c v : no_space (verse_tail c v) = true.
Proof.
  unfold verse_tail. by rewrite no_space_app, no_space_cons, !str_no_space.
Qed.

Lemma range_tail_no_space c v : no_space (range_tail c v) = true.
Proof.
  unfold range_tail.
  by rewrite no_space_app, no_space_cons, no_space_app, no_space_cons, !str_no_space.
Qed.

Lemma verse_tail_nonempty c v : verse_tail c v <> EmptyString.
Proof.
  unfold verse_tail. pose proof (str_nonempty c).
  destruct (py.str c); [done|]. by rewrite append_cons.
Qed.

Lemma range_tail_nonempty c v : range_tail c v <> EmptyString.
Proof.
  unfold range_tail. pose proof (str_nonempty c).
  destruct (py.str c); [done|]. by rewrite append_cons.
Qed.

Lemma verse_tail_split c v :
  py.contains ":" (verse_tail c v) = true /\
  py.split1 ":" (verse_tail c v) = [py.str c; py.str v].
Proof.
  unfold verse_tail. split.
  - rewrite contains_app. cbn [py.contains]. simpl. apply orb_true_r.
  - apply split1_app, str_no_colon.
Qed.

Lemma range_tail_split c v :
  py.contains ":" (range_tail c v) = true /\
  py.split1 ":" (range_tail c v) = [py.str c; py.str v +:+ String "-" (py.str v)].
Proof.
  unfold range_tail. split.
  - rewrite contains_app. cbn [py.contains]. simpl. apply orb_true_r.
  - apply split1_app, str_no_colon.
Qed.

Lemma range_part_no_space v : no_space (py.str v +:+ String "-" (py.str v)) = true.
Proof.
  by rewrite no_space_app, no_space_cons, !str_no_space.
Qed.

(** The verse part [v-v]: two pieces [v] and [v] for a natural number, an
    empty first piece for a negative one. *)
Lemma range_part_split v :
  py.contains "-" (py.str v +:+ String "-" (py.str v)) = true /\
  exists a t, py.split1 "-" (py.str v +:+ String "-" (py.str v)) = [a; t] /\
    if decide (v < 0) then a = EmptyString else a = py.str v /\ t = py.str v.
Proof.
  split.
  - rewrite contains_app. cbn [py.contains]. simpl. apply orb_true_r.
  - case_decide as Hv.
    + rewrite (str_neg v Hv), append_cons. cbn [py.split1]. simpl. eauto.
    + destruct (str_nonneg v ltac:(lia)) as (Hd & _ & _).
      rewrite split1_app by by apply digits_no_hyphen. eauto.
Qed.

Lemma verse_part_hyphen v :
  py.contains "-" (py.str v) = bool_decide (v < 0) /\
  (v < 0 -> exists t, py.split1 "-" (py.str v) = [EmptyString; t]).
Proof.
  case_bool_decide as Hv.
  - rewrite (str_neg v Hv). cbn [py.contains py.split1]. simpl. eauto.
  - destruct (str_nonneg v ltac:(lia)) as (Hd & _ & _).
    split; [by apply digits_no_hyphen|lia].
Qed.

Lemma search_parse_verse_tail b c v :
  result (search._parse_reference (b +:+ String " " (verse_tail c v))) =
  single_verse_result b c v.
Proof.
  unfold search._parse_reference, single_verse_result. cbv zeta.
  rewrite (strip_reference b _ (verse_tail_no_space c v) (verse_tail_nonempty c v)).
  destruct (decide (py.strip b = EmptyString)) as [Hb|Hb].
  - rewrite decide_False by apply verse_tail_nonempty.
    rewrite (rindex_none " " _ (no_space_no_blank _ (verse_tail_no_space c v))).
    rewrite decide_True by auto. done.
  - rewrite strip_blank_iff in Hb.
    rewrite decide_False by (by apply lstrip_nonblank_append).
    rewrite (rindex_app_last " " (py.lstrip b) _ (no_space_no_blank _ (verse_tail_no_space c v))).
    rewrite slice_to_app, slice_from_app, strip_lstrip.
    rewrite (strip_no_space _ (verse_tail_no_space c v)).
    destruct (verse_tail_split c v) as [-> ->]. cbn [negb].
    rewrite int_str, (strip_no_space _ (str_no_space v)).
    destruct (verse_part_hyphen v) as [-> Hsplit].
    rewrite <- strip_blank_iff in Hb.
    case_bool_decide as Hv.
    + destruct (Hsplit Hv) as [t ->]. rewrite decide_True by auto. done.
    + rewrite int_str. rewrite decide_False by tauto. done.
Qed.

Lemma search_parse_range_tail b c v :
  result (search._parse_reference (b +:+ String " " (range_tail c v))) =
  single_verse_result b c v.
Proof.
  unfold search._parse_reference, single_verse_result. cbv zeta.
  rewrite (strip_reference b _ (range_tail_no_space c v) (range_tail_nonempty c v)).
  destruct (decide (py.strip b = EmptyString)) as [Hb|Hb].
  - rewrite decide_False by apply range_tail_nonempty.
    rewrite (rindex_none " " _ (no_space_no_blank _ (range_tail_no_space c v))).
    rewrite decide_True by auto. done.
  - rewrite strip_blank_iff in Hb.
    rewrite decide_False by (by apply lstrip_nonblank_append).
    rewrite (rindex_app_last " " (py.lstrip b) _ (no_space_no_blank _ (range_tail_no_space c v))).
    rewrite slice_to_app, slice_from_app, strip_lstrip.
    rewrite (strip_no_space _ (range_tail_no_space c v)).
    destruct (range_tail_split c v) as [-> ->]. cbn [negb].
    rewrite int_str, (strip_no_space _ (range_part_no_space v)).
    destruct (range_part_split v) as [-> (a & t & -> & Hat)].
    rewrite <- strip_blank_iff in Hb.
    destruct (decide (v < 0)) as [Hv|Hv].
    + subst a. rewrite decide_True by auto. done.
    + destruct Hat as [-> ->].
      rewrite (strip_no_space _ (str_no_space v)), int_str.
      rewrite decide_False by tauto. done.
Qed.

Lemma parallel_parse_verse_tail b c v :
  result (parallel._parse_reference_range (b +:+ String " " (verse_tail c v))) =
  single_verse_result b c v.
Proof.
  unfold parallel._parse_reference_range, single_verse_result. cbv zeta.
  rewrite (strip_reference b _ (verse_tail_no_space c v) (verse_tail_nonempty c v)).
  destruct (decide (py.strip b = EmptyString)) as [Hb|Hb].
  - rewrite decide_False by apply verse_tail_nonempty.
    rewrite (rindex_none " " _ (no_space_no_blank _ (verse_tail_no_space c v))).
    rewrite decide_True by auto. done.
  - rewrite strip_blank_iff in Hb.
    rewrite decide_False by (by apply lstrip_nonblank_append).
    rewrite (rindex_app_last " " (py.lstrip b) _ (no_space_no_blank _ (verse_tail_no_space c v))).
    rewrite slice_to_app, slice_from_app, strip_lstrip.
    rewrite (strip_no_space _ (verse_tail_no_space c v)).
    destruct (verse_tail_split c v) as [-> ->]. cbn [negb].
    rewrite (strip_no_space _ (str_no_space c)), int_str.
    rewrite (strip_no_space _ (str_no_space v)).
    destruct (verse_part_hyphen v) as [-> Hsplit].
    rewrite <- strip_blank_iff in Hb.
    case_bool_decide as Hv.
    + destruct (Hsplit Hv) as [t ->]. rewrite decide_True by auto. done.
    + rewrite int_str. rewrite decide_False by tauto. done.
Qed.

Lemma parallel_parse_range_tail b c v :
  result (parallel._parse_reference_range (b +:+ String " " (range_tail c v))) =
  single_verse_result b c v.
Proof.
  unfold parallel._parse_reference_range, single_verse_result. cbv zeta.
  rewrite (strip_reference b _ (range_tail_no_space c v) (range_tail_nonempty c v)).
  destruct (decide (py.strip b = EmptyString)) as [Hb|Hb].
  - rewrite decide_False by apply range_tail_nonempty.
    rewrite (rindex_none " " _ (no_space_no_blank _ (range_tail_no_space c v))).
    rewrite decide_True by auto. done.
  - rewrite strip_blank_iff in Hb.
    rewrite decide_False by (by apply lstrip_nonblank_append).
    rewrite (rindex_app_last " " (py.lstrip b) _ (no_space_no_blank _ (range_tail_no_space c v))).
    rewrite slice_to_app, slice_from_app, strip_lstrip.
    rewrite (strip_no_space _ (range_tail_no_space c v)).
    destruct (range_tail_split c v) as [-> ->]. cbn [negb].
    rewrite (strip_no_space _ (str_no_space c)), int_str.
    rewrite (strip_no_space _ (range_part_no_space v)).
    destruct (range_part_split v) as [-> (a & t & -> & Hat)].
    rewrite <- strip_blank_iff in Hb.
    destruct (decide (v < 0)) as [Hv|Hv].
    + subst a. rewrite decide_True by auto. done.
    + destruct Hat as [-> ->].
      rewrite (strip_no_space _ (str_no_space v)), int_str.
      rewrite decide_False by tauto. done.
Qed.

(** *** Malformed references *)


(** [int] strips its argument itself. *)
Lemma strip_idemp s : py.strip (py.strip s) = py.strip s.
Proof.
  unfold py.strip.
  destruct (lstrip_head s) as [->|(c & r & -> & Hc)]; [done|].
  assert (forall t, py.rstrip (py.rstrip t) = py.rstrip t) as Hr.
  { induction t as [|d t IH]; simpl; [done|].
    destruct (py.rstrip t) eqn:E.
    - destruct (py.isspace d) eqn:Ed; simpl; [done|]. by rewrite Ed.
    - simpl in *. rewrite IH. done. }
  assert (exists r', py.rstrip (String c r) = String c r') as [r' Hr'].
  { simpl. destruct (py.rstrip r); [rewrite Hc|]; eauto. }
  rewrite Hr'. simpl. rewrite Hc. rewrite <- Hr', Hr. done.
Qed.

Lemma int_strip s : py.int (py.strip s) = py.int s.
Proof. unfold py.int. by rewrite strip_idemp. Qed.

Lemma split1_cases c s :
  (py.contains c s = false /\ py.split1 c s = [s]) \/
  (py.contains c s = true /\ exists a t, py.split1 c s = [a; t]).
Proof.
  destruct (py.contains c s) eqn:E.
  - right. split; [done|]. by apply split1_present.
  - left. split; [done|]. by apply split1_absent.
Qed.

Lemma search_parse_refines ref :
  result (search._parse_reference ref) = Returned (parse_by_spec ref).
Proof.
  unfold search._parse_reference, parse_by_spec, book_and_tail. cbv zeta.
  case_decide as Hs.
  { rewrite Hs. done. }
  destruct (py.rindex " " (py.strip ref)) as [i|]; [|done].
  set (book := py.strip (py.slice_to i (py.strip ref))).
  set (tail := py.strip (py.slice_from (i + 1) (py.strip ref))).
  destruct (split1_cases ":" tail) as [[-> ->]|[-> (chap & verses & ->)]]; [done|].
  cbn [negb]. destruct (py.int chap) as [chapter|]; [|done].
  destruct (split1_cases "-" (py.strip verses))
    as [[-> ->]|[-> (first & last & ->)]].
  - rewrite int_strip. by destruct (py.int verses).
  - rewrite !int_strip. by destruct (py.int first), (py.int last).
Qed.

Lemma parallel_parse_refines ref :
  result (parallel._parse_reference_range ref) = Returned (parse_by_spec ref).
Proof.
  unfold parallel._parse_reference_range, parse_by_spec, book_and_tail. cbv zeta.
  case_decide as Hs.
  { rewrite Hs. done. }
  destruct (py.rindex " " (py.strip ref)) as [i|]; [|done].
  set (book := py.strip (py.slice_to i (py.strip ref))).
  set (tail := py.strip (py.slice_from (i + 1) (py.strip ref))).
  destruct (split1_cases ":" tail) as [[-> ->]|[-> (chap & verses & ->)]]; [done|].
  cbn [negb]. rewrite int_strip. destruct (py.int chap) as [chapter|]; [|done].
  destruct (split1_cases "-" (py.strip verses))
    as [[-> ->]|[-> (first & last & ->)]].
  - rewrite int_strip. by destruct (py.int verses).
  - rewrite !int_strip. by destruct (py.int first), (py.int last).
Qed.

Lemma context_parse_refines ref :
  result (context._parse_reference ref) = Returned (parse_center_by_spec ref).
Proof.
  unfold context._parse_reference, parse_center_by_spec, book_and_tail. cbv zeta.
  case_decide as Hs.
  { rewrite Hs. done. }
  destruct (py.rindex " " (py.strip ref)) as [i|]; [|done].
  set (book := py.strip (py.slice_to i (py.strip ref))).
  set (tail := py.strip (py.slice_from (i + 1) (py.strip ref))).
  destruct (split1_cases ":" tail) as [[-> ->]|[-> (chap & verse & ->)]]; [done|].
  cbn [negb]. rewrite !int_strip.
  by destruct (py.int chap), (py.int verse).
Qed.



(** ** The book resolver *)

Lemma insert_keys_lookup (keys : list string) (num : Z) (m : gmap string Z) k :
  fold_left (fun lookup key => <[key := num]> lookup) keys m !! k =
  if decide (k ∈ keys) then Some num else m !! k.
Proof.
  revert m. induction keys as [|key keys IH]; intros m; cbn [fold_left].
  - case_decide as Hin; [by apply elem_of_nil in Hin|done].
  - rewrite IH. destruct (decide (k ∈ keys)) as [Hin|Hnin].
    + rewrite decide_True; [done|]. apply elem_of_cons; by right.
    + destruct (decide (key = k)) as [->|Hne].
      * rewrite lookup_insert_eq, decide_True; [done|]. apply elem_of_cons; by left.
      * rewrite lookup_insert_ne by done. rewrite decide_False; [done|].
        intros [?|?]%elem_of_cons; congruence.
Qed.

Lemma build_book_lookup_fold canon :
  loader._build_book_lookup canon = fold_left add_book canon ∅.
Proof. reflexivity. Qed.

Lemma add_book_lookup m num meta k :
  add_book m (num, meta) !! k =
  if decide (k ∈ loader.book_keys meta) then Some num else m !! k.
Proof. apply insert_keys_lookup. Qed.

Lemma fold_add_book_source canon m k n :
  fold_left add_book canon m !! k = Some n ->
  (exists meta, (n, meta) ∈ canon /\ k ∈ loader.book_keys meta) \/ m !! k = Some n.
Proof.
  revert m. induction canon as [|[num meta] canon IH]; intros m; cbn [fold_left]; [auto|].
  intros [(meta' & Hin & Hk)|Hm]%IH.
  - left. exists meta'. split; [apply elem_of_cons; by right|done].
  - rewrite add_book_lookup in Hm. case_decide as Hk; [|auto].
    injection Hm as <-. left. exists meta. split; [apply elem_of_cons; by left|done].
Qed.

Lemma fold_add_book_some canon m k n meta :
  (n, meta) ∈ canon -> k ∈ loader.book_keys meta ->
  is_Some (fold_left add_book canon m !! k).
Proof.
  revert m. induction canon as [|[num meta'] canon IH]; intros m Hin Hk.
  - by apply elem_of_nil in Hin.
  - cbn [fold_left]. apply elem_of_cons in Hin as [Heq|Hin]; [|by apply IH].
    injection Heq as <- <-.
    assert (is_Some (add_book m (n, meta) !! k)) as [x Hx].
    { rewrite add_book_lookup, decide_True by done. eauto. }
    clear IH. revert x Hx. generalize (add_book m (n, meta)). clear m.
    induction canon as [|[num' meta'] canon IH]; intros m x Hx; cbn [fold_left]; [eauto|].
    destruct (decide (k ∈ loader.book_keys meta')) as [Hk'|Hk'].
    + apply (IH (add_book m (num', meta')) num').
      by rewrite add_book_lookup, decide_True.
    + apply (IH (add_book m (num', meta')) x).
      by rewrite add_book_lookup, decide_False.
Qed.

Section resolver.

Variable canon : pydict.t Z loader.book_meta.
Hypothesis canon_ok : no_collisions canon = true.
Let book_lookup := loader._build_book_lookup canon.

Lemma no_collisions_spec n1 m1 n2 m2 k :
  (n1, m1) ∈ canon -> (n2, m2) ∈ canon ->
  k ∈ loader.book_keys m1 -> k ∈ loader.book_keys m2 -> n1 = n2.
Proof.
  intros H1 H2 Hk1 Hk2. unfold no_collisions in canon_ok.
  rewrite forallb_forall in canon_ok.
  specialize (canon_ok _ (proj1 (list_elem_of_In _ _) H1)).
  rewrite forallb_forall in canon_ok.
  specialize (canon_ok _ (proj1 (list_elem_of_In _ _) H2)). cbn [fst snd] in canon_ok.
  apply orb_true_iff in canon_ok as [Heq|Hdisj].
  - by apply bool_decide_eq_true in Heq.
  - rewrite forallb_forall in Hdisj.
    specialize (Hdisj _ (proj1 (list_elem_of_In _ _) Hk1)).
    apply negb_true_iff, bool_decide_eq_false in Hdisj. done.
Qed.

Lemma book_lookup_iff k n :
  book_lookup !! k = Some n <->
  exists meta, (n, meta) ∈ canon /\ k ∈ loader.book_keys meta.
Proof.
  unfold book_lookup. rewrite build_book_lookup_fold. split.
  - intros [H|H]%fold_add_book_source; [done|].
    by rewrite lookup_empty in H.
  - intros (meta & Hin & Hk).
    destruct (fold_add_book_some canon ∅ k n meta Hin Hk) as [n' Hn'].
    rewrite Hn'. f_equal.
    apply fold_add_book_source in Hn' as [(meta' & Hin' & Hk')|H].
    + by eapply no_collisions_spec.
    + by rewrite lookup_empty in H.
Qed.

Lemma lower_keys_book_keys meta k :
  k ∈ lower_keys meta -> k ∈ loader.book_keys meta.
Proof.
  unfold lower_keys, loader.book_keys. rewrite !elem_of_cons, !elem_of_nil. tauto.
Qed.

Lemma book_keys_lower meta k :
  k ∈ loader.book_keys meta -> py.lower k ∈ lower_keys meta.
Proof.
  unfold lower_keys, loader.book_keys.
  rewrite !elem_of_cons, !elem_of_nil.
  intros [->|[->|[->|[->|[]]]]]; rewrite ?lower_idemp; auto.
Qed.

Lemma first_key_resolve token :
  first_key [token; py.lower token] book_lookup =
  fst <$> loader._resolve_book token book_lookup.
Proof.
  unfold loader._resolve_book. simpl.
  destruct (book_lookup !! token); [done|].
  by destruct (book_lookup !! py.lower token).
Qed.

(** A token resolves to the book one of whose lowercase keys is the
    lowercased token. *)
Lemma resolve_iff token n :
  first_key [token; py.lower token] book_lookup = Some n <->
  exists meta, (n, meta) ∈ canon /\ py.lower token ∈ lower_keys meta.
Proof.
  simpl. split.
  - destruct (book_lookup !! token) as [n'|] eqn:E1.
    + intros [= ->]. apply book_lookup_iff in E1 as (meta & Hin & Hk).
      exists meta. split; [done|]. by apply book_keys_lower.
    + destruct (book_lookup !! py.lower token) as [n'|] eqn:E2; [|done].
      intros [= ->]. apply book_lookup_iff in E2 as (meta & Hin & Hk).
      exists meta. split; [done|].
      apply book_keys_lower in Hk. by rewrite lower_idemp in Hk.
  - intros (meta & Hin & Hk).
    assert (book_lookup !! py.lower token = Some n) as E2.
    { apply book_lookup_iff. exists meta. split; [done|].
      by apply lower_keys_book_keys. }
    destruct (book_lookup !! token) as [n'|] eqn:E1; [|by rewrite E2].
    f_equal. apply book_lookup_iff in E1 as (meta' & Hin' & Hk').
    apply book_keys_lower, lower_keys_book_keys in Hk'.
    apply lower_keys_book_keys in Hk.
    by eapply no_collisions_spec.
Qed.

Lemma resolve_by_spec_iff token n :
  resolve_by_spec canon token = Some n ->
  exists meta, (n, meta) ∈ canon /\ py.lower token ∈ lower_keys meta.
Proof.
  unfold resolve_by_spec.
  destruct (find _ canon) as [[num meta]|] eqn:E1.
  - intros [= <-]. apply find_some in E1 as [Hin Hm].
    apply bool_decide_eq_true in Hm. simpl in *.
    exists meta. split; [by apply list_elem_of_In|].
    unfold lower_keys. rewrite !elem_of_cons. destruct Hm as [-> | ->]; rewrite ?lower_idemp; auto.
  - match goal with |- context [find ?f canon] =>
      destruct (find f canon) as [[num meta]|] eqn:E2 end; [|done].
    intros [= <-]. apply find_some in E2 as [Hin Hm].
    apply bool_decide_eq_true in Hm. simpl in *.
    exists meta. split; [by apply list_elem_of_In|].
    unfold lower_keys. rewrite !elem_of_cons. destruct Hm as [-> | ->]; rewrite ?lower_idemp; auto.
Qed.

Lemma resolve_by_spec_none token :
  resolve_by_spec canon token = None ->
  forall n meta, (n, meta) ∈ canon -> py.lower token ∉ lower_keys meta.
Proof.
  unfold resolve_by_spec.
  destruct (find _ canon) as [[num meta]|] eqn:E1; [done|].
  match goal with |- context [find ?f canon] =>
    destruct (find f canon) as [[num meta]|] eqn:E2 end; [done|].
  intros _ n meta Hin Hk.
  apply list_elem_of_In in Hin. apply (find_none _ _ E2) in Hin as Hm. simpl in Hm.
  apply bool_decide_eq_false in Hm. apply Hm.
  unfold lower_keys in Hk. rewrite !elem_of_cons, elem_of_nil in Hk. tauto.
Qed.

Lemma resolve_refines token :
  first_key [token; py.lower token] book_lookup = resolve_by_spec canon token.
Proof.
  destruct (resolve_by_spec canon token) as [n|] eqn:Hs.
  - by apply resolve_iff, resolve_by_spec_iff.
  - destruct (first_key _ _) as [n|] eqn:Hc; [|done].
    apply resolve_iff in Hc as (meta & Hin & Hk).
    by destruct (resolve_by_spec_none token Hs n meta Hin).
Qed.

Lemma resolve_case_insensitive t1 t2 :
  py.lower t1 = py.lower t2 ->
  first_key [t1; py.lower t1] book_lookup = first_key [t2; py.lower t2] book_lookup.
Proof.
  intros Hl.
  destruct (first_key [t2; py.lower t2] book_lookup) as [n|] eqn:H2.
  - apply resolve_iff. apply resolve_iff in H2. by rewrite Hl.
  - destruct (first_key [t1; py.lower t1] book_lookup) as [n|] eqn:H1; [|done].
    apply resolve_iff in H1. rewrite Hl in H1. apply resolve_iff in H1.
    congruence.
Qed.
End resolver.

(** ** The facades *)

Lemma load_canon_result w :
  result (loader.load_canon (canon_json w)) = Returned (canon_of w).
Proof. unfold canon_of. by destruct (canon_json w). Qed.

Lemma pydict_get_elem {V} (d : pydict.t Z V) k v :
  (k, v) ∈ d -> is_Some (pydict.get d k).
Proof.
  induction d as [|[k' v'] d IH]; [by intros ?%elem_of_nil|].
  intros [[= <- <-]|Hin]%elem_of_cons; simpl.
  - rewrite decide_True by done. eauto.
  - case_decide; eauto.
Qed.

Lemma first_key_source keys (m : gmap string Z) n :
  first_key keys m = Some n -> exists k, k ∈ keys /\ m !! k = Some n.
Proof.
  induction keys as [|k keys IH]; simpl; [done|].
  destruct (m !! k) as [n'|] eqn:E.
  - intros [= ->]. exists k. split; [apply elem_of_cons; by left|done].
  - intros (k' & Hin & Hk)%IH. exists k'. split; [apply elem_of_cons; by right|done].
Qed.

(** [canon[num]] cannot fail on a number that the lookup gave. *)
Lemma resolved_in_canon w book_str num :
  resolve w book_str = Some num -> is_Some (pydict.get (canon_of w) num).
Proof.
  intros (k & _ & Hk)%first_key_source.
  rewrite build_book_lookup_fold in Hk.
  apply fold_add_book_source in Hk as [(meta & Hin & _)|Hk].
  - by eapply pydict_get_elem.
  - by rewrite lookup_empty in Hk.
Qed.

Lemma resolve_empty_canon w book_str :
  pydict.is_empty (canon_of w) = true -> resolve w book_str = None.
Proof.
  unfold resolve. by destruct (canon_of w).
Qed.

Lemma try_execute_result {R} w int_params (select : list sqlite.row -> list R) handler_message :
  result (try_except
            (rows <- sqlite.execute (db w) int_params select ;; ret (Some rows))
            is_sqlite3_Error
            (warn handler_message ;; ret None)) =
  guarded w int_params select.
Proof.
  unfold guarded, sqlite.execute. destruct (db w); [done|].
  by destruct (forallb sqlite.fits_integer int_params).
Qed.

Lemma get_passage_result w ref translation_code :
  result (search.get_passage w ref translation_code) =
  match parse_by_spec ref with
  | None => Returned []
  | Some (book_str, chapter, v_start, v_end) =>
      match resolve w book_str with
      | None => Returned []
      | Some num =>
          match guarded w [num; chapter; v_start; v_end]
                  (search.select_passage (py.upper translation_code)
                     num chapter v_start v_end) with
          | Returned (Some rows) => Returned (verse_row <$> rows)
          | Returned None => Returned []
          | Raised e => Raised e
          end
      end
  end.
Proof.
  unfold search.get_passage. cbv zeta.
  rewrite result_bind. cbn [info result snd].
  rewrite result_bind, search_parse_refines.
  destruct (parse_by_spec ref) as [[[[book_str chapter] v_start] v_end]|]; [|reflexivity].
  cbn beta iota.
  rewrite result_bind, load_canon_result.
  destruct (pydict.is_empty (canon_of w)) eqn:Hempty.
  { by rewrite (resolve_empty_canon _ _ Hempty). }
  change (first_key _ (search._build_book_lookup (canon_of w))) with (resolve w book_str).
  destruct (resolve w book_str) as [num|] eqn:Hnum; [|reflexivity].
  destruct (resolved_in_canon _ _ _ Hnum) as [meta Hmeta].
  rewrite result_bind. unfold pydict.getitem. rewrite Hmeta. cbn [ret result snd].
  rewrite result_bind, try_execute_result.
  destruct (guarded _ _ _) as [[rows|]|e]; reflexivity.
Qed.

Lemma get_verse_window_result w ref translation_code before after :
  result (context.get_verse_window w ref translation_code before after) =
  match parse_center_by_spec ref with
  | None => Returned []
  | Some (book_str, chapter, center_verse) =>
      match resolve w book_str with
      | None => Returned []
      | Some num =>
          let v_start := Z.max 1 (center_verse - before) in
          let v_end := center_verse + after in
          match guarded w [num; chapter; v_start; v_end]
                  (context.select_window (py.upper translation_code)
                     num chapter v_start v_end) with
          | Returned (Some rows) => Returned (verse_row <$> rows)
          | Returned None => Returned []
          | Raised e => Raised e
          end
      end
  end.
Proof.
  unfold context.get_verse_window. cbv zeta.
  rewrite result_bind. cbn [info result snd].
  rewrite result_bind, context_parse_refines.
  destruct (parse_center_by_spec ref) as [[[book_str chapter] center_verse]|];
    [|reflexivity].
  cbn beta iota.
  rewrite result_bind, load_canon_result.
  destruct (pydict.is_empty (canon_of w)) eqn:Hempty.
  { by rewrite (resolve_empty_canon _ _ Hempty). }
  change (first_key _ (context._build_book_lookup (canon_of w)))
    with (resolve w book_str).
  destruct (resolve w book_str) as [num|] eqn:Hnum; [|reflexivity].
  destruct (resolved_in_canon _ _ _ Hnum) as [meta Hmeta].
  rewrite result_bind. unfold pydict.getitem. rewrite Hmeta. cbn [ret result snd].
  rewrite result_bind, try_execute_result.
  destruct (guarded _ _ _) as [[rows|]|e]; reflexivity.
Qed.

Lemma get_parallel_verses_result w ref translation_codes :
  result (parallel.get_parallel_verses w ref translation_codes) =
  if decide (translation_codes = []) then Returned []
  else
    match parse_by_spec ref with
    | None => Returned []
    | Some (book_str, chapter, v_start, v_end) =>
        match resolve w book_str with
        | None => Returned []
        | Some num =>
            match guarded w [num; chapter; v_start; v_end]
                    (parallel.select_parallel (py.upper <$> translation_codes)
                       num chapter v_start v_end) with
            | Returned (Some []) => Returned []
            | Returned (Some rows) =>
                Returned (parallel_rows (book_code_of w num) chapter v_start v_end rows)
            | Returned None => Returned []
            | Raised e => Raised e
            end
        end
    end.
Proof.
  unfold parallel.get_parallel_verses. cbv zeta.
  rewrite result_bind. cbn [info result snd].
  destruct (decide (translation_codes = [])) as [->|Hcodes].
  { reflexivity. }
  rewrite decide_False by (by destruct translation_codes).
  rewrite result_bind, parallel_parse_refines.
  destruct (parse_by_spec ref) as [[[[book_str chapter] v_start] v_end]|];
    [|reflexivity].
  cbn beta iota.
  rewrite result_bind, load_canon_result.
  destruct (pydict.is_empty (canon_of w)) eqn:Hempty.
  { by rewrite (resolve_empty_canon _ _ Hempty). }
  change (first_key _ (parallel._build_book_lookup (canon_of w)))
    with (resolve w book_str).
  destruct (resolve w book_str) as [num|] eqn:Hnum; [|reflexivity].
  destruct (resolved_in_canon _ _ _ Hnum) as [meta Hmeta].
  rewrite result_bind. unfold pydict.getitem, book_code_of. rewrite Hmeta.
  cbn [ret result snd].
  rewrite result_bind, try_execute_result.
  destruct (guarded _ _ _) as [[[|row rows]|]|e]; reflexivity.
Qed.

Lemma search_verses_result w query limit translation_code :
  result (search.search_verses w query limit translation_code) =
  if decide (py.strip query = EmptyString) then Returned []
  else
    let pattern := "%" +:+ py.strip query +:+ "%" in
    match guarded w [limit]
            match translation_code with
            | Some (String c t) =>
                search.select_like_in_translation (py.upper (String c t)) pattern limit
            | _ => search.select_like pattern limit
            end with
    | Returned (Some rows) => Returned (verse_row <$> rows)
    | Returned None => Returned []
    | Raised e => Raised e
    end.
Proof.
  unfold search.search_verses. cbv zeta.
  case_decide as Hq; [reflexivity|].
  rewrite result_bind. cbn [info result snd].
  rewrite result_bind.
  destruct translation_code as [[|c t]|];
    rewrite try_execute_result;
    destruct (guarded _ _ _) as [[rows|]|e]; reflexivity.
Qed.

Lemma rows_of_result {A} (m : M (list A)) rows :
  result m = Returned rows -> rows_of m = rows.
Proof. unfold rows_of. by intros ->. Qed.

(** *** What the SELECT statements return *)

Lemma select_passage_elem translation_code num chapter v_start v_end table r :
  r ∈ search.select_passage translation_code num chapter v_start v_end table <->
  r ∈ table /\ sqlite.translation_code r = translation_code /\
  sqlite.book_num r = num /\ sqlite.chapter r = chapter /\
  v_start <= sqlite.verse r <= v_end.
Proof.
  unfold search.select_passage. rewrite merge_sort_Permutation, list_elem_of_filter.
  unfold sqlite.between. rewrite andb_true_iff, !Z.leb_le. tauto.
Qed.

Lemma select_window_passage translation_code num chapter v_start v_end table :
  context.select_window translation_code num chapter v_start v_end table =
  search.select_passage translation_code num chapter v_start v_end table.
Proof. reflexivity. Qed.

Lemma select_parallel_elem codes num chapter v_start v_end table f :
  f ∈ parallel.select_parallel codes num chapter v_start v_end table <->
  exists r, f = parallel.select_columns r /\
    r ∈ table /\ sqlite.translation_code r ∈ codes /\
    sqlite.book_num r = num /\ sqlite.chapter r = chapter /\
    v_start <= sqlite.verse r <= v_end.
Proof.
  unfold parallel.select_parallel. split.
  - intros (r & -> & Hr)%list_elem_of_fmap.
    rewrite merge_sort_Permutation in Hr.
    apply list_elem_of_filter in Hr as [(H1 & H2 & H3 & H4) Hin].
    apply andb_true_iff in H4 as [H4 H5]. apply Z.leb_le in H4, H5.
    exists r. repeat split; auto.
  - intros (r & -> & Hin & H1 & H2 & H3 & H4 & H5).
    apply list_elem_of_fmap. exists r. split; [done|].
    rewrite merge_sort_Permutation. apply list_elem_of_filter. split; [|done].
    unfold sqlite.between. rewrite andb_true_iff, !Z.leb_le. repeat split; auto.
Qed.

#[global] Instance by_verse_transitive : Transitive sqlite.by_verse.
Proof. intros a b c. unfold sqlite.by_verse. lia. Qed.

#[global] Instance by_verse_total : Total sqlite.by_verse.
Proof. intros a b. unfold sqlite.by_verse. lia. Qed.

#[global] Instance by_verse_translation_transitive :
  Transitive sqlite.by_verse_translation.
Proof.
  intros a b c. unfold sqlite.by_verse_translation.
  intros [Hab|[Hab Hsab]] [Hbc|[Hbc Hsbc]]; [left; lia..|].
  right. split; [lia|]. by etrans.
Qed.

#[global] Instance by_verse_translation_total : Total sqlite.by_verse_translation.
Proof.
  intros a b. unfold sqlite.by_verse_translation.
  destruct (Z.lt_trichotomy (sqlite.verse a) (sqlite.verse b)) as [?|[?|?]];
    [auto| |auto].
  destruct (total String.le (sqlite.translation_code a) (sqlite.translation_code b));
    auto.
Qed.

Lemma select_passage_sorted translation_code num chapter v_start v_end table :
  StronglySorted sqlite.by_verse
    (search.select_passage translation_code num chapter v_start v_end table).
Proof. apply StronglySorted_merge_sort; apply _. Qed.

(** *** The rows of a facade *)

Lemma guarded_rows {R} w params (select : list sqlite.row -> list R) rows :
  guarded w params select = Returned (Some rows) -> rows = select (table_of w).
Proof.
  unfold guarded, table_of. destruct (db w); [done|].
  destruct (forallb _ _); [|done]. by intros [= <-].
Qed.

Lemma get_passage_rows w ref translation_code :
  rows_of (search.get_passage w ref translation_code) = [] \/
  exists book_str chapter v_start v_end num,
    parse_by_spec ref = Some (book_str, chapter, v_start, v_end) /\
    resolve w book_str = Some num /\
    rows_of (search.get_passage w ref translation_code) =
      verse_row <$> search.select_passage (py.upper translation_code)
                      num chapter v_start v_end (table_of w).
Proof.
  unfold rows_of. rewrite get_passage_result.
  destruct (parse_by_spec ref) as [[[[book_str chapter] v_start] v_end]|]; [|auto].
  destruct (resolve w book_str) as [num|] eqn:Hnum; [|auto].
  destruct (guarded _ _ _) as [[rows|]|e] eqn:Hg; [|auto..].
  right. exists book_str, chapter, v_start, v_end, num.
  by rewrite (guarded_rows _ _ _ _ Hg).
Qed.

Lemma get_verse_window_rows w ref translation_code before after :
  rows_of (context.get_verse_window w ref translation_code before after) = [] \/
  exists book_str chapter center_verse num,
    parse_center_by_spec ref = Some (book_str, chapter, center_verse) /\
    resolve w book_str = Some num /\
    rows_of (context.get_verse_window w ref translation_code before after) =
      verse_row <$> context.select_window (py.upper translation_code)
                      num chapter (Z.max 1 (center_verse - before))
                      (center_verse + after) (table_of w).
Proof.
  unfold rows_of. rewrite get_verse_window_result.
  destruct (parse_center_by_spec ref) as [[[book_str chapter] center_verse]|]; [|auto].
  destruct (resolve w book_str) as [num|] eqn:Hnum; [|auto].
  cbv zeta.
  destruct (guarded _ _ _) as [[rows|]|e] eqn:Hg; [|auto..].
  right. exists book_str, chapter, center_verse, num.
  by rewrite (guarded_rows _ _ _ _ Hg).
Qed.

Lemma get_parallel_verses_rows w ref translation_codes :
  rows_of (parallel.get_parallel_verses w ref translation_codes) = [] \/
  exists book_str chapter v_start v_end num,
    parse_by_spec ref = Some (book_str, chapter, v_start, v_end) /\
    resolve w book_str = Some num /\
    parallel.select_parallel (py.upper <$> translation_codes)
      num chapter v_start v_end (table_of w) <> [] /\
    rows_of (parallel.get_parallel_verses w ref translation_codes) =
      parallel_rows (book_code_of w num) chapter v_start v_end
        (parallel.select_parallel (py.upper <$> translation_codes)
           num chapter v_start v_end (table_of w)).
Proof.
  unfold rows_of. rewrite get_parallel_verses_result.
  case_decide; [auto|].
  destruct (parse_by_spec ref) as [[[[book_str chapter] v_start] v_end]|]; [|auto].
  destruct (resolve w book_str) as [num|] eqn:Hnum; [|auto].
  destruct (guarded _ _ _) as [[rows|]|e] eqn:Hg; [|auto..].
  apply guarded_rows in Hg. destruct rows as [|row rows]; [auto|].
  right. exists book_str, chapter, v_start, v_end, num.
  rewrite <- Hg. done.
Qed.

(** ** Translation codes *)

(** C10: every facade uppercases the translation codes it is given before
    anything else, so a code and its uppercase spelling give the same run:
    the same console lines and the same result. *)
Theorem translation_code_case_is_irrelevant :
  (forall w ref t,
     search.get_passage w ref t = search.get_passage w ref (py.upper t)) /\
  (forall w ref t before after,
     context.get_verse_window w ref t before after =
     context.get_verse_window w ref (py.upper t) before after) /\
  (forall w ref t ts,
     parallel.get_parallel_verses w ref (t :: ts) =
     parallel.get_parallel_verses w ref (py.upper t :: ts)) /\
  (forall w ref ts,
     parallel.get_parallel_verses w ref ts =
     parallel.get_parallel_verses w ref (py.upper <$> ts)).
Proof.
  repeat split.
  - intros. unfold search.get_passage. by rewrite upper_idemp.
  - intros. unfold context.get_verse_window. by rewrite upper_idemp.
  - intros. unfold parallel.get_parallel_verses.
    by rewrite !fmap_cons, upper_idemp.
  - intros. unfold parallel.get_parallel_verses.
    rewrite <- list_fmap_compose.
    assert ((py.upper ∘ py.upper) <$> ts = py.upper <$> ts) as ->; [|done].
    apply list_fmap_ext. intros _ t _. apply upper_idemp.
Qed.

(** ** The reference parser *)

(** C4: the parser reads [John 3:16-18] as verses 16 to 18 and [John 3:16]
    as verses 16 to 16; and for every book token [b], chapter [c] and verse
    [v], the references [b c:v] and [b c:v-v] parse to the same result, the
    range from [v] to [v] (or, for both, to a failure when [b] is blank or
    [v] is negative). *)
Theorem single_verse_is_unit_range :
  result (search._parse_reference "John 3:16-18") = Returned (Some ("John", 3, 16, 18)) /\
  result (search._parse_reference "John 3:16") = Returned (Some ("John", 3, 16, 16)) /\
  result (parallel._parse_reference_range "John 3:16-18") = Returned (Some ("John", 3, 16, 18)) /\
  result (parallel._parse_reference_range "John 3:16") = Returned (Some ("John", 3, 16, 16)) /\
  (forall b c v,
     let single := b +:+ " " +:+ py.str c +:+ ":" +:+ py.str v in
     let range := b +:+ " " +:+ py.str c +:+ ":" +:+ py.str v +:+ "-" +:+ py.str v in
     result (search._parse_reference single) = result (search._parse_reference range) /\
     result (parallel._parse_reference_range single) =
       result (parallel._parse_reference_range range) /\
     result (search._parse_reference single) =
       result (parallel._parse_reference_range single) /\
     result (search._parse_reference single) =
       if decide (v < 0 \/ py.strip b = EmptyString) then Returned None
       else Returned (Some (py.strip b, c, v, v))).
Proof.
  split; [reflexivity|]. split; [reflexivity|].
  split; [reflexivity|]. split; [reflexivity|].
  intros b c v single range.
  change single with (b +:+ String " " (verse_tail c v)).
  change range with (b +:+ String " " (range_tail c v)).
  rewrite search_parse_verse_tail, search_parse_range_tail.
  rewrite parallel_parse_verse_tail, parallel_parse_range_tail.
  done.
Qed.


(** ** The book resolver *)

(** C6: on a canon in which no lookup key belongs to two books, the
    resolver does what the specification describes, an exact match against
    codes and names and then the lowercased token against the lowercased
    codes and names; tokens that differ only in letter case resolve alike,
    [Genesis] and [genesis] among them. *)
Theorem resolver_falls_back_on_lowercase canon :
  no_collisions canon = true ->
  let book_lookup := loader._build_book_lookup canon in
  (forall token,
     fst <$> loader._resolve_book token book_lookup = resolve_by_spec canon token /\
     first_key [token; py.lower token] book_lookup = resolve_by_spec canon token) /\
  (forall t1 t2,
     py.lower t1 = py.lower t2 ->
     loader._resolve_book t1 book_lookup = loader._resolve_book t2 book_lookup /\
     first_key [t1; py.lower t1] book_lookup =
       first_key [t2; py.lower t2] book_lookup) /\
  loader._resolve_book "Genesis" book_lookup =
    loader._resolve_book "genesis" book_lookup.
Proof.
  intros Hok book_lookup. subst book_lookup.
  set (book_lookup := loader._build_book_lookup canon).
  assert (forall t1 t2, py.lower t1 = py.lower t2 ->
            loader._resolve_book t1 book_lookup =
            loader._resolve_book t2 book_lookup) as Hsame.
  { intros t1 t2 Hl. pose proof (resolve_case_insensitive canon Hok t1 t2 Hl) as H.
    unfold loader._resolve_book. cbn [first_key] in H. fold book_lookup in H.
    destruct (book_lookup !! t1), (book_lookup !! t2),
      (book_lookup !! py.lower t1), (book_lookup !! py.lower t2);
      simpl in H; congruence. }
  split; [|split].
  - intros token. unfold book_lookup. rewrite <- first_key_resolve.
    split; by apply resolve_refines.
  - intros t1 t2 Hl. split; [by apply Hsame|by apply resolve_case_insensitive].
  - by apply Hsame.
Qed.

Lemma resolver_falls_back_on_lowercase_witness :
  no_collisions (canon_of example.world) = true /\
  loader._resolve_book "Genesis"
    (loader._build_book_lookup (canon_of example.world)) =
  loader._resolve_book "genesis"
    (loader._build_book_lookup (canon_of example.world)) /\
  loader._resolve_book "genesis"
    (loader._build_book_lookup (canon_of example.world)) = Some (1, None) /\
  result (search.get_passage example.world "Genesis 1:1" "KJV") =
  result (search.get_passage example.world "genesis 1:1" "KJV").
Proof.
  split; [reflexivity|]. split; [|split; reflexivity].
  apply (resolver_falls_back_on_lowercase (canon_of example.world)).
  reflexivity.
Defined.

(** Where two books share a key, the later book takes it, and letter case
    can change the book a token resolves to. *)
Lemma collision_breaks_case_insensitivity :
  no_collisions example.colliding_canon = false /\
  first_key ["GEN"; py.lower "GEN"]
    (loader._build_book_lookup example.colliding_canon) = Some 1 /\
  first_key ["gen"; py.lower "gen"]
    (loader._build_book_lookup example.colliding_canon) = Some 2.
Proof. repeat split. Qed.

(** ** The context window *)

(** C3: for a parsed center verse [c] the context facade queries the
    verses from [max 1 (c - before)] to [c + after]; every row it returns
    lies in that window and has a verse number of at least 1.  For
    [Genesis 1:1] with two verses before and after, the rows are verses 1
    to 3. *)
Theorem context_window_is_clamped :
  (forall w ref translation_code before after,
     result (context.get_verse_window w ref translation_code before after) =
     match parse_center_by_spec ref with
     | None => Returned []
     | Some (book_str, chapter, c) =>
         match resolve w book_str with
         | None => Returned []
         | Some num =>
             match guarded w [num; chapter; Z.max 1 (c - before); c + after]
                     (context.select_window (py.upper translation_code)
                        num chapter (Z.max 1 (c - before)) (c + after)) with
             | Returned (Some rows) => Returned (verse_row <$> rows)
             | Returned None => Returned []
             | Raised e => Raised e
             end
         end
     end) /\
  (forall w ref translation_code before after,
     match parse_center_by_spec ref with
     | None => rows_of (context.get_verse_window w ref translation_code before after) = []
     | Some (_, _, c) =>
         Forall (fun r => Z.max 1 (c - before) <= row_verse r <= c + after /\
                          1 <= row_verse r)
           (rows_of (context.get_verse_window w ref translation_code before after))
     end) /\
  (forall w translation_code,
     Forall (fun r => 1 <= row_verse r <= 3)
       (rows_of (context.get_verse_window w "Genesis 1:1" translation_code 2 2))) /\
  row_verse <$> rows_of (context.get_verse_window example.world "Genesis 1:1" "kjv" 2 2) =
    [1; 2; 3].
Proof.
  assert (forall w ref translation_code before after,
     match parse_center_by_spec ref with
     | None => rows_of (context.get_verse_window w ref translation_code before after) = []
     | Some (_, _, c) =>
         Forall (fun r => Z.max 1 (c - before) <= row_verse r <= c + after /\
                          1 <= row_verse r)
           (rows_of (context.get_verse_window w ref translation_code before after))
     end) as Hwindow.
  { intros w ref translation_code before after.
    destruct (get_verse_window_rows w ref translation_code before after)
      as [->|(b & ch & c & num & Hp & _ & ->)].
    - by destruct (parse_center_by_spec ref) as [[[? ?] ?]|].
    - rewrite Hp. apply Forall_forall.
      intros r (r0 & -> & Hr0)%list_elem_of_fmap.
      rewrite select_window_passage in Hr0.
      apply select_passage_elem in Hr0 as (_ & _ & _ & _ & Hv).
      unfold row_verse, verse_row. lia. }
  split; [|split; [|split]].
  - intros. apply get_verse_window_result.
  - exact Hwindow.
  - intros w translation_code.
    specialize (Hwindow w "Genesis 1:1" translation_code 2 2).
    assert (parse_center_by_spec "Genesis 1:1" = Some ("Genesis", 1, 1)) as Hp
      by reflexivity.
    rewrite Hp in Hwindow. eapply Forall_impl; [exact Hwindow|].
    intros r. cbv beta. lia.
  - reflexivity.
Qed.

(** ** The order of the rows *)

Lemma select_parallel_sorted codes num chapter v_start v_end table :
  StronglySorted by_verse_then_translation
    (parallel.select_parallel codes num chapter v_start v_end table).
Proof.
  unfold parallel.select_parallel.
  apply (StronglySorted_fmap _ sqlite.by_verse_translation); [by intros a b|].
  apply StronglySorted_merge_sort; apply _.
Qed.

Lemma seqZ_strictly_sorted m n : StronglySorted Z.lt (seqZ m n).
Proof.
  destruct (Z.le_gt_cases n 0) as [Hn|Hn].
  { rewrite seqZ_nil by done. constructor. }
  rewrite <- (Z2Nat.id n) by lia. generalize (Z.to_nat n) as k. clear.
  intros k. revert m. induction k as [|k IH]; intros m.
  - rewrite seqZ_nil by done. constructor.
  - rewrite seqZ_cons by lia. constructor.
    + replace (Z.pred (Z.of_nat (S k))) with (Z.of_nat k) by lia. apply IH.
    + apply Forall_seqZ. lia.
Qed.

Lemma parallel_rows_verses book_code chapter v_start v_end rows :
  parallel_verse <$> parallel_rows book_code chapter v_start v_end rows =
  seqZ v_start (v_end + 1 - v_start).
Proof.
  unfold parallel_rows. rewrite <- list_fmap_compose.
  rewrite <- (list_fmap_id (seqZ _ _)) at 2. by apply list_fmap_ext.
Qed.

Lemma parallel_rows_sorted book_code chapter v_start v_end rows :
  StronglySorted (fun a b => parallel_verse a < parallel_verse b)
    (parallel_rows book_code chapter v_start v_end rows).
Proof.
  unfold parallel_rows.
  apply (StronglySorted_fmap _ Z.lt); [by intros a b|].
  apply seqZ_strictly_sorted.
Qed.

(** C7: the SELECT of the passage and context facades returns its rows in
    ascending verse order, the SELECT of the parallel facade in ascending
    verse order and, within a verse, by translation code; the lists that
    [get_passage] and [get_verse_window] return are sorted by verse, and the
    records that [get_parallel_verses] returns have strictly ascending verse
    numbers. *)
Theorem rows_are_sorted_by_verse :
  (forall translation_code num chapter v_start v_end table,
     StronglySorted sqlite.by_verse
       (search.select_passage translation_code num chapter v_start v_end table) /\
     StronglySorted sqlite.by_verse
       (context.select_window translation_code num chapter v_start v_end table)) /\
  (forall codes num chapter v_start v_end table,
     StronglySorted by_verse_then_translation
       (parallel.select_parallel codes num chapter v_start v_end table)) /\
  (forall w ref translation_code,
     StronglySorted (fun a b => row_verse a <= row_verse b)
       (rows_of (search.get_passage w ref translation_code))) /\
  (forall w ref translation_code before after,
     StronglySorted (fun a b => row_verse a <= row_verse b)
       (rows_of (context.get_verse_window w ref translation_code before after))) /\
  (forall w ref translation_codes,
     StronglySorted (fun a b => parallel_verse a < parallel_verse b)
       (rows_of (parallel.get_parallel_verses w ref translation_codes))) /\
  row_verse <$> rows_of (search.get_passage example.world "Genesis 1:1-4" "KJV") =
    [1; 2; 3; 4].
Proof.
  split; [|split; [|split; [|split; [|split]]]].
  - intros. split; apply select_passage_sorted.
  - intros. apply select_parallel_sorted.
  - intros w ref translation_code.
    destruct (get_passage_rows w ref translation_code)
      as [->|(b & ch & vs & ve & num & _ & _ & ->)]; [constructor|].
    apply (StronglySorted_fmap _ sqlite.by_verse); [by intros x y|].
    apply select_passage_sorted.
  - intros w ref translation_code before after.
    destruct (get_verse_window_rows w ref translation_code before after)
      as [->|(b & ch & c & num & _ & _ & ->)]; [constructor|].
    apply (StronglySorted_fmap _ sqlite.by_verse); [by intros x y|].
    apply select_passage_sorted.
  - intros w ref translation_codes.
    destruct (get_parallel_verses_rows w ref translation_codes)
      as [->|(b & ch & vs & ve & num & _ & _ & _ & ->)]; [constructor|].
    apply parallel_rows_sorted.
  - reflexivity.
Qed.

(** ** Parallel records *)

Lemma build_verse_map_fold chapter rows :
  parallel.build_verse_map chapter rows = fold_left (add_row chapter) rows ∅.
Proof. reflexivity. Qed.

(** Every text in the map was fetched, for that verse and translation. *)
Lemma fold_add_row_source chapter rows verse_map v m c x :
  fold_left (add_row chapter) rows verse_map !! v = Some m ->
  m !! c = Some x ->
  (exists b, (c, b, chapter, v, x) ∈ rows) \/
  (exists m0, verse_map !! v = Some m0 /\ m0 !! c = Some x).
Proof.
  revert verse_map.
  induction rows as [|[[[[t b] ch] vv] tx] rows IH]; intros verse_map Hm Hx;
    cbn [fold_left] in Hm.
  { right. eauto. }
  destruct (IH _ Hm Hx) as [[b' Hin]|(m0 & Hm0 & Hx0)].
  { left. exists b'. apply elem_of_cons. by right. }
  unfold add_row in Hm0. case_decide as Hch; [right; eauto|].
  assert (ch = chapter) as -> by (destruct (decide (ch = chapter)); [done|tauto]).
  destruct (decide (vv = v)) as [->|Hv].
  - rewrite lookup_insert_eq in Hm0. injection Hm0 as <-.
    destruct (decide (t = c)) as [->|Ht].
    + rewrite lookup_insert_eq in Hx0. injection Hx0 as ->.
      left. exists b. apply elem_of_cons. by left.
    + rewrite lookup_insert_ne in Hx0 by done.
      destruct (verse_map !! v) as [m1|]; simpl in Hx0; [right; eauto|].
      by rewrite lookup_empty in Hx0.
  - rewrite lookup_insert_ne in Hm0 by done. right. eauto.
Qed.

(** A verse of which no row was fetched has no entry in the map. *)
Lemma fold_add_row_none chapter rows verse_map v :
  (forall t b ch x, (t, b, ch, v, x) ∉ rows) ->
  fold_left (add_row chapter) rows verse_map !! v = verse_map !! v.
Proof.
  revert verse_map.
  induction rows as [|[[[[t b] ch] vv] tx] rows IH]; intros verse_map Hnone;
    cbn [fold_left]; [done|].
  rewrite IH.
  - unfold add_row. case_decide; [done|].
    rewrite lookup_insert_ne; [done|]. intros ->.
    apply (Hnone t b ch tx). apply elem_of_cons. by left.
  - intros t' b' ch' x' Hin. apply (Hnone t' b' ch' x').
    apply elem_of_cons. by right.
Qed.

Lemma parallel_rows_elem book_code chapter v_start v_end rows bc ch v texts :
  (bc, ch, v, texts) ∈ parallel_rows book_code chapter v_start v_end rows <->
  bc = book_code /\ ch = chapter /\ v_start <= v <= v_end /\
  texts = default ∅ (parallel.build_verse_map chapter rows !! v).
Proof.
  unfold parallel_rows. rewrite list_elem_of_fmap. split.
  - intros (v' & [= -> -> -> ->] & Hv%elem_of_seqZ). repeat split; lia.
  - intros (-> & -> & Hv & ->). exists v. split; [done|].
    apply elem_of_seqZ. lia.
Qed.

Lemma parallel_rows_length book_code chapter v_start v_end rows :
  length (parallel_rows book_code chapter v_start v_end rows) =
  Z.to_nat (v_end - v_start + 1).
Proof.
  unfold parallel_rows. rewrite length_fmap, length_seqZ. f_equal. lia.
Qed.

(** C9: given that the reference parses and its book resolves, a fetch of
    zero rows makes [get_parallel_verses] return the empty list; and a
    result that is not empty has one record for each verse number from
    [v_start] to [v_end], in ascending order, [v_end - v_start + 1] in all;
    a verse of which no row was fetched has a record too, one with no
    texts. *)
Theorem parallel_one_record_per_verse w ref translation_codes
    book_str chapter v_start v_end num :
  parse_by_spec ref = Some (book_str, chapter, v_start, v_end) ->
  resolve w book_str = Some num ->
  let fetch :=
    sqlite.execute (db w) [num; chapter; v_start; v_end]
      (parallel.select_parallel (py.upper <$> translation_codes)
         num chapter v_start v_end) in
  let rows := rows_of (parallel.get_parallel_verses w ref translation_codes) in
  (result fetch = Returned [] ->
   result (parallel.get_parallel_verses w ref translation_codes) = Returned []) /\
  (rows <> [] ->
   v_start <= v_end /\
   parallel_verse <$> rows = seqZ v_start (v_end - v_start + 1) /\
   length rows = Z.to_nat (v_end - v_start + 1) /\
   (forall v, v_start <= v <= v_end ->
      exists texts, (book_code_of w num, chapter, v, texts) ∈ rows /\
        ((forall t b ch x, (t, b, ch, v, x) ∉ rows_of fetch) -> texts = ∅))).
Proof.
  intros Hparse Hnum fetch rows. subst fetch rows. split.
  - intros Hfetch. rewrite get_parallel_verses_result, Hparse, Hnum.
    case_decide; [done|].
    unfold guarded. unfold sqlite.execute in Hfetch.
    destruct (db w); [by cbn in Hfetch|].
    destruct (forallb _ _); [|by cbn in Hfetch].
    cbn in Hfetch. injection Hfetch as ->. reflexivity.
  - unfold rows_of at 1 2 3 4.
    rewrite get_parallel_verses_result, Hparse, Hnum.
    case_decide; [done|].
    unfold rows_of, guarded, sqlite.execute.
    destruct (db w) as [|table]; [done|]. destruct (forallb _ _); [|done].
    cbn [result ret snd].
    set (fetched := parallel.select_parallel _ _ _ _ _ _).
    destruct fetched as [|row fetched'] eqn:Hfetched; [done|]. intros _.
    assert (v_start <= v_end) as Hle.
    { assert (row ∈ fetched) as Hin by (rewrite Hfetched; apply elem_of_cons; by left).
      apply select_parallel_elem in Hin as (r & _ & _ & _ & _ & _ & Hv). lia. }
    split; [done|]. split; [|split].
    + rewrite parallel_rows_verses. f_equal. lia.
    + apply parallel_rows_length.
    + intros v Hv. eexists. split.
      * apply parallel_rows_elem.
        split; [reflexivity|]. split; [reflexivity|]. split; [lia|reflexivity].
      * intros Hnone. rewrite build_verse_map_fold, fold_add_row_none by done.
        by rewrite lookup_empty.
Qed.

Lemma parallel_one_record_per_verse_witness :
  parallel_verse <$>
    rows_of (parallel.get_parallel_verses example.world "John 3:16-18" ["KJV"; "BSB"]) =
  [16; 17; 18] /\
  result (parallel.get_parallel_verses example.world "John 4:1" ["KJV"; "BSB"]) =
  Returned [].
Proof.
  split.
  - pose proof (parallel_one_record_per_verse example.world "John 3:16-18"
                  ["KJV"; "BSB"] "John" 3 16 18 43 eq_refl eq_refl) as [_ H].
    destruct H as (_ & H & _); [by vm_compute|].
    exact H.
  - pose proof (parallel_one_record_per_verse example.world "John 4:1"
                  ["KJV"; "BSB"] "John" 4 1 1 43 eq_refl eq_refl) as [H _].
    apply H. reflexivity.
Defined.

(** *** Printing parallel records *)

Lemma for_each_run {A} (xs : list A) (body : A -> M unit) :
  (forall x, result (body x) = Returned tt) ->
  result (for_each xs body) = Returned tt /\
  console (for_each xs body) = xs ≫= (fun x => console (body x)).
Proof.
  intros Hbody. induction xs as [|x xs [IHr IHc]]; [done|].
  cbn [for_each]. rewrite result_bind, console_bind, Hbody, IHr, IHc. done.
Qed.

Lemma print_blocks book_name (codes : list string) (records : list parallel.ParallelRow) :
  let body := fun record : parallel.ParallelRow =>
    let '(book_code, chapter, verse, texts) := record in
    print (book_name +:+ " " +:+ py.str chapter +:+ ":" +:+ py.str verse) ;;
    for_each codes
      (fun code =>
         let text := default parallel.missing_text (texts !! code) in
         print ("  [" +:+ code +:+ "] " +:+ text)) ;;
    print EmptyString in
  result (for_each records body) = Returned tt /\
  console (for_each records body) = records ≫= parallel_block book_name codes.
Proof.
  intros body.
  assert (forall record,
            result (body record) = Returned tt /\
            console (body record) = parallel_block book_name codes record) as Hbody.
  { intros [[[bc ch] v] texts]. unfold body, parallel_block.
    rewrite ?result_bind, ?console_bind. cbn [print result console fst snd].
    rewrite ?result_bind, ?console_bind.
    match goal with |- context [for_each ?xs ?b] =>
      destruct (for_each_run xs b) as [-> ->]; [done|]
    end.
    split; [done|]. change ([?x] ++ ?l) with (x :: l). f_equal. }
  destruct (for_each_run records body (fun r => proj1 (Hbody r))) as [-> ->].
  split; [done|]. apply list_bind_ext; [|done]. intros r. apply Hbody.
Qed.

Lemma print_parallel_console w ref translation_codes record records :
  exists book_name,
    console (parallel.print_parallel w ref translation_codes (record :: records)) =
    console (loader.load_canon (canon_json w)) ++
    ((record :: records) ≫= parallel_block book_name (py.upper <$> translation_codes)).
Proof.
  unfold parallel.print_parallel. destruct record as [[[first_code ch] v] texts].
  cbv zeta. rewrite console_bind, load_canon_result.
  eexists. f_equal. apply print_blocks.
Qed.

(** ** The placeholder for a missing translation *)

(** C2 does not hold as stated: the record that [get_parallel_verses]
    returns for [John 3:16] over KJV and BSB, where only KJV has the verse,
    has no BSB entry at all, so its BSB text is not the placeholder. *)
Lemma parallel_record_has_no_placeholder :
  ~ exists kjv_text texts,
      result (parallel.get_parallel_verses example.world "John 3:16" ["KJV"; "BSB"]) =
        Returned [("JHN", 3, 16, texts)] /\
      texts !! "KJV" = Some kjv_text /\
      texts !! "BSB" = Some "(missing in this translation)".
Proof.
  intros (kjv_text & texts & Hrows & _ & Hbsb).
  assert (result (parallel.get_parallel_verses example.world "John 3:16" ["KJV"; "BSB"]) =
          Returned [("JHN", 3, 16, {["KJV" := "For God so loved the world"]})]) as Heval
    by (vm_compute; reflexivity).
  rewrite Heval in Hrows. injection Hrows as <-.
  by rewrite lookup_singleton_ne in Hbsb.
Qed.

(** C2, amended: a record of [get_parallel_verses] holds a text only for a
    translation that has the verse stored, and no entry for one that lacks
    it; [print_parallel] writes the placeholder
    [(missing in this translation)] for each requested translation without
    an entry, and the stored text for the others. *)
Theorem placeholder_is_supplied_when_printing w ref translation_codes records :
  result (parallel.get_parallel_verses w ref translation_codes) = Returned records ->
  (forall book_code chapter verse texts code text,
     (book_code, chapter, verse, texts) ∈ records ->
     texts !! code = Some text ->
     exists r book_str v_start v_end,
       parse_by_spec ref = Some (book_str, chapter, v_start, v_end) /\
       resolve w book_str = Some (sqlite.book_num r) /\
       r ∈ table_of w /\
       sqlite.translation_code r = code /\
       code ∈ py.upper <$> translation_codes /\
       sqlite.chapter r = chapter /\
       sqlite.verse r = verse /\
       sqlite.text r = text) /\
  (forall book_code chapter verse texts code,
     (book_code, chapter, verse, texts) ∈ records ->
     (forall r, r ∈ table_of w ->
        ~ (sqlite.translation_code r = code /\ sqlite.chapter r = chapter /\
           sqlite.verse r = verse)) ->
     texts !! code = None) /\
  (forall book_code chapter verse texts code,
     (book_code, chapter, verse, texts) ∈ records ->
     code ∈ translation_codes ->
     PrintLine ("  [" +:+ py.upper code +:+ "] " +:+
            default "(missing in this translation)" (texts !! py.upper code))
     ∈ console (parallel.print_parallel w ref translation_codes records)).
Proof.
  intros Hresult.
  assert (forall book_code chapter verse texts code text,
     (book_code, chapter, verse, texts) ∈ records ->
     texts !! code = Some text ->
     exists r book_str v_start v_end,
       parse_by_spec ref = Some (book_str, chapter, v_start, v_end) /\
       resolve w book_str = Some (sqlite.book_num r) /\
       r ∈ table_of w /\
       sqlite.translation_code r = code /\
       code ∈ py.upper <$> translation_codes /\
       sqlite.chapter r = chapter /\
       sqlite.verse r = verse /\
       sqlite.text r = text) as Hstored; [|split; [exact Hstored|split]].
  - intros book_code chapter verse texts code text Hin Htext.
    apply rows_of_result in Hresult.
    destruct (get_parallel_verses_rows w ref translation_codes)
      as [Hnil|(b & ch & vs & ve & num & Hp & Hnum & _ & Hrows)].
    { rewrite Hnil in Hresult. subst records. by apply elem_of_nil in Hin. }
    rewrite Hrows in Hresult. subst records.
    apply parallel_rows_elem in Hin as (-> & -> & Hv & ->).
    rewrite build_verse_map_fold in Htext.
    destruct (fold_left _ _ _ !! verse) as [m|] eqn:Hm; simpl in Htext;
      [|by rewrite lookup_empty in Htext].
    destruct (fold_add_row_source _ _ _ _ _ _ _ Hm Htext)
      as [[bc Hfetched]|(m0 & Hm0 & _)]; [|by rewrite lookup_empty in Hm0].
    apply select_parallel_elem in Hfetched
      as (r & [= -> -> Hch Hverse Htx] & Hr & Hcode & Hbook & _ & _).
    exists r, b, vs, ve. by rewrite Hbook.
  - intros book_code chapter verse texts code Hin Hnone.
    destruct (texts !! code) as [text|] eqn:Htext; [|done].
    destruct (Hstored _ _ _ _ _ _ Hin Htext)
      as (r & _ & _ & _ & _ & _ & Hr & Hc & _ & Hch & Hv & _).
    destruct (Hnone r Hr). done.
  - intros book_code chapter verse texts code Hin Hcode.
    destruct records as [|record records]; [by apply elem_of_nil in Hin|].
    destruct (print_parallel_console w ref translation_codes record records)
      as [book_name ->].
    apply elem_of_app. right.
    apply list_elem_of_bind. exists (book_code, chapter, verse, texts).
    split; [|done]. unfold parallel_block.
    apply elem_of_cons. right. apply elem_of_app. left.
    apply list_elem_of_fmap. exists (py.upper code). split; [done|].
    by apply list_elem_of_fmap_2.
Qed.

Lemma placeholder_is_supplied_when_printing_witness :
  result (parallel.get_parallel_verses example.world "John 3:16" ["KJV"; "BSB"]) =
    Returned [("JHN", 3, 16, {["KJV" := "For God so loved the world"]})] /\
  ({["KJV" := "For God so loved the world"]} : gmap string string) !! "BSB" = None /\
  PrintLine "  [BSB] (missing in this translation)"
  ∈ console (parallel.print_parallel example.world "John 3:16" ["KJV"; "BSB"]
               [("JHN", 3, 16, {["KJV" := "For God so loved the world"]})]).
Proof.
  assert (result (parallel.get_parallel_verses example.world "John 3:16" ["KJV"; "BSB"]) =
          Returned [("JHN", 3, 16, {["KJV" := "For God so loved the world"]})]) as Heval
    by (vm_compute; reflexivity).
  split; [exact Heval|].
  destruct (placeholder_is_supplied_when_printing example.world "John 3:16"
              ["KJV"; "BSB"] _ Heval) as (_ & Hnone & Hprint).
  split.
  - apply (Hnone "JHN" 3 16); [apply elem_of_cons; by left|].
    apply Forall_forall.
    repeat (apply Forall_cons; split; [by intros (? & ? & ?)|]).
    constructor.
  - pose proof (Hprint "JHN" 3 16 {["KJV" := "For God so loved the world"]} "BSB")
      as Hline.
    change (py.upper "BSB") with "BSB" in Hline.
    rewrite lookup_singleton_ne in Hline by done.
    apply Hline.
    + apply elem_of_cons. by left.
    + apply elem_of_cons. right. apply elem_of_cons. by left.
Defined.

(** What the console shows for that comparison. *)
Lemma print_parallel_john_3_16 :
  console (parallel.print_parallel example.world "John 3:16" ["KJV"; "BSB"]
             [("JHN", 3, 16, {["KJV" := "For God so loved the world"]})]) =
  [PrintLine "John 3:16";
   PrintLine "  [KJV] For God so loved the world";
   PrintLine "  [BSB] (missing in this translation)";
   PrintLine EmptyString].
Proof. vm_compute. reflexivity. Qed.

(** ** Failures *)

Lemma guarded_unavailable {R} w params (select : list sqlite.row -> list R) :
  db w = sqlite.unavailable -> guarded w params select = Returned None.
Proof. unfold guarded. by intros ->. Qed.

Lemma guarded_fits {R} w params (select : list sqlite.row -> list R) :
  forallb sqlite.fits_integer params = true ->
  exists rows, guarded w params select = Returned rows.
Proof. unfold guarded. intros ->. destruct (db w); eauto. Qed.

(** The failures that the facades turn into an empty result: a reference
    that does not parse, a book that does not resolve (as with no canon, or
    an empty one) and a database that cannot be queried. *)
Lemma facades_degrade_to_empty w :
  (forall ref translation_code,
     parse_by_spec ref = None ->
     result (search.get_passage w ref translation_code) = Returned []) /\
  (forall ref translation_code before after,
     parse_center_by_spec ref = None ->
     result (context.get_verse_window w ref translation_code before after) = Returned []) /\
  (forall ref translation_codes,
     parse_by_spec ref = None ->
     result (parallel.get_parallel_verses w ref translation_codes) = Returned []) /\
  (forall ref translation_code translation_codes before after,
     (forall book_str, resolve w book_str = None) ->
     result (search.get_passage w ref translation_code) = Returned [] /\
     result (context.get_verse_window w ref translation_code before after) = Returned [] /\
     result (parallel.get_parallel_verses w ref translation_codes) = Returned []) /\
  (pydict.is_empty (canon_of w) = true -> forall book_str, resolve w book_str = None) /\
  (canon_json w = None -> forall book_str, resolve w book_str = None) /\
  (forall ref query limit translation_code translation_filter translation_codes
          before after,
     db w = sqlite.unavailable ->
     result (search.get_passage w ref translation_code) = Returned [] /\
     result (context.get_verse_window w ref translation_code before after) = Returned [] /\
     result (parallel.get_parallel_verses w ref translation_codes) = Returned [] /\
     result (search.search_verses w query limit translation_filter) = Returned []).
Proof.
  split; [|split; [|split; [|split; [|split; [|split]]]]].
  - intros ref tc Hp. by rewrite get_passage_result, Hp.
  - intros ref tc before after Hp. by rewrite get_verse_window_result, Hp.
  - intros ref tcs Hp. rewrite get_parallel_verses_result, Hp. by case_decide.
  - intros ref tc tcs before after Hnone. split; [|split].
    + rewrite get_passage_result.
      destruct (parse_by_spec ref) as [[[[b c] vs] ve]|]; [|done]. by rewrite Hnone.
    + rewrite get_verse_window_result.
      destruct (parse_center_by_spec ref) as [[[b c] v]|]; [|done]. by rewrite Hnone.
    + rewrite get_parallel_verses_result. case_decide; [done|].
      destruct (parse_by_spec ref) as [[[[b c] vs] ve]|]; [|done]. by rewrite Hnone.
  - intros Hempty book_str. by apply resolve_empty_canon.
  - intros Hnone book_str. apply resolve_empty_canon.
    unfold canon_of. by rewrite Hnone.
  - intros ref query limit tc filter tcs before after Hdb. split; [|split; [|split]].
    + rewrite get_passage_result.
      destruct (parse_by_spec ref) as [[[[b c] vs] ve]|]; [|done].
      destruct (resolve w b); [|done]. by rewrite guarded_unavailable.
    + rewrite get_verse_window_result.
      destruct (parse_center_by_spec ref) as [[[b c] v]|]; [|done].
      destruct (resolve w b); [|done]. cbv zeta. by rewrite guarded_unavailable.
    + rewrite get_parallel_verses_result. case_decide; [done|].
      destruct (parse_by_spec ref) as [[[[b c] vs] ve]|]; [|done].
      destruct (resolve w b); [|done]. by rewrite guarded_unavailable.
    + rewrite search_verses_result. case_decide; [done|].
      cbv zeta. by rewrite guarded_unavailable.
Qed.

(** A misspelled book gives no rows. *)
Lemma misspelled_book_gives_no_rows :
  result (search.get_passage example.world "Nehmiah 1:1" "KJV") = Returned [] /\
  console (search.get_passage example.world "Nehmiah 1:1" "KJV") =
    [InfoLine (PassageBanner "Nehmiah 1:1" "KJV"); WarnLine (UnresolvedBook "Nehmiah")].
Proof. split; reflexivity. Qed.

(** With integers that fit SQLite's INTEGER the facades return. *)
Lemma facades_return_within_integer_range w :
  (forall ref translation_code book_str chapter v_start v_end num,
     parse_by_spec ref = Some (book_str, chapter, v_start, v_end) ->
     resolve w book_str = Some num ->
     forallb sqlite.fits_integer [num; chapter; v_start; v_end] = true ->
     exists rows, result (search.get_passage w ref translation_code) = Returned rows) /\
  (forall ref translation_codes book_str chapter v_start v_end num,
     parse_by_spec ref = Some (book_str, chapter, v_start, v_end) ->
     resolve w book_str = Some num ->
     forallb sqlite.fits_integer [num; chapter; v_start; v_end] = true ->
     exists rows,
       result (parallel.get_parallel_verses w ref translation_codes) = Returned rows).
Proof.
  split.
  - intros ref tc b c vs ve num Hp Hnum Hfits.
    rewrite get_passage_result, Hp, Hnum.
    destruct (guarded_fits w _ (search.select_passage (py.upper tc) num c vs ve) Hfits)
      as [[rows|] ->]; eauto.
  - intros ref tcs b c vs ve num Hp Hnum Hfits.
    rewrite get_parallel_verses_result, Hp, Hnum. case_decide; [eauto|].
    destruct (guarded_fits w _
                (parallel.select_parallel (py.upper <$> tcs) num c vs ve) Hfits)
      as [[[|row rows]|] ->]; eauto.
Qed.

(** C1: the facades do not keep every failure from their caller.  A
    verse number, window bound or row limit that does not fit SQLite's
    64-bit INTEGER makes the query raise [OverflowError], which is not a
    [sqlite3.Error] and passes through [except sqlite3.Error]. *)
Theorem overflow_escapes_the_facades :
  result (search.get_passage example.world "Genesis 1:9223372036854775808" "KJV") =
    Raised OverflowError /\
  result (context.get_verse_window example.world "Genesis 1:9223372036854775807" "KJV" 2 2) =
    Raised OverflowError /\
  result (parallel.get_parallel_verses example.world "Genesis 1:9223372036854775808"
            ["KJV"; "BSB"]) =
    Raised OverflowError /\
  result (search.search_verses example.world "God" 9223372036854775808 None) =
    Raised OverflowError.
Proof. repeat split; vm_compute; reflexivity. Qed.

(** ** Out-of-order ranges *)

Lemma select_passage_out_of_order translation_code num chapter v_start v_end table :
  v_end < v_start ->
  search.select_passage translation_code num chapter v_start v_end table = [].
Proof.
  intros Hlt. apply elem_of_nil_inv. intros r Hr.
  apply select_passage_elem in Hr. lia.
Qed.

Lemma select_parallel_out_of_order codes num chapter v_start v_end table :
  v_end < v_start ->
  parallel.select_parallel codes num chapter v_start v_end table = [].
Proof.
  intros Hlt. apply elem_of_nil_inv. intros f Hf.
  apply select_parallel_elem in Hf as (r & _ & _ & _ & _ & _ & Hv). lia.
Qed.

(** An out-of-order range whose bounds fit SQLite's INTEGER gives the empty
    result; in general it gives no rows, and the only exception is the
    [OverflowError] of a bound that does not fit. *)
Lemma out_of_order_range_gives_no_rows w ref book_str chapter v_start v_end :
  parse_by_spec ref = Some (book_str, chapter, v_start, v_end) ->
  v_end < v_start ->
  (forall translation_code,
     result (search.get_passage w ref translation_code) = Returned [] \/
     result (search.get_passage w ref translation_code) = Raised OverflowError) /\
  (forall translation_codes,
     result (parallel.get_parallel_verses w ref translation_codes) = Returned [] \/
     result (parallel.get_parallel_verses w ref translation_codes) =
       Raised OverflowError) /\
  (forall num, resolve w book_str = Some num ->
     forallb sqlite.fits_integer [num; chapter; v_start; v_end] = true ->
     (forall translation_code,
        result (search.get_passage w ref translation_code) = Returned []) /\
     (forall translation_codes,
        result (parallel.get_parallel_verses w ref translation_codes) = Returned [])).
Proof.
  intros Hp Hlt.
  assert (forall tc num,
            guarded w [num; chapter; v_start; v_end]
              (search.select_passage tc num chapter v_start v_end) = Returned None \/
            guarded w [num; chapter; v_start; v_end]
              (search.select_passage tc num chapter v_start v_end) = Returned (Some []) \/
            guarded w [num; chapter; v_start; v_end]
              (search.select_passage tc num chapter v_start v_end) = Raised OverflowError)
    as Hpassage.
  { intros tc num. unfold guarded. destruct (db w); [auto|].
    destruct (forallb _ _); [|auto].
    rewrite select_passage_out_of_order by done. auto. }
  assert (forall tcs num,
            guarded w [num; chapter; v_start; v_end]
              (parallel.select_parallel tcs num chapter v_start v_end) = Returned None \/
            guarded w [num; chapter; v_start; v_end]
              (parallel.select_parallel tcs num chapter v_start v_end) = Returned (Some []) \/
            guarded w [num; chapter; v_start; v_end]
              (parallel.select_parallel tcs num chapter v_start v_end) = Raised OverflowError)
    as Hparallel.
  { intros tcs num. unfold guarded. destruct (db w); [auto|].
    destruct (forallb _ _); [|auto].
    rewrite select_parallel_out_of_order by done. auto. }
  split; [|split].
  - intros tc. rewrite get_passage_result, Hp.
    destruct (resolve w book_str) as [num|]; [|auto].
    destruct (Hpassage (py.upper tc) num) as [-> |[-> | ->]]; auto.
  - intros tcs. rewrite get_parallel_verses_result, Hp. case_decide; [auto|].
    destruct (resolve w book_str) as [num|]; [|auto].
    destruct (Hparallel (py.upper <$> tcs) num) as [-> |[-> | ->]]; auto.
  - intros num Hnum Hfits. split.
    + intros tc. rewrite get_passage_result, Hp, Hnum.
      destruct (Hpassage (py.upper tc) num) as [-> |[-> | Hraise]]; [done..|].
      destruct (guarded_fits w _
                  (search.select_passage (py.upper tc) num chapter v_start v_end) Hfits)
        as [rows Hrows].
      congruence.
    + intros tcs. rewrite get_parallel_verses_result, Hp, Hnum. case_decide; [done|].
      destruct (Hparallel (py.upper <$> tcs) num) as [-> |[-> | Hraise]]; [done..|].
      destruct (guarded_fits w _
                  (parallel.select_parallel (py.upper <$> tcs) num chapter v_start v_end)
                  Hfits) as [rows Hrows].
      congruence.
Qed.

(** C8: the parser accepts an out-of-order range, but the facades do not
    return the empty result for every such range: where the first bound
    does not fit SQLite's 64-bit INTEGER the query raises [OverflowError],
    which the facades let through. *)
Theorem out_of_order_range_can_overflow :
  result (search._parse_reference "John 3:9223372036854775808-1") =
    Returned (Some ("John", 3, 9223372036854775808, 1)) /\
  result (search.get_passage example.world "John 3:9223372036854775808-1" "KJV") =
    Raised OverflowError /\
  result (parallel.get_parallel_verses example.world "John 3:9223372036854775808-1"
            ["KJV"; "BSB"]) =
    Raised OverflowError /\
  result (search.get_passage example.world "John 3:18-16" "KJV") = Returned [] /\
  result (parallel.get_parallel_verses example.world "John 3:18-16" ["KJV"; "BSB"]) =
    Returned [].
Proof. repeat split; vm_compute; reflexivity. Qed.

(** ** More on stripping, splitting and numerals *)

Lemma contains_lstrip c s :
  py.contains c s = false -> py.contains c (py.lstrip s) = false.
Proof.
  induction s as [|d s IH]; cbn [py.contains py.lstrip]; [done|].
  intros [Hd Hs]%orb_false_iff.
  destruct (py.isspace d); [by apply IH|].
  cbn [py.contains]. by rewrite Hd, Hs.
Qed.

Lemma contains_rstrip c s :
  py.contains c s = false -> py.contains c (py.rstrip s) = false.
Proof.
  induction s as [|d s IH]; cbn [py.contains py.rstrip]; [done|].
  intros [Hd Hs]%orb_false_iff. specialize (IH Hs).
  destruct (py.rstrip s) as [|e r].
  - destruct (py.isspace d); cbn [py.contains]; [done|]. by rewrite Hd.
  - cbn [py.contains] in *. by rewrite Hd, IH.
Qed.

Lemma contains_strip c s :
  py.contains c s = false -> py.contains c (py.strip s) = false.
Proof. intros H. by apply contains_rstrip, contains_lstrip. Qed.

(** A stripped string starts with a character that is no space. *)
Lemma strip_head s :
  py.strip s = EmptyString \/ exists c r, py.strip s = String c r /\ py.isspace c = false.
Proof.
  unfold py.strip. destruct (lstrip_head s) as [->|(c & r & -> & Hc)]; [by left|].
  right. cbn [py.rstrip]. rewrite Hc.
  destruct (py.rstrip r); eauto.
Qed.

(** The text before the first separator does not hold it. *)
Lemma split1_first c s : forall a t,
  py.split1 c s = [a; t] -> py.contains c a = false /\ s = a +:+ String c t.
Proof.
  induction s as [|d s IH]; intros a t; cbn [py.split1]; [done|].
  destruct (Ascii.eqb d c) eqn:Hd.
  - apply Ascii.eqb_eq in Hd as ->. intros [= <- <-]. by rewrite append_nil_l.
  - destruct (py.split1 c s) as [|x [|y rest]]; [done|done|].
    intros [= <- <- ->].
    destruct (IH x y eq_refl) as [Hx ->].
    cbn [py.contains]. by rewrite Hd, Hx, append_cons.
Qed.

(** [int] by the first character of the stripped text. *)
Lemma int_eq s :
  py.int s =
  match py.strip s with
  | EmptyString => None
  | String c r =>
      if Ascii.eqb c "+" then py.int_unsigned r
      else if Ascii.eqb c "-" then Z.opp <$> py.int_unsigned r
      else py.int_unsigned (String c r)
  end.
Proof. unfold py.int. destruct (py.strip s) as [|c r]; [done|]. each_char c. Qed.

Lemma digit_value_nonneg c : py.isdigit c = true -> 0 <= py.digit_value c.
Proof. each_char c; intros _; by vm_compute. Qed.

Lemma int_digits_nonneg s : forall acc z,
  0 <= acc -> py.int_digits acc s = Some z -> 0 <= z.
Proof.
  induction s as [|c s IH]; intros acc z Hacc; cbn [py.int_digits].
  - by intros [= <-].
  - destruct (py.isdigit c) eqn:Hc.
    + apply IH. pose proof (digit_value_nonneg c Hc). lia.
    + destruct (Ascii.eqb c "_"); [|done].
      destruct s as [|d s']; [done|].
      destruct (py.isdigit d) eqn:Hd; [|done].
      intros H. apply (IH acc z Hacc). cbn [py.int_digits]. by rewrite Hd.
Qed.

Lemma int_unsigned_nonneg s z : py.int_unsigned s = Some z -> 0 <= z.
Proof.
  destruct s as [|c s]; cbn [py.int_unsigned]; [done|].
  destruct (py.isdigit c) eqn:Hc; [|done].
  apply int_digits_nonneg. by apply digit_value_nonneg.
Qed.




(** A numeral without a hyphen is not negative. *)
Lemma int_no_hyphen s z :
  py.int s = Some z -> py.contains "-" (py.strip s) = false -> 0 <= z.
Proof.
  rewrite int_eq. destruct (py.strip s) as [|c r]; [done|].
  destruct (Ascii.eqb c "+") eqn:Hp; [intros; by eapply int_unsigned_nonneg|].
  destruct (Ascii.eqb c "-") eqn:Hm; [|intros; by eapply int_unsigned_nonneg].
  cbn [py.contains]. by rewrite Hm.
Qed.

(** ** The book and the tail of a reference *)

Lemma book_and_tail_book ref book tail :
  book_and_tail ref = Some (book, tail) -> book <> EmptyString /\ py.strip book = book.
Proof.
  unfold book_and_tail.
  destruct (py.rindex " " (py.strip ref)) as [i|] eqn:Hi; [|done].
  intros [= <- _]. split; [|apply strip_idemp].
  destruct (strip_head ref) as [Hs|(c & r & Hs & Hc)]; rewrite Hs in Hi; [done|].
  cbn [py.rindex] in Hi.
  assert (exists i', i = S i') as [i' ->].
  { destruct (py.rindex " " r); [injection Hi as <-; eauto|].
    destruct (Ascii.eqb c " ") eqn:Hsp; [|done].
    apply Ascii.eqb_eq in Hsp as ->. done. }
  rewrite Hs. cbn [py.slice_to]. rewrite strip_blank_iff.
  cbn [py.lstrip]. by rewrite Hc.
Qed.

Lemma book_and_tail_compose b tail :
  py.strip b <> EmptyString -> no_space tail = true -> tail <> EmptyString ->
  book_and_tail (b +:+ String " " tail) = Some (py.strip b, tail).
Proof.
  intros Hb Htail Hne. unfold book_and_tail.
  rewrite (strip_reference b tail Htail Hne), decide_False by done.
  rewrite (rindex_app_last " " (py.lstrip b) _ (no_space_no_blank _ Htail)).
  by rewrite slice_to_app, slice_from_app, strip_lstrip, (strip_no_space _ Htail).
Qed.

Lemma parse_by_spec_book ref b c vs ve :
  parse_by_spec ref = Some (b, c, vs, ve) ->
  exists tail, book_and_tail ref = Some (b, tail).
Proof.
  unfold parse_by_spec.
  destruct (book_and_tail ref) as [[book tail]|]; [|done].
  destruct (py.split1 ":" tail) as [|chap [|verses [|? ?]]]; try done.
  destruct (py.int chap); [|done].
  destruct (py.split1 "-" (py.strip verses)) as [|first [|last [|? ?]]];
    repeat match goal with
           | |- context [match py.int ?x with _ => _ end] => destruct (py.int x)
           end; try done; intros [= <- _ _ _]; eauto.
Qed.

Lemma parse_center_by_spec_book ref b c v :
  parse_center_by_spec ref = Some (b, c, v) ->
  exists tail, book_and_tail ref = Some (b, tail).
Proof.
  unfold parse_center_by_spec.
  destruct (book_and_tail ref) as [[book tail]|]; [|done].
  destruct (py.split1 ":" tail) as [|chap [|verse [|? ?]]]; try done.
  destruct (py.int chap); [|done]. destruct (py.int verse); [|done].
  intros [= <- _ _]. eauto.
Qed.

(** The first verse of a parsed range is not negative. *)
Lemma parse_by_spec_start ref b c vs ve :
  parse_by_spec ref = Some (b, c, vs, ve) -> 0 <= vs.
Proof.
  unfold parse_by_spec.
  destruct (book_and_tail ref) as [[book tail]|]; [|done].
  destruct (py.split1 ":" tail) as [|chap [|verses [|? ?]]]; try done.
  destruct (py.int chap); [|done].
  destruct (split1_cases "-" (py.strip verses)) as [[Hc ->]|[Hc (a & t & Hsp)]].
  - destruct (py.int verses) as [v|] eqn:Hv; [|done].
    intros [= _ _ <- _]. by eapply int_no_hyphen.
  - rewrite Hsp. destruct (py.int a) as [v|] eqn:Hv; [|done].
    destruct (py.int t); [|done]. intros [= _ _ <- _].
    apply split1_first in Hsp as [Ha _].
    eapply int_no_hyphen; [done|]. by apply contains_strip.
Qed.

(** ** What a parsed reference looks like *)

(** X1: a reference that parses has a book token that is not empty and has
    no surrounding whitespace, and the range parsers never return a negative
    first verse.  Nothing more is checked: the chapter, the last verse of a
    range and the verse of the context parser can be negative. *)
Theorem parsed_reference_shape :
  (forall ref b c vs ve,
     result (search._parse_reference ref) = Returned (Some (b, c, vs, ve)) ->
     b <> EmptyString /\ py.strip b = b /\ 0 <= vs) /\
  (forall ref b c vs ve,
     result (parallel._parse_reference_range ref) = Returned (Some (b, c, vs, ve)) ->
     b <> EmptyString /\ py.strip b = b /\ 0 <= vs) /\
  (forall ref b c v,
     result (context._parse_reference ref) = Returned (Some (b, c, v)) ->
     b <> EmptyString /\ py.strip b = b) /\
  result (search._parse_reference "John -3:16--18") =
    Returned (Some ("John", -3, 16, -18)) /\
  result (context._parse_reference "John 3:-16") = Returned (Some ("John", 3, -16)).
Proof.
  assert (forall ref b c vs ve,
            parse_by_spec ref = Some (b, c, vs, ve) ->
            b <> EmptyString /\ py.strip b = b /\ 0 <= vs) as Hrange.
  { intros ref b c vs ve H.
    destruct (parse_by_spec_book _ _ _ _ _ H) as [tail Hbt].
    destruct (book_and_tail_book _ _ _ Hbt) as [Hne Hs].
    split; [done|]. split; [done|]. by eapply parse_by_spec_start. }
  split; [|split; [|split; [|split; reflexivity]]].
  - intros ref b c vs ve. rewrite search_parse_refines. intros [= H]. by eapply Hrange.
  - intros ref b c vs ve. rewrite parallel_parse_refines. intros [= H]. by eapply Hrange.
  - intros ref b c v. rewrite context_parse_refines. intros [= H].
    destruct (parse_center_by_spec_book _ _ _ _ H) as [tail Hbt].
    by eapply book_and_tail_book.
Qed.

(** ** The context parser and the range parsers *)



(** The reference [b c:lo-hi] written out. *)
Lemma range_reference_tail c lo hi :
  no_space (py.str c +:+ String ":" (py.str lo +:+ String "-" (py.str hi))) = true /\
  py.str c +:+ String ":" (py.str lo +:+ String "-" (py.str hi)) <> EmptyString.
Proof.
  split.
  - by rewrite no_space_app, no_space_cons, no_space_app, no_space_cons, !str_no_space.
  - pose proof (str_nonempty c). destruct (py.str c); [done|]. by rewrite append_cons.
Qed.

Lemma parse_by_spec_range b c lo hi :
  py.strip b <> EmptyString -> 0 <= lo ->
  parse_by_spec
    (b +:+ String " " (py.str c +:+ String ":" (py.str lo +:+ String "-" (py.str hi)))) =
  Some (py.strip b, c, lo, hi).
Proof.
  intros Hb Hlo. unfold parse_by_spec.
  destruct (range_reference_tail c lo hi) as [Hns Hne].
  rewrite (book_and_tail_compose b _ Hb Hns Hne).
  rewrite split1_app by apply str_no_colon. rewrite int_str.
  rewrite strip_no_space
    by (by rewrite no_space_app, no_space_cons, !str_no_space).
  destruct (str_nonneg lo Hlo) as (Hd & _ & _).
  rewrite split1_app by by apply digits_no_hyphen.
  by rewrite !int_str.
Qed.

Lemma parse_center_by_spec_verse b c v :
  py.strip b <> EmptyString ->
  parse_center_by_spec (b +:+ String " " (verse_tail c v)) = Some (py.strip b, c, v).
Proof.
  intros Hb. unfold parse_center_by_spec.
  rewrite (book_and_tail_compose b _ Hb (verse_tail_no_space c v) (verse_tail_nonempty c v)).
  destruct (verse_tail_split c v) as [_ ->]. by rewrite !int_str.
Qed.


(** X3: writing a book token, a chapter and a range of verses as
    [b c:lo-hi] and parsing the result gives them back, with the book token
    stripped, for every chapter and last verse and every first verse that is
    not negative; the context parser gives back a single verse [b c:v]
    likewise, whatever its sign. *)
Theorem written_reference_parses_back b c lo hi :
  py.strip b <> EmptyString -> 0 <= lo ->
  let ref := b +:+ " " +:+ py.str c +:+ ":" +:+ py.str lo +:+ "-" +:+ py.str hi in
  result (search._parse_reference ref) = Returned (Some (py.strip b, c, lo, hi)) /\
  result (parallel._parse_reference_range ref) = Returned (Some (py.strip b, c, lo, hi)) /\
  result (context._parse_reference (b +:+ " " +:+ py.str c +:+ ":" +:+ py.str hi)) =
    Returned (Some (py.strip b, c, hi)).
Proof.
  intros Hb Hlo ref.
  change ref with
    (b +:+ String " " (py.str c +:+ String ":" (py.str lo +:+ String "-" (py.str hi)))).
  change (b +:+ " " +:+ py.str c +:+ ":" +:+ py.str hi)
    with (b +:+ String " " (verse_tail c hi)).
  rewrite search_parse_refines, parallel_parse_refines, context_parse_refines.
  by rewrite parse_by_spec_range, parse_center_by_spec_verse.
Qed.

Lemma written_reference_parses_back_witness :
  result (search._parse_reference "1 John 2:3--4") = Returned (Some ("1 John", 2, 3, -4)) /\
  result (parallel._parse_reference_range "1 John 2:3--4") =
    Returned (Some ("1 John", 2, 3, -4)) /\
  result (context._parse_reference "1 John 2:-4") = Returned (Some ("1 John", 2, -4)).
Proof.
  apply (written_reference_parses_back "1 John" 2 3 (-4)); [done|lia].
Defined.

(** ** The context window as a passage *)

(** X4: the context window around the verse [v] of a reference [b c:v] is
    the passage [b c:lo-hi] with [lo = max(1, v - before)] and
    [hi = v + after]: the two facades return the same rows or raise the same
    exception. *)
Theorem context_window_is_a_passage w ref translation_code before after b c v :
  result (context._parse_reference ref) = Returned (Some (b, c, v)) ->
  result (context.get_verse_window w ref translation_code before after) =
  result (search.get_passage w
            (b +:+ " " +:+ py.str c +:+ ":" +:+ py.str (Z.max 1 (v - before)) +:+ "-"
               +:+ py.str (v + after))
            translation_code).
Proof.
  rewrite context_parse_refines. intros [= H].
  destruct (parse_center_by_spec_book _ _ _ _ H) as [tail Hbt].
  destruct (book_and_tail_book _ _ _ Hbt) as [Hne Hs].
  rewrite get_verse_window_result, H, get_passage_result.
  change (b +:+ " " +:+ py.str c +:+ ":" +:+ py.str (Z.max 1 (v - before)) +:+ "-"
            +:+ py.str (v + after))
    with (b +:+ String " " (py.str c +:+ String ":"
            (py.str (Z.max 1 (v - before)) +:+ String "-" (py.str (v + after))))).
  rewrite parse_by_spec_range by (rewrite ?Hs; first [done|lia]).
  rewrite Hs. destruct (resolve w b) as [num|]; [|done].
  cbv zeta. unfold guarded.
  destruct (db w); [done|]. by rewrite select_window_passage.
Qed.

Lemma context_window_is_a_passage_witness :
  result (context.get_verse_window example.world "Genesis 1:2" "KJV" 2 1) =
  result (search.get_passage example.world "Genesis 1:1-3" "KJV") /\
  row_verse <$> rows_of (search.get_passage example.world "Genesis 1:1-3" "KJV") = [1; 2; 3].
Proof.
  split; [|reflexivity].
  apply (context_window_is_a_passage example.world "Genesis 1:2" "KJV" 2 1 "Genesis" 1 2).
  reflexivity.
Defined.

(** ** The exceptions of the facades *)



(** ** The rows of a passage *)

(** X6: when the passage facade returns, its rows are the stored verses of
    the translation, book and chapter whose number lies in the range, each
    as often as it is stored: none is left out and none is added. *)
Theorem passage_returns_the_stored_verses w ref translation_code b c vs ve num rows :
  result (search._parse_reference ref) = Returned (Some (b, c, vs, ve)) ->
  resolve w b = Some num ->
  result (search.get_passage w ref translation_code) = Returned rows ->
  rows ≡ₚ
  verse_row <$>
    filter (fun r => sqlite.translation_code r = py.upper translation_code /\
                     sqlite.book_num r = num /\ sqlite.chapter r = c /\
                     vs <= sqlite.verse r <= ve)
           (table_of w).
Proof.
  rewrite search_parse_refines. intros [= Hp] Hn.
  rewrite get_passage_result, Hp, Hn. unfold guarded, table_of.
  destruct (db w) as [|table]; [by intros [= <-]|].
  destruct (forallb _ _); [|done]. intros [= <-].
  apply fmap_Permutation. unfold search.select_passage.
  rewrite merge_sort_Permutation.
  erewrite list_filter_iff; [done|].
  intros r. unfold sqlite.between. rewrite andb_true_iff, !Z.leb_le. tauto.
Qed.

Lemma passage_returns_the_stored_verses_witness :
  [("KJV", 43, "JHN", 3, 16, "For God so loved the world");
   ("KJV", 43, "JHN", 3, 17, "For God sent not")] ≡ₚ
  verse_row <$>
    filter (fun r => sqlite.translation_code r = py.upper "kjv" /\
                     sqlite.book_num r = 43 /\ sqlite.chapter r = 3 /\
                     16 <= sqlite.verse r <= 18)
           (table_of example.world).
Proof.
  apply (passage_returns_the_stored_verses example.world "john 3:16-18" "kjv"
           "john" 3 16 18 43); reflexivity.
Defined.

(** ** Parallel records and passages *)





(** ** The text search *)
























(** ** The canon *)








(** ** The resolver, for any canon *)

(** X11: a book token resolves exactly when its lowercase form is the
    lowercase code or the lowercase name of a book of the canon, and it
    then resolves to such a book: there is no matching of prefixes or
    abbreviations, and surrounding text is not ignored. *)
Theorem resolver_matches_code_or_name canon token :
  let book_lookup := loader._build_book_lookup canon in
  (forall n,
     first_key [token; py.lower token] book_lookup = Some n ->
     exists meta, (n, meta) ∈ canon /\
       (py.lower token = py.lower (loader.code meta) \/
        py.lower token = py.lower (loader.name meta))) /\
  (is_Some (first_key [token; py.lower token] book_lookup) <->
   exists n meta, (n, meta) ∈ canon /\
     (py.lower token = py.lower (loader.code meta) \/
      py.lower token = py.lower (loader.name meta))).
Proof.
  intros book_lookup.
  assert (forall n,
            first_key [token; py.lower token] book_lookup = Some n ->
            exists meta, (n, meta) ∈ canon /\
              (py.lower token = py.lower (loader.code meta) \/
               py.lower token = py.lower (loader.name meta))) as Hsound.
  { intros n (k & Hk & Hn)%first_key_source.
    subst book_lookup. rewrite build_book_lookup_fold in Hn.
    apply fold_add_book_source in Hn as [(meta & Hmeta & Hkeys)|Hn];
      [|by rewrite lookup_empty in Hn].
    exists meta. split; [done|].
    apply book_keys_lower in Hkeys.
    assert (py.lower k = py.lower token) as Hlow.
    { apply elem_of_cons in Hk as [->|Hk]; [done|].
      apply list_elem_of_singleton in Hk as ->. apply lower_idemp. }
    rewrite Hlow in Hkeys. unfold lower_keys in Hkeys.
    apply elem_of_cons in Hkeys as [->|Hkeys]; [by left|].
    apply list_elem_of_singleton in Hkeys as ->. by right. }
  split; [exact Hsound|]. split.
  - intros [n Hn]. destruct (Hsound n Hn) as (meta & ? & ?). eauto.
  - intros (n & meta & Hmeta & Hkey).
    assert (py.lower token ∈ loader.book_keys meta) as Hkeys.
    { apply lower_keys_book_keys. unfold lower_keys.
      destruct Hkey as [->| ->]; [apply list_elem_of_here|].
      apply list_elem_of_further, list_elem_of_here. }
    pose proof (fold_add_book_some canon ∅ _ _ _ Hmeta Hkeys) as [m Hm].
    subst book_lookup. rewrite build_book_lookup_fold. cbn [first_key].
    destruct (fold_left add_book canon ∅ !! token); [done|]. by rewrite Hm.
Qed.

(** ** Printing verse rows *)

Lemma bind_ext_in {A B} (f g : A -> list B) (l : list A) :
  (forall x, x ∈ l -> f x = g x) -> l ≫= f = l ≫= g.
Proof.
  induction l as [|x l IH]; intros H; [done|].
  rewrite !bind_cons, IH, (H x); [done|apply list_elem_of_here|].
  intros y Hy. apply H. by apply list_elem_of_further.
Qed.

Lemma print_row_run book_name row :
  result (search.print_row book_name row) = Returned tt /\
  console (search.print_row book_name row) =
  let '(code, book_num, book_code, chapter, verse, text) := row in
  [PrintLine ("[" +:+ code +:+ "] " +:+ book_name +:+ " " +:+ py.str chapter +:+ ":"
          +:+ py.str verse);
   PrintLine ("    " +:+ text);
   PrintLine EmptyString].
Proof. by destruct row as [[[[[code num] bcode] ch] v] text]. Qed.

(** The run of [print_search_results]: its result and what it writes. *)
Lemma print_search_results_run w rows :
  result (search.print_search_results w rows) = Returned tt /\
  console (search.print_search_results w rows) =
  match rows with
  | [] => [PrintLine "[info] No results."]
  | _ =>
      console (loader.load_canon (canon_json w)) ++
      (if pydict.is_empty (canon_of w)
       then [PrintLine "[warn] Canon mapping missing; printing without book names."]
       else []) ++
      (rows ≫= search_block (canon_of w))
  end.
Proof.
  unfold search.print_search_results. destruct rows as [|row0 rows']; [done|].
  set (rows := row0 :: rows').
  rewrite result_bind, console_bind, load_canon_result.
  destruct (canon_of w) as [|item canon'] eqn:Hcanon; cbn [pydict.is_empty].
  - rewrite result_bind, console_bind. cbn [util.warn print result console fst snd].
    match goal with
    | |- context [for_each rows ?body] =>
        destruct (for_each_run rows body) as [-> ->]
    end.
    { intros [[[[[code num] bcode] ch] v] text]. apply print_row_run. }
    split; [done|]. do 2 f_equal. apply bind_ext_in.
    by intros [[[[[code num] bcode] ch] v] text] _.
  - match goal with
    | |- context [for_each rows ?body] =>
        destruct (for_each_run rows body) as [-> ->]
    end.
    { intros [[[[[code num] bcode] ch] v] text]. apply print_row_run. }
    split; [done|]. f_equal. cbn [app]. apply bind_ext_in.
    intros [[[[[code num] bcode] ch] v] text] _.
    unfold search_block. by destruct (pydict.get (item :: canon') num).
Qed.


(** ** The passage and context commands *)

Lemma canon_file_of_resolved w b num :
  resolve w b = Some num ->
  console (loader.load_canon (canon_json w)) = [] /\
  pydict.is_empty (canon_of w) = false.
Proof.
  intros Hn. split.
  - destruct (canon_json w) eqn:Hfile; [done|].
    rewrite resolve_empty_canon in Hn; [done|].
    unfold canon_of. by rewrite Hfile.
  - destruct (pydict.is_empty (canon_of w)) eqn:He; [|done].
    by rewrite resolve_empty_canon in Hn.
Qed.

Lemma verse_blocks w translation_code num chapter meta (rows : list sqlite.row) :
  pydict.get (canon_of w) num = Some meta ->
  (forall r, r ∈ rows ->
     sqlite.translation_code r = translation_code /\
     sqlite.book_num r = num /\ sqlite.chapter r = chapter) ->
  (verse_row <$> rows) ≫= search_block (canon_of w) =
  (verse_row <$> rows) ≫= verse_block translation_code (loader.name meta) chapter.
Proof.
  intros Hmeta Hrows. apply bind_ext_in.
  intros row (r & -> & Hr)%list_elem_of_fmap.
  destruct (Hrows r Hr) as (Ht & Hn & Hc).
  unfold verse_row, search_block, verse_block. cbn [row_verse row_text].
  by rewrite Ht, Hn, Hc, Hmeta.
Qed.

(** X13: the passage command and the context command print, after the
    messages of their facade, the line [[info] No results.] when the facade
    returns no rows, and otherwise three lines per verse in ascending order
    of the rows returned, the header being [[T] Name c:v] with the
    translation code in upper case and the canon's name of the resolved
    book, however the book and the translation were spelled in the
    request. *)
Theorem passage_and_context_commands_print_canon_names w ref translation_code :
  (forall rows,
     result (search.get_passage w ref translation_code) = Returned rows ->
     result (compendium.cmd_passage w ref translation_code) = Returned tt /\
     match rows with
     | [] =>
         console (compendium.cmd_passage w ref translation_code) =
         console (search.get_passage w ref translation_code) ++
         [PrintLine "[info] No results."]
     | _ =>
         exists b c vs ve num meta,
           result (search._parse_reference ref) = Returned (Some (b, c, vs, ve)) /\
           resolve w b = Some num /\
           pydict.get (canon_of w) num = Some meta /\
           console (compendium.cmd_passage w ref translation_code) =
           console (search.get_passage w ref translation_code) ++
           (rows ≫= verse_block (py.upper translation_code) (loader.name meta) c)
     end) /\
  (forall before after rows,
     result (context.get_verse_window w ref translation_code before after) =
       Returned rows ->
     result (compendium.cmd_context w ref translation_code before after) = Returned tt /\
     match rows with
     | [] =>
         console (compendium.cmd_context w ref translation_code before after) =
         console (context.get_verse_window w ref translation_code before after) ++
         [PrintLine "[info] No results."]
     | _ =>
         exists b c v num meta,
           result (context._parse_reference ref) = Returned (Some (b, c, v)) /\
           resolve w b = Some num /\
           pydict.get (canon_of w) num = Some meta /\
           console (compendium.cmd_context w ref translation_code before after) =
           console (context.get_verse_window w ref translation_code before after) ++
           (rows ≫= verse_block (py.upper translation_code) (loader.name meta) c)
     end).
Proof.
  split.
  - intros rows Hres. unfold compendium.cmd_passage.
    rewrite result_bind, console_bind, Hres.
    destruct (print_search_results_run w rows) as [-> ->].
    split; [done|]. destruct rows as [|row0 rows']; [done|].
    set (rows := row0 :: rows') in *.
    rewrite get_passage_result in Hres.
    destruct (parse_by_spec ref) as [[[[b c] vs] ve]|] eqn:Hp; [|done].
    destruct (resolve w b) as [num|] eqn:Hn; [|done].
    destruct (guarded w _ _) as [[fetched|]|] eqn:Hg; try done.
    injection Hres as Hrows. apply guarded_rows in Hg.
    destruct (resolved_in_canon w b num Hn) as [meta Hmeta].
    destruct (canon_file_of_resolved w b num Hn) as [-> ->].
    exists b, c, vs, ve, num, meta.
    rewrite search_parse_refines, Hp. do 3 (split; [done|]).
    f_equal. cbn [app]. rewrite <- Hrows. apply (verse_blocks w _ num _ meta); [done|].
    intros r Hr. rewrite Hg in Hr. apply select_passage_elem in Hr. tauto.
  - intros before after rows Hres. unfold compendium.cmd_context.
    rewrite result_bind, console_bind, Hres.
    destruct (print_search_results_run w rows) as [-> ->].
    split; [done|]. destruct rows as [|row0 rows']; [done|].
    set (rows := row0 :: rows') in *.
    rewrite get_verse_window_result in Hres.
    destruct (parse_center_by_spec ref) as [[[b c] v]|] eqn:Hp; [|done].
    destruct (resolve w b) as [num|] eqn:Hn; [|done]. cbv zeta in Hres.
    destruct (guarded w _ _) as [[fetched|]|] eqn:Hg; try done.
    injection Hres as Hrows. apply guarded_rows in Hg.
    destruct (resolved_in_canon w b num Hn) as [meta Hmeta].
    destruct (canon_file_of_resolved w b num Hn) as [-> ->].
    exists b, c, v, num, meta.
    rewrite context_parse_refines, Hp. do 3 (split; [done|]).
    f_equal. cbn [app]. rewrite <- Hrows. apply (verse_blocks w _ num _ meta); [done|].
    intros r Hr. rewrite Hg, select_window_passage in Hr.
    apply select_passage_elem in Hr. tauto.
Qed.

(** ** The compare command *)

Lemma upper_fmap_idemp (codes : list string) :
  py.upper <$> (py.upper <$> codes) = py.upper <$> codes.
Proof.
  rewrite <- list_fmap_compose. apply list_fmap_ext. intros _ t _. apply upper_idemp.
Qed.

Lemma get_parallel_verses_upper w ref codes :
  parallel.get_parallel_verses w ref (py.upper <$> codes) =
  parallel.get_parallel_verses w ref codes.
Proof. unfold parallel.get_parallel_verses. by rewrite upper_fmap_idemp. Qed.

Lemma pydict_get_source {V} (d : pydict.t Z V) k v :
  pydict.get d k = Some v -> (k, v) ∈ d.
Proof.
  induction d as [|[k0 v0] d IH]; cbn [pydict.get]; [done|].
  destruct (decide (k0 = k)) as [->|].
  - intros [= ->]. apply list_elem_of_here.
  - intros H. by apply list_elem_of_further, IH.
Qed.

Lemma parallel_blocks_length book_name codes (records : list parallel.ParallelRow) :
  length (records ≫= parallel_block book_name codes) =
  (length records * (length codes + 2))%nat.
Proof.
  induction records as [|[[[bc ch] v] texts] records IH]; [done|].
  rewrite bind_cons, length_app, IH. unfold parallel_block.
  cbn [length]. rewrite length_app, length_fmap. cbn [length]. lia.
Qed.

Lemma rows_of_returned {A} (m : M (list A)) :
  rows_of m <> [] -> result m = Returned (rows_of m).
Proof. unfold rows_of. by destruct (result m). Qed.

(** X14: when the parallel facade finds verses, the compare command prints,
    after the messages of the facade, one block per verse of the range, from
    the first verse to the last: a header with the name of a canon book that
    has the code of the resolved book, one line per requested translation,
    in the order of the request and in upper case, and an empty line; in
    all, the number of verses of the range times the number of translations
    plus two. *)
Theorem compare_command_prints_one_block_per_verse w ref translation_codes b c vs ve :
  result (parallel._parse_reference_range ref) = Returned (Some (b, c, vs, ve)) ->
  rows_of (parallel.get_parallel_verses w ref translation_codes) <> [] ->
  exists num meta,
    resolve w b = Some num /\
    meta ∈ pydict.values (canon_of w) /\
    loader.code meta = book_code_of w num /\
    result (compendium.cmd_compare w ref translation_codes) = Returned tt /\
    console (compendium.cmd_compare w ref translation_codes) =
      console (parallel.get_parallel_verses w ref translation_codes) ++
      (rows_of (parallel.get_parallel_verses w ref translation_codes) ≫=
         parallel_block (loader.name meta) (py.upper <$> translation_codes)) /\
    length (rows_of (parallel.get_parallel_verses w ref translation_codes) ≫=
              parallel_block (loader.name meta) (py.upper <$> translation_codes)) =
      (Z.to_nat (ve - vs + 1) * (length translation_codes + 2))%nat.
Proof.
  rewrite parallel_parse_refines. intros [= Hp] Hne.
  pose proof (rows_of_returned _ Hne) as Hres.
  destruct (get_parallel_verses_rows w ref translation_codes)
    as [Hnil|(b' & c' & vs' & ve' & num & Hp' & Hn & _ & Hrows)]; [done|].
  rewrite Hp in Hp'. injection Hp' as <- <- <- <-.
  destruct (resolved_in_canon w b num Hn) as [meta_num Hmeta].
  destruct (canon_file_of_resolved w b num Hn) as [Hfile Hempty].
  assert (book_code_of w num = loader.code meta_num) as Hcode
    by (unfold book_code_of; by rewrite Hmeta).
  assert (length (rows_of (parallel.get_parallel_verses w ref translation_codes)) =
          Z.to_nat (ve - vs + 1)) as Hlen
    by (rewrite Hrows; apply parallel_rows_length).
  destruct (rows_of (parallel.get_parallel_verses w ref translation_codes))
    as [|[[[bc0 ch0] v0] texts0] records'] eqn:Hrecords; [done|].
  assert (bc0 = book_code_of w num) as ->.
  { assert ((bc0, ch0, v0, texts0) ∈
            parallel_rows (book_code_of w num) c vs ve
              (parallel.select_parallel (py.upper <$> translation_codes) num c vs ve
                 (table_of w))) as Hin
      by (rewrite <- Hrows; apply list_elem_of_here).
    by apply parallel_rows_elem in Hin as (-> & _). }
  destruct (find (fun meta => bool_decide (loader.code meta = book_code_of w num))
              (pydict.values (canon_of w))) as [meta|] eqn:Hfind.
  2:{ apply pydict_get_source in Hmeta.
      assert (meta_num ∈ pydict.values (canon_of w)) as Hin.
      { apply list_elem_of_fmap. by exists (num, meta_num). }
      apply list_elem_of_In in Hin.
      pose proof (find_none _ _ Hfind _ Hin) as Hf. cbv beta in Hf.
      by rewrite bool_decide_eq_false in Hf. }
  destruct (find_some _ _ Hfind) as [Hin Hf].
  apply list_elem_of_In in Hin. apply bool_decide_eq_true in Hf.
  exists num, meta. do 3 (split; [done|]).
  unfold compendium.cmd_compare. cbv zeta.
  rewrite get_parallel_verses_upper, result_bind, console_bind, Hres.
  unfold parallel.print_parallel. rewrite ?result_bind, ?console_bind.
  rewrite load_canon_result, Hfile, Hempty, upper_fmap_idemp, Hfind.
  destruct (print_blocks (loader.name meta) (py.upper <$> translation_codes)
              ((book_code_of w num, ch0, v0, texts0) :: records')) as [Hr Hc].
  split; [exact Hr|]. split; [f_equal; exact Hc|].
  by rewrite parallel_blocks_length, Hlen, length_fmap.
Qed.

Lemma compare_command_prints_one_block_per_verse_witness :
  exists num meta,
    resolve example.world "john" = Some num /\
    meta ∈ pydict.values (canon_of example.world) /\
    loader.code meta = book_code_of example.world num /\
    result (compendium.cmd_compare example.world "john 3:16-18" ["kjv"; "bsb"]) =
      Returned tt /\
    console (compendium.cmd_compare example.world "john 3:16-18" ["kjv"; "bsb"]) =
      console (parallel.get_parallel_verses example.world "john 3:16-18" ["kjv"; "bsb"]) ++
      (rows_of (parallel.get_parallel_verses example.world "john 3:16-18" ["kjv"; "bsb"]) ≫=
         parallel_block (loader.name meta) (py.upper <$> ["kjv"; "bsb"])) /\
    length (rows_of (parallel.get_parallel_verses example.world "john 3:16-18"
                       ["kjv"; "bsb"]) ≫=
              parallel_block (loader.name meta) (py.upper <$> ["kjv"; "bsb"])) =
      (Z.to_nat (18 - 16 + 1) * (length ["kjv"; "bsb"] + 2))%nat.
Proof.
  apply (compare_command_prints_one_block_per_verse example.world "john 3:16-18"
           ["kjv"; "bsb"] "john" 3 16 18); [reflexivity|].
  by vm_compute.
Defined.

(** ** Normalized references *)

Lemma split_last c a1 t1 a2 t2 :
  py.contains c t1 = false -> py.contains c t2 = false ->
  a1 +:+ String c t1 = a2 +:+ String c t2 -> a1 = a2 /\ t1 = t2.
Proof.
  intros H1 H2 Heq.
  pose proof (rindex_app_last c a1 t1 H1) as Hi1.
  pose proof (rindex_app_last c a2 t2 H2) as Hi2.
  rewrite Heq, Hi2 in Hi1. injection Hi1 as Hlen. split.
  - rewrite <- (slice_to_app a1 (String c t1)), <- (slice_to_app a2 (String c t2)).
    by rewrite Heq, Hlen.
  - rewrite <- (slice_from_app a1 c t1), <- (slice_from_app a2 c t2).
    by rewrite Heq, Hlen.
Qed.

Lemma str_no_dot n : py.contains "." (py.str n) = false.
Proof.
  destruct (Z.lt_ge_cases n 0) as [Hneg|Hpos].
  - rewrite (str_neg n Hneg). cbn [py.contains].
    destruct (str_nonneg (- n) ltac:(lia)) as (Hd & _ & _).
    by rewrite (contains_all_chars "." py.isdigit _ eq_refl Hd).
  - destruct (str_nonneg n Hpos) as (Hd & _ & _).
    by apply (contains_all_chars "." py.isdigit).
Qed.

Lemma str_inj m n : py.str m = py.str n -> m = n.
Proof.
  intros H. pose proof (int_str m) as Hm. rewrite H, int_str in Hm. by injection Hm.
Qed.

Lemma to_normalized_eq r1 code1 r2 code2 :
  model.to_normalized r1 code1 = model.to_normalized r2 code2 <->
  py.upper code1 = py.upper code2 /\
  model.chapter r1 = model.chapter r2 /\ model.verse r1 = model.verse r2.
Proof.
  unfold model.to_normalized. split; [|by intros (-> & -> & ->)].
  rewrite !append_cons, !append_nil_l.
  rewrite <- !(append_cons "." (py.str _) (String "." _)).
  rewrite <- !app_assoc_str. intros Heq.
  apply split_last in Heq as [Heq Hv]; [|apply str_no_dot..].
  apply split_last in Heq as [Hc Hch]; [|apply str_no_dot..].
  by rewrite Hc, (str_inj _ _ Hch), (str_inj _ _ Hv).
Qed.

(** X15: the normalized reference [CODE.chapter.verse] identifies the book
    code up to case, the chapter and the verse: two of them are equal
    exactly when these three agree, whatever the book code holds, dots
    included; the book number of the reference plays no part. *)
Theorem normalized_reference_is_injective :
  (forall r1 code1 r2 code2,
     model.to_normalized r1 code1 = model.to_normalized r2 code2 <->
     py.upper code1 = py.upper code2 /\
     model.chapter r1 = model.chapter r2 /\ model.verse r1 = model.verse r2) /\
  model.to_normalized
    {| model.book_num := 1; model.chapter := 1; model.verse := 1 |} "Gen" = "GEN.1.1" /\
  model.to_normalized
    {| model.book_num := 2; model.chapter := 1; model.verse := 1 |} "gen" = "GEN.1.1".
Proof.
  split; [|split; reflexivity]. apply to_normalized_eq.
Qed.

(** ** Header cells *)

Lemma contains_remove_char c s :
  py.contains c (excel_import.remove_char c s) = false.
Proof.
  induction s as [|d s IH]; cbn [excel_import.remove_char]; [done|].
  destruct (Ascii.eqb d c) eqn:Hd; [done|]. cbn [py.contains]. by rewrite Hd, IH.
Qed.

Lemma contains_remove_other c d s :
  py.contains d s = false -> py.contains d (excel_import.remove_char c s) = false.
Proof.
  induction s as [|e s IH]; cbn [excel_import.remove_char py.contains]; [done|].
  intros [He Hs]%orb_false_iff. destruct (Ascii.eqb e c); [by apply IH|].
  cbn [py.contains]. by rewrite He, IH.
Qed.

Lemma all_chars_remove_char p c s :
  all_chars p s = true -> all_chars p (excel_import.remove_char c s) = true.
Proof.
  induction s as [|e s IH]; cbn [excel_import.remove_char all_chars]; [done|].
  intros [He Hs]%andb_true_iff. destruct (Ascii.eqb e c); [by apply IH|].
  cbn [all_chars]. by rewrite He, IH.
Qed.

Lemma lower_has_no_upper s :
  all_chars (fun c => negb (py.isupper c)) (py.lower s) = true.
Proof.
  induction s as [|c s IH]; cbn [py.lower all_chars]; [done|].
  rewrite IH, andb_true_r. each_char c.
Qed.

Lemma lower_fixed s :
  all_chars (fun c => negb (py.isupper c)) s = true -> py.lower s = s.
Proof.
  induction s as [|c s IH]; cbn [py.lower all_chars]; [done|].
  intros [Hc Hs]%andb_true_iff. rewrite (IH Hs). f_equal.
  unfold py.lower_char. by destruct (py.isupper c).
Qed.

Lemma normalized_header_no_underscore value :
  py.contains "_" (excel_import._normalize_header value) = false.
Proof. destruct value as [s|]; [|done]. apply contains_remove_char. Qed.

(** X16: a normalized header holds no space, no hyphen, no underscore and no
    upper-case ASCII letter, whatever the cell held; an empty cell gives the
    empty string.  Other whitespace is removed only at the ends of the cell
    as it was, so a normalized header can still start with it. *)
Theorem normalized_header_has_no_separator value :
  let norm := excel_import._normalize_header value in
  py.contains " " norm = false /\
  py.contains "-" norm = false /\
  py.contains "_" norm = false /\
  py.lower norm = norm /\
  excel_import._normalize_header None = EmptyString /\
  excel_import._normalize_header (Some "  Book-Name ") = "bookname" /\
  excel_import._normalize_header (Some (String "-" (String "009" "book"))) =
    String "009" "book".
Proof.
  intros norm. subst norm.
  split; [|split; [|split; [|split; [|split; [|split]]]]]; try reflexivity.
  - destruct value as [s|]; [|done]. cbn [excel_import._normalize_header].
    do 2 apply contains_remove_other. apply contains_remove_char.
  - destruct value as [s|]; [|done]. cbn [excel_import._normalize_header].
    apply contains_remove_other, contains_remove_char.
  - apply normalized_header_no_underscore.
  - destruct value as [s|]; [|done]. cbn [excel_import._normalize_header].
    apply lower_fixed. do 3 apply all_chars_remove_char. apply lower_has_no_upper.
Qed.

(** ** Detecting the columns *)

Lemma list_find_first_match (candidates norm_headers : list string) i h :
  list_find (fun norm => norm ∈ candidates) norm_headers = Some (i, h) ->
  first_match candidates norm_headers i.
Proof.
  intros (Hi & Hh & Hfirst)%list_find_Some. split; [eauto|].
  intros j h' Hj Hh'. by eapply Hfirst.
Qed.

(** X17: the column detection succeeds exactly when each of the four logical
    columns [book], [chapter], [verse] and [text] has a header that
    normalizes to one of its candidates, and it then maps each of them to
    the first such column; the same column can serve several of them. *)
Theorem column_detection_takes_first_matches headers :
  let norm_headers := excel_import._normalize_header <$> headers in
  match (excel_import._detect_column_mapping headers).2 with
  | Some mapping =>
      forall logical_name candidates,
        (logical_name, candidates) ∈ excel_import.HEADER_CANDIDATES ->
        exists i, mapping !! logical_name = Some i /\
          first_match candidates norm_headers i
  | None =>
      exists logical_name candidates,
        (logical_name, candidates) ∈ excel_import.HEADER_CANDIDATES /\
        Forall (fun h => h ∉ candidates) norm_headers
  end.
Proof.
  intros norm_headers.
  unfold excel_import._detect_column_mapping, excel_import.HEADER_CANDIDATES.
  fold norm_headers. cbn [excel_import.detect_columns].
  destruct (list_find _ norm_headers) as [[i1 h1]|] eqn:H1.
  2:{ cbn [snd]. eexists _, _. split; [apply list_elem_of_here|].
      by apply list_find_None in H1. }
  destruct (list_find (fun norm => norm ∈ ["chapter"; "chap"; "ch"]) norm_headers)
    as [[i2 h2]|] eqn:H2.
  2:{ cbn [snd]. eexists _, _. split; [apply list_elem_of_further, list_elem_of_here|].
      by apply list_find_None in H2. }
  destruct (list_find (fun norm => norm ∈ ["verse"; "verse_num"; "vs"; "v"]) norm_headers)
    as [[i3 h3]|] eqn:H3.
  2:{ cbn [snd]. eexists _, _.
      split; [do 2 apply list_elem_of_further; apply list_elem_of_here|].
      by apply list_find_None in H3. }
  destruct (list_find (fun norm => norm ∈ ["text"; "verse_text"; "content"; "body"])
              norm_headers) as [[i4 h4]|] eqn:H4.
  2:{ cbn [snd]. eexists _, _.
      split; [do 3 apply list_elem_of_further; apply list_elem_of_here|].
      by apply list_find_None in H4. }
  cbn [snd]. intros name candidates Hin.
  repeat (apply elem_of_cons in Hin as [[= -> ->]|Hin]);
    [exists i1|exists i2|exists i3|exists i4|by apply elem_of_nil in Hin];
    (split; [|by eapply list_find_first_match]).
  - by rewrite !lookup_insert_ne, lookup_insert_eq by done.
  - by rewrite !lookup_insert_ne, lookup_insert_eq by done.
  - by rewrite !lookup_insert_ne, lookup_insert_eq by done.
  - by rewrite lookup_insert_eq.
Qed.

Lemma detect_columns_live table headers norm_headers : forall mapping,
  Forall (fun h => py.contains "_" h = false) norm_headers ->
  excel_import.detect_columns (live_candidates table) headers norm_headers mapping =
  excel_import.detect_columns table headers norm_headers mapping.
Proof.
  induction table as [|[name candidates] table IH]; intros mapping Hnorm; [done|].
  cbn [live_candidates fmap list_fmap excel_import.detect_columns].
  assert (list_find (fun norm => norm ∈ filter (fun c => py.contains "_" c = false) candidates)
            norm_headers =
          list_find (fun norm => norm ∈ candidates) norm_headers) as ->.
  { clear IH. induction Hnorm as [|h hs Hh Hhs IHn]; [done|].
    cbn [list_find]. rewrite IHn.
    destruct (decide (h ∈ candidates)) as [Hin|Hin].
    - rewrite decide_True; [done|]. by apply list_elem_of_filter.
    - rewrite decide_False; [done|]. by intros [_ ?]%list_elem_of_filter. }
  destruct (list_find _ norm_headers) as [[i h]|]; [|done].
  by apply IH.
Qed.

(** X18: the candidates [book_name], [verse_num] and [verse_text] are dead:
    a normalized header has no underscore, so the detection is the same
    without them.  A sheet whose verse column is headed [verse_num], or
    whose text column is headed [verse_text], is therefore rejected, while
    [book_name] is accepted through the candidate [bookname]. *)
Theorem underscored_candidates_never_match headers :
  excel_import._detect_column_mapping headers =
    excel_import.detect_columns (live_candidates excel_import.HEADER_CANDIDATES)
      headers (excel_import._normalize_header <$> headers) ∅ /\
  live_candidates excel_import.HEADER_CANDIDATES =
    [("book", ["book"; "bookname"; "bk"]);
     ("chapter", ["chapter"; "chap"; "ch"]);
     ("verse", ["verse"; "vs"; "v"]);
     ("text", ["text"; "content"; "body"])] /\
  (excel_import._detect_column_mapping
     [Some "book_name"; Some "chapter"; Some "verse_num"; Some "text"]).2 = None /\
  (excel_import._detect_column_mapping
     [Some "book_name"; Some "chapter"; Some "verse"; Some "verse_text"]).2 = None /\
  is_Some (excel_import._detect_column_mapping
             [Some "book_name"; Some "chapter"; Some "verse"; Some "text"]).2.
Proof.
  split; [|split; [|split; [|split]]]; try reflexivity.
  - unfold excel_import._detect_column_mapping. cbv zeta.
    rewrite detect_columns_live; [done|].
    apply Forall_fmap, Forall_forall. intros value _.
    apply (normalized_header_no_underscore value).
  - by eexists.
Qed.

(** ** Reading the rows of a CSV file *)

Lemma is_empty_true s : excel_import.is_empty s = true <-> s = EmptyString.
Proof. by destruct s. Qed.

Lemma is_empty_false s : excel_import.is_empty s = false <-> s <> EmptyString.
Proof. by destruct s. Qed.

Lemma complete_index (mapping : gmap string nat) logical_name i (row : list string) :
  mapping !! logical_name = Some i ->
  (length row < max_list (map_to_list mapping).*2 + 1)%nat \/ is_Some (row !! i).
Proof.
  intros Hi.
  assert (i ∈ (map_to_list mapping).*2) as Hin.
  { apply list_elem_of_fmap. exists (logical_name, i).
    split; [done|]. by apply elem_of_map_to_list. }
  apply max_list_elem_of_le in Hin.
  destruct (decide (length row < max_list (map_to_list mapping).*2 + 1)%nat); [by left|].
  right. apply lookup_lt_is_Some. lia.
Qed.

(** One turn of the loop. *)
Lemma csv_rows_cons mapping max_rows row rows row_idx count :
  complete mapping ->
  (exists m, max_rows = Some m /\ m <= count /\
     excel_import.csv_rows mapping max_rows (row :: rows) row_idx count =
     ([excel_import.StoppingAfterMaxRows m], Returned [])) \/
  ((forall m, max_rows = Some m -> count < m) /\
   ((exists n, skip_notice row_idx n /\
       excel_import.csv_rows mapping max_rows (row :: rows) row_idx count =
       (n :: (excel_import.csv_rows mapping max_rows rows (row_idx + 1) count).1,
        (excel_import.csv_rows mapping max_rows rows (row_idx + 1) count).2)) \/
    (exists y, yielded_from mapping row_idx row y /\
       excel_import.csv_rows mapping max_rows (row :: rows) row_idx count =
       ((excel_import.csv_rows mapping max_rows rows (row_idx + 1) (count + 1)).1,
        match (excel_import.csv_rows mapping max_rows rows (row_idx + 1) (count + 1)).2 with
        | Returned yielded => Returned (y :: yielded)
        | Raised e => Raised e
        end)))).
Proof.
  intros ([bi Hb] & [ci Hc] & [vi Hv] & [ti Ht]).
  remember (excel_import.csv_rows mapping max_rows (row :: rows) row_idx count)
    as res eqn:Hres.
  cbn [excel_import.csv_rows] in Hres.
  set (rest := excel_import.csv_rows mapping max_rows rows (row_idx + 1)) in *.
  assert ((forall m, max_rows = Some m -> count < m) ->
          res =
          match (map_to_list mapping).*2 with
          | [] => ([], Raised ValueError)
          | y :: l =>
              if bool_decide (length row < max_list (y :: l) + 1)%nat
              then let '(out, r) := rest count in
                   (excel_import.NotEnoughColumns row_idx :: out, r)
              else
                match row !! bi, row !! ci, row !! vi, row !! ti with
                | Some book_raw, Some chapter_raw, Some verse_raw, Some text_raw =>
                    if excel_import.is_empty book_raw || excel_import.is_empty chapter_raw
                       || excel_import.is_empty verse_raw
                    then let '(out, r) := rest count in
                         (excel_import.MissingBookChapterVerse row_idx :: out, r)
                    else
                      if excel_import.is_empty
                           (if excel_import.is_empty text_raw then EmptyString
                            else py.strip text_raw)
                      then let '(out, r) := rest count in
                           (excel_import.EmptyVerseText row_idx :: out, r)
                      else
                        match py.int chapter_raw, py.int verse_raw with
                        | Some chapter_int, Some verse_int =>
                            if excel_import.is_empty (py.strip book_raw)
                            then let '(out, r) := rest count in
                                 (excel_import.EmptyBookValue row_idx :: out, r)
                            else
                              let '(out, r) := rest (count + 1) in
                              (out,
                               match r with
                               | Returned yielded =>
                                   Returned
                                     ({| excel_import.book := py.strip book_raw;
                                         excel_import.chapter := chapter_int;
                                         excel_import.verse := verse_int;
                                         excel_import.text :=
                                           if excel_import.is_empty text_raw then EmptyString
                                           else py.strip text_raw;
                                         excel_import.raw_row_index := row_idx |}
                                        :: yielded)
                               | Raised e => Raised e
                               end)
                        | _, _ =>
                            let '(out, r) := rest count in
                            (excel_import.NonIntegerChapterVerse row_idx chapter_raw
                               verse_raw :: out, r)
                        end
                | _, _, _, _ =>
                    let '(out, r) := rest count in
                    (excel_import.ColumnAccessError row_idx :: out, r)
                end
          end) as Hbody.
  { intros Hgo. rewrite Hb, Hc, Hv, Ht in Hres.
    destruct max_rows as [m|]; [|exact Hres].
    rewrite bool_decide_eq_false_2 in Hres; [exact Hres|].
    specialize (Hgo m eq_refl). lia. }
  assert ((exists m, max_rows = Some m /\ m <= count) \/
          (forall m, max_rows = Some m -> count < m)) as [(m & -> & Hm)|Hgo'].
  { destruct max_rows as [m|]; [|by right].
    destruct (decide (m <= count)); [left; eauto|].
    right. intros ? [= <-]. lia. }
  { left. exists m. split; [done|]. split; [done|].
    by rewrite bool_decide_eq_true_2 in Hres. }
  right.
  split; [exact Hgo'|]. specialize (Hbody Hgo'). clear Hres.
  pose proof (complete_index mapping _ _ row Hb) as Hbi.
  pose proof (complete_index mapping _ _ row Hc) as Hci.
  pose proof (complete_index mapping _ _ row Hv) as Hvi.
  pose proof (complete_index mapping _ _ row Ht) as Hti.
  destruct ((map_to_list mapping).*2) as [|i0 indices] eqn:Hidx.
  { assert (bi ∈ (map_to_list mapping).*2) as Hin.
    { apply list_elem_of_fmap. exists ("book", bi).
      split; [done|]. by apply elem_of_map_to_list. }
    rewrite Hidx in Hin. by apply elem_of_nil in Hin. }
  destruct (bool_decide (length row < max_list (i0 :: indices) + 1)%nat) eqn:Hlen.
  { left. eexists. split; [by left|]. rewrite Hbody. by destruct (rest count). }
  apply bool_decide_eq_false in Hlen.
  destruct Hbi as [?|[book_raw Hbr]]; [done|].
  destruct Hci as [?|[chapter_raw Hcr]]; [done|].
  destruct Hvi as [?|[verse_raw Hvr]]; [done|].
  destruct Hti as [?|[text_raw Htr]]; [done|].
  rewrite Hbr, Hcr, Hvr, Htr in Hbody.
  destruct (excel_import.is_empty book_raw || excel_import.is_empty chapter_raw
            || excel_import.is_empty verse_raw) eqn:Hmissing.
  { left. eexists. split; [right; by left|]. rewrite Hbody. by destruct (rest count). }
  destruct (excel_import.is_empty text_raw) eqn:Htext_raw.
  { left. eexists. split; [right; right; by left|]. rewrite Hbody.
    by destruct (rest count). }
  destruct (excel_import.is_empty (py.strip text_raw)) eqn:Htext.
  { left. eexists. split; [right; right; by left|]. rewrite Hbody.
    by destruct (rest count). }
  destruct (py.int chapter_raw) as [chapter_int|] eqn:Hchapter.
  2:{ left. eexists. split; [do 4 right; eauto|]. rewrite Hbody.
      by destruct (rest count). }
  destruct (py.int verse_raw) as [verse_int|] eqn:Hverse.
  2:{ left. eexists. split; [do 4 right; eauto|]. rewrite Hbody.
      by destruct (rest count). }
  destruct (excel_import.is_empty (py.strip book_raw)) eqn:Hbook.
  { left. eexists. split; [do 3 right; by left|]. rewrite Hbody.
    by destruct (rest count). }
  right. eexists. split; [|rewrite Hbody; by destruct (rest (count + 1))].
  exists book_raw, chapter_raw, verse_raw, text_raw. unfold cell.
  rewrite Hb, Hc, Hv, Ht. cbn.
  apply is_empty_false in Htext, Hbook. done.
Qed.

Lemma detect_complete headers mapping :
  (excel_import._detect_column_mapping headers).2 = Some mapping ->
  (excel_import._detect_column_mapping headers).1 = [] /\ complete mapping.
Proof.
  unfold excel_import._detect_column_mapping, excel_import.HEADER_CANDIDATES.
  cbn [excel_import.detect_columns].
  repeat match goal with
         | |- context [list_find ?P ?l] => destruct (list_find P l) as [[? ?]|]; [|done]
         end.
  cbn [fst snd]. intros [= <-]. split; [done|]. unfold complete.
  rewrite !lookup_insert_is_Some. repeat split; auto 10.
Qed.

(** The rows that the loop yields, and its messages. *)
Lemma csv_rows_spec mapping max_rows :
  complete mapping ->
  forall rows row_idx count,
  exists out yielded,
    excel_import.csv_rows mapping max_rows rows row_idx count = (out, Returned yielded) /\
    (forall y, y ∈ yielded ->
       exists i row, rows !! i = Some row /\
         yielded_from mapping (row_idx + Z.of_nat i) row y) /\
    (forall n, n ∈ out ->
       (exists i, (i < length rows)%nat /\ skip_notice (row_idx + Z.of_nat i) n) \/
       (exists m, max_rows = Some m /\ n = excel_import.StoppingAfterMaxRows m)) /\
    (forall m, max_rows = Some m ->
       Z.of_nat (length yielded) <= Z.max 0 (m - count)) /\
    (max_rows = None -> (length yielded + length out = length rows)%nat).
Proof.
  intros Hcomplete. induction rows as [|row rows IH]; intros row_idx count.
  { exists [], []. split; [done|]. split; [by intros y ?%elem_of_nil|].
    split; [by intros n ?%elem_of_nil|]. split; [cbn; lia|done]. }
  destruct (csv_rows_cons mapping max_rows row rows row_idx count Hcomplete)
    as [(m & -> & Hm & ->)|[Hgo [(n & Hn & ->)|(y & Hy & ->)]]].
  - exists [excel_import.StoppingAfterMaxRows m], [].
    split; [done|]. split; [by intros y ?%elem_of_nil|].
    split; [|split; [cbn; lia|done]].
    intros n ->%list_elem_of_singleton. right. eauto.
  - destruct (IH (row_idx + 1) count) as (out & ys & -> & Hys & Hout & Hcap & Hall).
    exists (n :: out), ys. split; [done|]. split; [|split; [|split]].
    + intros y Hin. destruct (Hys y Hin) as (i & r & Hi & Hfrom).
      exists (S i), r. split; [done|].
      by replace (row_idx + Z.of_nat (S i)) with (row_idx + 1 + Z.of_nat i) by lia.
    + intros n' [->|Hin]%elem_of_cons.
      * left. exists 0%nat. split; [cbn; lia|]. by rewrite Z.add_0_r.
      * destruct (Hout n' Hin) as [(i & Hi & Hskip)|?]; [|by right].
        left. exists (S i). split; [cbn; lia|].
        by replace (row_idx + Z.of_nat (S i)) with (row_idx + 1 + Z.of_nat i) by lia.
    + done.
    + intros Hnone. specialize (Hall Hnone). cbn [length]. lia.
  - destruct (IH (row_idx + 1) (count + 1)) as (out & ys & -> & Hys & Hout & Hcap & Hall).
    exists out, (y :: ys). split; [done|]. split; [|split; [|split]].
    + intros y' [->|Hin]%elem_of_cons.
      * exists 0%nat, row. split; [done|]. by rewrite Z.add_0_r.
      * destruct (Hys y' Hin) as (i & r & Hi & Hfrom).
        exists (S i), r. split; [done|].
        by replace (row_idx + Z.of_nat (S i)) with (row_idx + 1 + Z.of_nat i) by lia.
    + intros n' Hin. destruct (Hout n' Hin) as [(i & Hi & Hskip)|?]; [|by right].
      left. exists (S i). split; [cbn; lia|].
      by replace (row_idx + Z.of_nat (S i)) with (row_idx + 1 + Z.of_nat i) by lia.
    + intros m Hmax. specialize (Hcap m Hmax). specialize (Hgo m Hmax).
      cbn [length]. lia.
    + intros Hnone. specialize (Hall Hnone). cbn [length]. lia.
Qed.



(** X20: without [max_rows] no data row is dropped in silence: when the
    columns are detected, the loop writes one warning for each data row that
    it does not yield, so that the rows yielded and the warnings together
    are as many as the data rows. *)
Theorem csv_import_reports_every_skipped_row headers rows :
  is_Some (excel_import._detect_column_mapping (Some <$> headers)).2 ->
  exists warnings yielded,
    excel_import._iter_verses_from_csv (headers :: rows) None =
      (excel_import.OpeningCsvFile :: excel_import.DetectedHeaderRow headers :: warnings,
       Returned yielded) /\
    (length yielded + length warnings = length rows)%nat /\
    (forall n, n ∈ warnings ->
       exists i, (i < length rows)%nat /\ skip_notice (2 + Z.of_nat i) n).
Proof.
  intros [mapping Hmapping]. unfold excel_import._iter_verses_from_csv.
  destruct (detect_complete (Some <$> headers) mapping Hmapping) as [Hnotes Hcomplete].
  destruct (excel_import._detect_column_mapping (Some <$> headers)) as [notes m].
  cbn [fst snd] in *. subst notes m.
  destruct (csv_rows_spec mapping None Hcomplete rows 2 0)
    as (out & ys & -> & _ & Hout & _ & Hall).
  exists out, ys. split; [done|]. split; [by apply Hall|].
  intros n Hin. by destruct (Hout n Hin) as [?|(m & ? & _)].
Qed.

Lemma csv_import_reports_every_skipped_row_witness :
  exists warnings yielded,
    excel_import._iter_verses_from_csv
      [["Book Name"; "Ch"; "V"; "Text"];
       ["Genesis"; "1"; "1"; " In the beginning "];
       ["Genesis"; "1"];
       ["Genesis"; "x"; "2"; "t"];
       [" "; "1"; "3"; "t"];
       ["John"; " 3 "; "16"; "For God"]] None =
      (excel_import.OpeningCsvFile
         :: excel_import.DetectedHeaderRow ["Book Name"; "Ch"; "V"; "Text"] :: warnings,
       Returned yielded) /\
    (length yielded + length warnings =
     length [["Genesis"; "1"; "1"; " In the beginning "];
             ["Genesis"; "1"];
             ["Genesis"; "x"; "2"; "t"];
             [" "; "1"; "3"; "t"];
             ["John"; " 3 "; "16"; "For God"]])%nat /\
    (forall n, n ∈ warnings ->
       exists i,
         (i < length [["Genesis"; "1"; "1"; " In the beginning "];
                      ["Genesis"; "1"];
                      ["Genesis"; "x"; "2"; "t"];
                      [" "; "1"; "3"; "t"];
                      ["John"; " 3 "; "16"; "For God"]])%nat /\
         skip_notice (2 + Z.of_nat i) n).
Proof.
  apply (csv_import_reports_every_skipped_row ["Book Name"; "Ch"; "V"; "Text"]).
  by eexists.
Defined.

(** ** The rows prepared for the database *)

Lemma lookup_in_canon canon k n :
  loader._build_book_lookup canon !! k = Some n -> is_Some (pydict.get canon n).
Proof.
  rewrite build_book_lookup_fold.
  intros [(meta & Hin & _)|Hk]%fold_add_book_source.
  - by eapply pydict_get_elem.
  - by rewrite lookup_empty in Hk.
Qed.

Lemma resolve_book_first_key canon token :
  loader._resolve_book token (loader._build_book_lookup canon) =
  (fun num => (num, None)) <$>
    first_key [token; py.lower token] (loader._build_book_lookup canon).
Proof.
  unfold loader._resolve_book. cbn [first_key].
  destruct (loader._build_book_lookup canon !! token); [done|].
  by destruct (loader._build_book_lookup canon !! py.lower token).
Qed.

(** One turn of the loop, by the outcome of the resolution. *)
Lemma prepare_db_rows_cons translation_code canon r rows :
  import_bible.prepare_db_rows translation_code canon
    (loader._build_book_lookup canon) (r :: rows) =
  let rest :=
    import_bible.prepare_db_rows translation_code canon
      (loader._build_book_lookup canon) rows in
  match first_key [excel_import.book r; py.lower (excel_import.book r)]
          (loader._build_book_lookup canon) with
  | None =>
      (import_bible.CannotResolveBook (excel_import.raw_row_index r) (excel_import.book r)
         :: rest.1,
       match rest.2 with
       | Returned (db_rows, skipped) => Returned (db_rows, skipped + 1)
       | Raised e => Raised e
       end)
  | Some num =>
      match pydict.get canon num with
      | None => ([], Raised KeyError)
      | Some meta =>
          (rest.1,
           match rest.2 with
           | Returned (db_rows, skipped) =>
               Returned (prepared translation_code num meta r :: db_rows, skipped)
           | Raised e => Raised e
           end)
      end
  end.
Proof.
  cbn [import_bible.prepare_db_rows]. rewrite resolve_book_first_key. cbv zeta.
  destruct (first_key _ _) as [num|]; cbn [fmap option_fmap option_map].
  - destruct (pydict.get canon num) as [meta|]; [|done].
    destruct (import_bible.prepare_db_rows _ _ _ rows) as [out rest]. cbn [fst snd].
    f_equal. destruct rest as [[db_rows skipped]|]; [|done].
    unfold prepared, model.to_normalized. cbn [model.chapter model.verse].
    by destruct (py.strip (excel_import.text r)).
  - by destruct (import_bible.prepare_db_rows _ _ _ rows) as [out rest].
Qed.

(** X21: the import prepares a database row for every row of the file whose
    book resolves, by the rule that the query facades use, and for no other;
    it never raises.  The prepared rows keep the order of the file; each
    carries the canon's code of the resolved book, the chapter and the verse
    of the file row, the normalized reference of the three, and the
    stripped text with its number of words.  Every row that does not
    resolve is counted and reported, so the rows prepared and the rows
    skipped are as many as the rows of the file. *)
Theorem import_prepares_every_resolvable_row translation_code canon rows :
  let book_lookup := loader._build_book_lookup canon in
  let resolved (r : excel_import.ExcelVerseRow) :=
    first_key [excel_import.book r; py.lower (excel_import.book r)] book_lookup in
  exists out db_rows skipped,
    import_bible.prepare_db_rows translation_code canon book_lookup rows =
      (out, Returned (db_rows, skipped)) /\
    db_rows =
      omap (fun r => num ← resolved r;
                     meta ← pydict.get canon num;
                     Some (prepared translation_code num meta r)) rows /\
    Z.of_nat (length db_rows) + skipped = Z.of_nat (length rows) /\
    Z.of_nat (length out) = skipped /\
    (forall r, r ∈ rows ->
       match resolved r with
       | Some num =>
           exists meta, pydict.get canon num = Some meta /\
             prepared translation_code num meta r ∈ db_rows
       | None =>
           import_bible.CannotResolveBook (excel_import.raw_row_index r)
             (excel_import.book r) ∈ out
       end).
Proof.
  intros book_lookup resolved. subst book_lookup.
  induction rows as [|r rows (out & db_rows & skipped & IH & Hdb & Hlen & Hout & Hall)].
  { exists [], [], 0. repeat (split; [done|]). by intros r ?%elem_of_nil. }
  rewrite prepare_db_rows_cons, IH. cbv zeta. cbn [fst snd omap list_omap].
  fold (omap (M:=list) (fun r => num ← resolved r;
                                meta ← pydict.get canon num;
                                Some (prepared translation_code num meta r))).
  rewrite <- Hdb. unfold resolved at 1.
  destruct (first_key _ _) as [num|] eqn:Hnum; cbn [mbind option_bind].
  - destruct (first_key_source _ _ _ Hnum) as (k & _ & Hk).
    destruct (lookup_in_canon canon k num Hk) as [meta Hmeta]. rewrite Hmeta.
    cbn [mbind option_bind].
    exists out, (prepared translation_code num meta r :: db_rows), skipped.
    split; [done|]. split; [done|]. split; [cbn [length]; lia|]. split; [done|].
    intros r' [->|Hin]%elem_of_cons.
    + unfold resolved. rewrite Hnum. exists meta. split; [done|]. apply list_elem_of_here.
    + specialize (Hall r' Hin). destruct (resolved r') as [num'|]; [|done].
      destruct Hall as (meta' & ? & ?). exists meta'. split; [done|].
      by apply list_elem_of_further.
  - eexists (_ :: out), db_rows, (skipped + 1).
    split; [done|]. split; [done|]. split; [cbn [length]; lia|].
    split; [cbn [length]; lia|].
    intros r' [->|Hin]%elem_of_cons.
    + unfold resolved. rewrite Hnum. apply list_elem_of_here.
    + specialize (Hall r' Hin). destruct (resolved r') as [num'|]; [done|].
      by apply list_elem_of_further.
Qed.

(** ** Normalized references of the prepared rows *)

Lemma lower_upper s : py.lower (py.upper s) = py.lower s.
Proof.
  induction s as [|c s IH]; cbn [py.lower py.upper]; [done|].
  rewrite IH. f_equal. each_char c.
Qed.

Lemma prepared_normalized_ref translation_code num meta r :
  db_normalized_ref (prepared translation_code num meta r) =
  model.to_normalized
    {| model.book_num := num;
       model.chapter := excel_import.chapter r;
       model.verse := excel_import.verse r |}
    (loader.code meta).
Proof. reflexivity. Qed.

Lemma prepare_db_rows_source translation_code canon rows out db_rows skipped d :
  import_bible.prepare_db_rows translation_code canon
    (loader._build_book_lookup canon) rows = (out, Returned (db_rows, skipped)) ->
  d ∈ db_rows ->
  exists r num meta,
    r ∈ rows /\
    first_key [excel_import.book r; py.lower (excel_import.book r)]
      (loader._build_book_lookup canon) = Some num /\
    pydict.get canon num = Some meta /\
    d = prepared translation_code num meta r.
Proof.
  revert out db_rows skipped.
  induction rows as [|r rows IH]; intros out db_rows skipped.
  { intros [= <- <- <-] Hd. by apply elem_of_nil in Hd. }
  rewrite prepare_db_rows_cons. cbv zeta.
  destruct (import_bible.prepare_db_rows _ _ _ rows) as [out' [[db' sk']|e]] eqn:Hrest;
    cbn [fst snd].
  - destruct (first_key _ _) as [num|] eqn:Hnum.
    + destruct (pydict.get canon num) as [meta|] eqn:Hmeta; [|done].
      intros [= <- <- <-] [->|Hd]%elem_of_cons.
      * exists r, num, meta. split; [apply list_elem_of_here|done].
      * destruct (IH _ _ _ eq_refl Hd) as (r' & num' & meta' & Hin & ?).
        exists r', num', meta'. split; [by apply list_elem_of_further|done].
    + intros [= <- <- <-] Hd.
      destruct (IH _ _ _ eq_refl Hd) as (r' & num' & meta' & Hin & ?).
      exists r', num', meta'. split; [by apply list_elem_of_further|done].
  - destruct (first_key _ _) as [num|]; [|done].
    by destruct (pydict.get canon num).
Qed.

(** X22: among the rows that one import prepares, under a canon in which no
    lookup key belongs to two books, the normalized reference identifies the
    verse: two prepared rows have the same normalized reference exactly when
    they have the same book number, chapter and verse. *)
Theorem normalized_reference_identifies_the_verse translation_code canon rows
    out db_rows skipped d1 d2 :
  no_collisions canon = true ->
  import_bible.prepare_db_rows translation_code canon
    (loader._build_book_lookup canon) rows = (out, Returned (db_rows, skipped)) ->
  d1 ∈ db_rows -> d2 ∈ db_rows ->
  db_normalized_ref d1 = db_normalized_ref d2 <->
  db_book_num d1 = db_book_num d2 /\ db_chapter d1 = db_chapter d2 /\
  db_verse d1 = db_verse d2.
Proof.
  intros Hcanon Hrows Hd1 Hd2.
  destruct (prepare_db_rows_source _ _ _ _ _ _ _ Hrows Hd1)
    as (r1 & n1 & m1 & _ & _ & Hm1 & ->).
  destruct (prepare_db_rows_source _ _ _ _ _ _ _ Hrows Hd2)
    as (r2 & n2 & m2 & _ & _ & Hm2 & ->).
  rewrite !prepared_normalized_ref, to_normalized_eq.
  cbn [db_book_num db_chapter db_verse prepared model.chapter model.verse].
  split.
  - intros (Hcode & -> & ->). split; [|done].
    apply (no_collisions_spec canon Hcanon n1 m1 n2 m2 (py.lower (loader.code m1))).
    + by apply pydict_get_source.
    + by apply pydict_get_source.
    + unfold loader.book_keys. apply list_elem_of_further, list_elem_of_here.
    + rewrite <- (lower_upper (loader.code m1)), Hcode, lower_upper.
      unfold loader.book_keys. apply list_elem_of_further, list_elem_of_here.
  - intros (-> & -> & ->). rewrite Hm1 in Hm2. by injection Hm2 as ->.
Qed.

Lemma normalized_reference_identifies_the_verse_witness :
  db_normalized_ref ("KJV", 1, "GEN", 1, 1, "GEN.1.1", "In the beginning", 3) =
  db_normalized_ref ("KJV", 1, "GEN", 1, 2, "GEN.1.2", "And the earth", 3) <->
  db_book_num ("KJV", 1, "GEN", 1, 1, "GEN.1.1", "In the beginning", 3) =
  db_book_num ("KJV", 1, "GEN", 1, 2, "GEN.1.2", "And the earth", 3) /\
  db_chapter ("KJV", 1, "GEN", 1, 1, "GEN.1.1", "In the beginning", 3) =
  db_chapter ("KJV", 1, "GEN", 1, 2, "GEN.1.2", "And the earth", 3) /\
  db_verse ("KJV", 1, "GEN", 1, 1, "GEN.1.1", "In the beginning", 3) =
  db_verse ("KJV", 1, "GEN", 1, 2, "GEN.1.2", "And the earth", 3).
Proof.
  apply (normalized_reference_identifies_the_verse "KJV" (canon_of example.world)
           [{| excel_import.book := "genesis"; excel_import.chapter := 1;
               excel_import.verse := 1; excel_import.text := " In the beginning ";
               excel_import.raw_row_index := 2 |};
            {| excel_import.book := "Exodus"; excel_import.chapter := 1;
               excel_import.verse := 1; excel_import.text := "Now these";
               excel_import.raw_row_index := 3 |};
            {| excel_import.book := "GEN"; excel_import.chapter := 1;
               excel_import.verse := 2; excel_import.text := "And the earth";
               excel_import.raw_row_index := 4 |}]
           [import_bible.CannotResolveBook 3 "Exodus"]
           [("KJV", 1, "GEN", 1, 1, "GEN.1.1", "In the beginning", 3);
            ("KJV", 1, "GEN", 1, 2, "GEN.1.2", "And the earth", 3)]
           1).
  - reflexivity.
  - reflexivity.
  - apply list_elem_of_here.
  - apply list_elem_of_further, list_elem_of_here.
Defined.

(** ** From the import to the queries *)

Lemma parse_by_spec_verse b c v :
  py.strip b <> EmptyString -> 0 <= v ->
  parse_by_spec (b +:+ String " " (verse_tail c v)) = Some (py.strip b, c, v, v).
Proof.
  intros Hb Hv.
  pose proof (search_parse_verse_tail b c v) as H.
  rewrite search_parse_refines in H. unfold single_verse_result in H.
  rewrite decide_False in H by (intros [?|?]; [lia|done]). by injection H.
Qed.

(** X23: the import and the passage facade fit together.  A row of the file
    whose book token is stripped and resolves, and whose verse is not
    negative, is prepared as a database row that, once it is in the table,
    the passage facade returns for the reference written from the file
    row's own book token, chapter and verse, in any spelling of the
    translation code (the numbers fitting SQLite's INTEGER). *)
Theorem imported_verse_is_found_by_its_reference w translation_code r num meta :
  py.strip (excel_import.book r) = excel_import.book r ->
  excel_import.book r <> EmptyString ->
  0 <= excel_import.verse r ->
  resolve w (excel_import.book r) = Some num ->
  pydict.get (canon_of w) num = Some meta ->
  forallb sqlite.fits_integer
    [num; excel_import.chapter r; excel_import.verse r; excel_import.verse r] = true ->
  {| sqlite.translation_code := py.upper translation_code;
     sqlite.book_num := db_book_num (prepared (py.upper translation_code) num meta r);
     sqlite.book_code := loader.code meta;
     sqlite.chapter := db_chapter (prepared (py.upper translation_code) num meta r);
     sqlite.verse := db_verse (prepared (py.upper translation_code) num meta r);
     sqlite.text := db_text (prepared (py.upper translation_code) num meta r) |}
    ∈ table_of w ->
  (py.upper translation_code, num, loader.code meta,
   excel_import.chapter r, excel_import.verse r, py.strip (excel_import.text r))
    ∈ rows_of (search.get_passage w
                 (excel_import.book r +:+ " " +:+ py.str (excel_import.chapter r) +:+ ":"
                    +:+ py.str (excel_import.verse r))
                 translation_code).
Proof.
  intros Hstrip Hne Hv Hn Hmeta Hfits Hstored.
  cbn [prepared db_book_num db_chapter db_verse db_text] in Hstored.
  unfold rows_of. rewrite get_passage_result.
  change (excel_import.book r +:+ " " +:+ py.str (excel_import.chapter r) +:+ ":"
            +:+ py.str (excel_import.verse r))
    with (excel_import.book r +:+
            String " " (verse_tail (excel_import.chapter r) (excel_import.verse r))).
  rewrite parse_by_spec_verse by (rewrite ?Hstrip; done).
  rewrite Hstrip, Hn. unfold guarded, table_of in *.
  destruct (db w) as [|table]; [by apply elem_of_nil in Hstored|].
  rewrite Hfits. apply list_elem_of_fmap.
  exists {| sqlite.translation_code := py.upper translation_code;
            sqlite.book_num := num;
            sqlite.book_code := loader.code meta;
            sqlite.chapter := excel_import.chapter r;
            sqlite.verse := excel_import.verse r;
            sqlite.text := py.strip (excel_import.text r) |}.
  split; [reflexivity|]. apply select_passage_elem.
  split; [exact Hstored|]. cbn. repeat split; lia.
Qed.

Lemma imported_verse_is_found_by_its_reference_witness :
  ("KJV", 1, "GEN", 1, 1, "In the beginning")
    ∈ rows_of (search.get_passage example.world "genesis 1:1" "kjv").
Proof.
  apply (imported_verse_is_found_by_its_reference example.world "kjv"
           {| excel_import.book := "genesis"; excel_import.chapter := 1;
              excel_import.verse := 1; excel_import.text := " In the beginning ";
              excel_import.raw_row_index := 2 |}
           1 {| loader.code := "GEN"; loader.name := "Genesis"; loader.testament := "OT" |});
    try reflexivity; [done|cbn; lia|].
  vm_compute. apply list_elem_of_further, list_elem_of_here.
Defined.

(** ** Verse numbers below one *)

(** X24: the passage facade and the parallel facade return no verse with a
    negative number, whatever the reference, since the first verse of a
    parsed range is never negative.  The import nevertheless accepts such a
    number from a file and prepares a row for it. *)
Theorem queries_return_no_negative_verse :
  (forall w ref translation_code,
     Forall (fun row => 0 <= row_verse row)
       (rows_of (search.get_passage w ref translation_code))) /\
  (forall w ref translation_codes,
     Forall (fun record => 0 <= parallel_verse record)
       (rows_of (parallel.get_parallel_verses w ref translation_codes))) /\
  (excel_import._iter_verses_from_csv
     [["book"; "chapter"; "verse"; "text"]; ["Genesis"; "1"; "-5"; "In the beginning"]]
     None).2 =
    Returned [{| excel_import.book := "Genesis"; excel_import.chapter := 1;
                 excel_import.verse := -5; excel_import.text := "In the beginning";
                 excel_import.raw_row_index := 2 |}] /\
  (import_bible.prepare_db_rows "KJV" (canon_of example.world)
     (loader._build_book_lookup (canon_of example.world))
     [{| excel_import.book := "Genesis"; excel_import.chapter := 1;
         excel_import.verse := -5; excel_import.text := "In the beginning";
         excel_import.raw_row_index := 2 |}]).2 =
    Returned ([("KJV", 1, "GEN", 1, -5, "GEN.1.-5", "In the beginning", 3)], 0).
Proof.
  split; [|split; [|split; reflexivity]].
  - intros w ref t.
    destruct (get_passage_rows w ref t) as [->|(b & c & vs & ve & num & Hp & _ & ->)];
      [constructor|].
    apply Forall_forall. intros row (r & -> & Hr)%list_elem_of_fmap.
    apply select_passage_elem in Hr as (_ & _ & _ & _ & Hv).
    apply parse_by_spec_start in Hp. cbn. lia.
  - intros w ref codes.
    destruct (get_parallel_verses_rows w ref codes)
      as [->|(b & c & vs & ve & num & Hp & _ & _ & ->)]; [constructor|].
    apply Forall_forall. intros [[[bc ch] v] texts] Hin.
    apply parallel_rows_elem in Hin as (_ & _ & Hv & _).
    apply parse_by_spec_start in Hp. cbn. lia.
Qed.

(** ** The messages of the facades *)













(** ** The commands and the exceptions of the facades *)


